(** * ScreenScraper client: a shallow embedding of [screenscraper.py]

    The development follows the layout of the Python module:
    - [Py]       : the fragment of Python's dynamic values, exceptions and
                   string operations the module relies on;
    - [Digest]   : MD5, SHA-1 and CRC-32 as [hashlib] and [zlib] compute
                   them;
    - [Model]    : [GameMedia], [GameInfo], [ScreenScraperClient] and their
                   methods, over an explicit world (clock, network, files);
    - [Concrete] : a runtime and sample data to compute with;
    - [Spec]     : the vocabulary of the specification (error conditions,
                   selection rules) the properties are stated in;
    - [Notions]  : further vocabulary for the requests and the mapper;
    - [Download] : [GameMedia.download], [download_media], [quick_search]
                   and [download_box_art], over the web and the disk of
                   the media files;
    - [Shelf]    : the vocabulary of the downloads, a host and sample
                   disks;
    - the properties, claim by claim, then those of the rest of the code.

    Strings are byte strings (UTF-8 as the source file stores them). *)

From Stdlib Require Import ZArith List String Ascii Strings.Byte Bool Lia.
From Stdlib Require Import DecimalString PrimFloat.
From Equations Require Import Equations.
From Equations.Prop Require Import Logic.
Import ListNotations.

Local Open Scope string_scope.
Local Open Scope Z_scope.

#[local] Set Warnings "-register-all".

(* ===================================================================== *)
(** ** Python values, exceptions and the result monad                     *)
(* ===================================================================== *)

Module Py.

(** What [json.loads] can return: None, bool, int, float, str, list, dict.
    A dict keeps its keys in insertion order; lookup takes the first
    binding of a key. *)
Inductive pyval : Type :=
| PNone
| PBool (b : bool)
| PInt (n : Z)
| PFloat (f : float)
| PStr (s : string)
| PList (xs : list pyval)
| PDict (kvs : list (string * pyval)).

(** The exception classes that can reach a caller of the module. *)
Inductive exc_class : Type :=
| Exception
| ValueError
| JSONDecodeError        (* json.JSONDecodeError, a ValueError *)
| OSError
| FileNotFoundError      (* an OSError *)
| AttributeError
| TypeError
| KeyError
| IndexError
| RequestException       (* requests.RequestException, an OSError *)
| ScreenScraperError
| APIQuotaExceededError
| APIClosedError
| GameNotFoundError.

Record exn : Type := mk_exn { exn_class : exc_class; exn_msg : string }.

Inductive result (A : Type) : Type :=
| Ok (a : A)
| Raise (e : exn).
Arguments Ok {A} a.
Arguments Raise {A} e.

Definition exc_class_eqb (a b : exc_class) : bool :=
  match a, b with
  | Exception, Exception | ValueError, ValueError
  | JSONDecodeError, JSONDecodeError | OSError, OSError
  | FileNotFoundError, FileNotFoundError | AttributeError, AttributeError
  | TypeError, TypeError | KeyError, KeyError | IndexError, IndexError
  | RequestException, RequestException
  | ScreenScraperError, ScreenScraperError
  | APIQuotaExceededError, APIQuotaExceededError
  | APIClosedError, APIClosedError
  | GameNotFoundError, GameNotFoundError => true
  | _, _ => false
  end.

(** The base class among the classes above, as the [class] statements,
    [requests] and the standard library declare it. *)
Definition base_class (c : exc_class) : option exc_class :=
  match c with
  | Exception => None
  | JSONDecodeError => Some ValueError
  | FileNotFoundError | RequestException => Some OSError
  | APIQuotaExceededError | APIClosedError | GameNotFoundError =>
      Some ScreenScraperError
  | _ => Some Exception
  end.

(** [issubclass c d]; the hierarchy has depth three. *)
Definition issubclass (c d : exc_class) : bool :=
  exc_class_eqb c d ||
  match base_class c with
  | None => false
  | Some c1 =>
      exc_class_eqb c1 d ||
      match base_class c1 with
      | None => false
      | Some c2 => exc_class_eqb c2 d
      end
  end.

Definition bind {A B : Type} (r : result A) (k : A -> result B) : result B :=
  match r with
  | Ok a => k a
  | Raise e => Raise e
  end.

Definition raise_ {A : Type} (c : exc_class) (msg : string) : result A :=
  Raise (mk_exn c msg).

Notation "'let*' x ':=' r 'in' k" := (bind r (fun x => k))
  (at level 10, x name, r at level 100, k at level 200).

(** *** Strings *)

Definition LF : ascii := ascii_of_nat 10.
Definition TAB : ascii := ascii_of_nat 9.

(** [s.startswith(p)] *)
Fixpoint str_prefix (p s : string) : bool :=
  match p, s with
  | EmptyString, _ => true
  | String _ _, EmptyString => false
  | String a p', String b s' => Ascii.eqb a b && str_prefix p' s'
  end.

(** [sub in s] for two strings. *)
Fixpoint str_contains (sub s : string) : bool :=
  str_prefix sub s ||
  match s with
  | EmptyString => false
  | String _ rest => str_contains sub rest
  end.

(** [s.replace(old, new)] for a non-empty [old]: every occurrence, left to
    right, without overlap. [skip] counts the characters of a matched
    occurrence still to be dropped. *)
Fixpoint str_replace_from (old new : string) (skip : nat) (s : string) : string :=
  match s with
  | EmptyString => EmptyString
  | String c rest =>
      match skip with
      | S k => str_replace_from old new k rest
      | O =>
          if str_prefix old s
          then new ++ str_replace_from old new (Nat.pred (String.length old)) rest
          else String c (str_replace_from old new O rest)
      end
  end.

Definition str_replace (old new s : string) : string :=
  str_replace_from old new O s.

Definition str_join (sep : string) (parts : list string) : string :=
  String.concat sep parts.

(** [str(n)] for an int. *)
Definition str_of_Z (n : Z) : string := NilZero.string_of_int (Z.to_int n).

(** *** Dictionaries *)

Section Dict.
Context {V : Type}.

Fixpoint dict_lookup (k : string) (d : list (string * V)) : option V :=
  match d with
  | [] => None
  | (k', v) :: rest => if String.eqb k k' then Some v else dict_lookup k rest
  end.

Definition dict_has (k : string) (d : list (string * V)) : bool :=
  match dict_lookup k d with Some _ => true | None => false end.

(** [d[k] = v]: an existing key keeps its place, a new one goes last. *)
Fixpoint dict_set (k : string) (v : V) (d : list (string * V)) : list (string * V) :=
  match d with
  | [] => [(k, v)]
  | (k', v') :: rest =>
      if String.eqb k k' then (k, v) :: rest else (k', v') :: dict_set k v rest
  end.

(** [d.update(other)] *)
Definition dict_update (d other : list (string * V)) : list (string * V) :=
  fold_left (fun acc kv => dict_set (fst kv) (snd kv) acc) other d.

Definition dict_keys (d : list (string * V)) : list string := map fst d.

Fixpoint dict_remove (k : string) (d : list (string * V)) : list (string * V) :=
  match d with
  | [] => []
  | (k', v) :: rest =>
      if String.eqb k k' then dict_remove k rest else (k', v) :: dict_remove k rest
  end.
End Dict.

(** *** Operations on dynamic values *)

Definition type_name (v : pyval) : string :=
  match v with
  | PNone => "NoneType"
  | PBool _ => "bool"
  | PInt _ => "int"
  | PFloat _ => "float"
  | PStr _ => "str"
  | PList _ => "list"
  | PDict _ => "dict"
  end.

(** [bool(v)] *)
Definition truthy (v : pyval) : bool :=
  match v with
  | PNone => false
  | PBool b => b
  | PInt n => negb (n =? 0)
  | PFloat f => negb (PrimFloat.eqb f 0%float)
  | PStr s => negb (String.eqb s "")
  | PList xs => match xs with [] => false | _ => true end
  | PDict kvs => match kvs with [] => false | _ => true end
  end.

(** [v == s] for a string [s]: only an equal str is equal to a str. *)
Definition eq_str (v : pyval) (s : string) : bool :=
  match v with
  | PStr t => String.eqb t s
  | _ => false
  end.

(** [v.get(k, default)]: only a dict has the method. *)
Definition py_get (v : pyval) (k : string) (default : pyval) : result pyval :=
  match v with
  | PDict kvs =>
      Ok (match dict_lookup k kvs with Some x => x | None => default end)
  | _ => raise_ AttributeError
           ("'" ++ type_name v ++ "' object has no attribute 'get'")
  end.

(** [k in v] for a string [k]: key of a dict, element of a list, substring
    of a str; the other types are not containers. *)
Definition py_contains (k : string) (v : pyval) : result bool :=
  match v with
  | PDict kvs => Ok (dict_has k kvs)
  | PList xs => Ok (existsb (fun x => eq_str x k) xs)
  | PStr s => Ok (str_contains k s)
  | _ => raise_ TypeError
           ("argument of type '" ++ type_name v ++ "' is not iterable")
  end.

(** [v[k]] for a string [k]. *)
Definition py_getitem (v : pyval) (k : string) : result pyval :=
  match v with
  | PDict kvs =>
      match dict_lookup k kvs with
      | Some x => Ok x
      | None => raise_ KeyError ("'" ++ k ++ "'")
      end
  | PList _ => raise_ TypeError "list indices must be integers or slices, not str"
  | PStr _ => raise_ TypeError "string indices must be integers, not 'str'"
  | _ => raise_ TypeError ("'" ++ type_name v ++ "' object is not subscriptable")
  end.

(** The items a [for] loop over [v] visits: the elements of a list, the
    keys of a dict, the characters of a str. *)
Definition py_iter (v : pyval) : result (list pyval) :=
  match v with
  | PList xs => Ok xs
  | PDict kvs => Ok (map (fun k => PStr k) (dict_keys kvs))
  | PStr s => Ok (map (fun c => PStr (String c EmptyString)) (list_ascii_of_string s))
  | _ => raise_ TypeError ("'" ++ type_name v ++ "' object is not iterable")
  end.

(** [v[0]] *)
Definition py_first (v : pyval) : result pyval :=
  match v with
  | PList (x :: _) => Ok x
  | PList [] => raise_ IndexError "list index out of range"
  | PStr (String c _) => Ok (PStr (String c EmptyString))
  | PStr EmptyString => raise_ IndexError "string index out of range"
  | PDict _ => raise_ KeyError "0"
  | _ => raise_ TypeError ("'" ++ type_name v ++ "' object is not subscriptable")
  end.

(** The library functions the module calls and this development does not
    define: [json.loads] (None when it raises [JSONDecodeError], with
    the message [json_error] gives), [str.lower], and [repr] for the values [str()] does not leave as they
    are. *)
Class Runtime : Type := {
  json_loads : string -> option pyval;
  json_error : string -> string;
  str_lower : string -> string;
  py_repr : pyval -> string
}.

(** [v.lower()]: a str method. *)
Definition py_lower `{Runtime} (v : pyval) : result string :=
  match v with
  | PStr s => Ok (str_lower s)
  | _ => raise_ AttributeError
           ("'" ++ type_name v ++ "' object has no attribute 'lower'")
  end.

(** [str(v)] *)
Definition py_str `{Runtime} (v : pyval) : string :=
  match v with
  | PStr s => s
  | PNone => "None"
  | PBool true => "True"
  | PBool false => "False"
  | PInt n => str_of_Z n
  | _ => py_repr v
  end.

End Py.

(* ===================================================================== *)
(** ** Digests: what [hashlib.md5], [hashlib.sha1] and [zlib.crc32] compute *)
(* ===================================================================== *)

Module Digest.

Definition Z_of_byte (b : byte) : Z := Z.of_N (Byte.to_N b).

Definition byte_of_Z (z : Z) : byte :=
  match Byte.of_N (Z.to_N (z mod 256)) with
  | Some b => b
  | None => x00
  end.

Definition mask32 : Z := 0xFFFFFFFF.
Definition w32 (x : Z) : Z := Z.land x mask32.
Definition not32 (x : Z) : Z := Z.lxor (w32 x) mask32.
Definition add32 (x y : Z) : Z := w32 (x + y).
Definition rotl32 (x : Z) (n : Z) : Z :=
  w32 (Z.lor (Z.shiftl x n) (Z.shiftr (w32 x) (32 - n))).

(** Both digests pad the message with 0x80, zero bytes up to 56 mod 64, and
    the bit length on eight bytes. *)
Definition pad_zeros (len : nat) : nat := ((64 - ((len + 9) mod 64)) mod 64)%nat.

Definition le_bytes (count : nat) (x : Z) : list Z :=
  map (fun i => Z.land (Z.shiftr x (8 * Z.of_nat i)) 255) (seq 0 count).

Definition be_bytes (count : nat) (x : Z) : list Z := rev (le_bytes count x).

Definition pad_message (length_bytes : Z -> list Z) (msg : list byte) : list Z :=
  map Z_of_byte msg ++ [128] ++ repeat 0 (pad_zeros (List.length msg))
    ++ length_bytes (8 * Z.of_nat (List.length msg)).

Fixpoint split_blocks (count : nat) (size : nat) (l : list Z) : list (list Z) :=
  match count with
  | O => []
  | S c => firstn size l :: split_blocks c size (skipn size l)
  end.

Definition blocks512 (padded : list Z) : list (list Z) :=
  split_blocks (List.length padded / 64)%nat 64%nat padded.

Definition word_le (bs : list Z) : Z :=
  fold_right (fun b acc => b + 256 * acc) 0 bs.

Definition word_be (bs : list Z) : Z :=
  fold_left (fun acc b => 256 * acc + b) bs 0.

Definition words (word : list Z -> Z) (block : list Z) : list Z :=
  map word (split_blocks 16%nat 4%nat block).

(** *** MD5 (RFC 1321) *)

Definition md5_K : list Z :=
  [ 0xd76aa478; 0xe8c7b756; 0x242070db; 0xc1bdceee;
    0xf57c0faf; 0x4787c62a; 0xa8304613; 0xfd469501;
    0x698098d8; 0x8b44f7af; 0xffff5bb1; 0x895cd7be;
    0x6b901122; 0xfd987193; 0xa679438e; 0x49b40821;
    0xf61e2562; 0xc040b340; 0x265e5a51; 0xe9b6c7aa;
    0xd62f105d; 0x02441453; 0xd8a1e681; 0xe7d3fbc8;
    0x21e1cde6; 0xc33707d6; 0xf4d50d87; 0x455a14ed;
    0xa9e3e905; 0xfcefa3f8; 0x676f02d9; 0x8d2a4c8a;
    0xfffa3942; 0x8771f681; 0x6d9d6122; 0xfde5380c;
    0xa4beea44; 0x4bdecfa9; 0xf6bb4b60; 0xbebfbc70;
    0x289b7ec6; 0xeaa127fa; 0xd4ef3085; 0x04881d05;
    0xd9d4d039; 0xe6db99e5; 0x1fa27cf8; 0xc4ac5665;
    0xf4292244; 0x432aff97; 0xab9423a7; 0xfc93a039;
    0x655b59c3; 0x8f0ccc92; 0xffeff47d; 0x85845dd1;
    0x6fa87e4f; 0xfe2ce6e0; 0xa3014314; 0x4e0811a1;
    0xf7537e82; 0xbd3af235; 0x2ad7d2bb; 0xeb86d391 ].

Definition md5_shift (i : nat) : Z :=
  let col := (i mod 4)%nat in
  match (i / 16)%nat with
  | 0%nat => nth col [7; 12; 17; 22] 0
  | 1%nat => nth col [5; 9; 14; 20] 0
  | 2%nat => nth col [4; 11; 16; 23] 0
  | _ => nth col [6; 10; 15; 21] 0
  end.

Definition md5_state : Type := (Z * Z * Z * Z)%type.

Definition md5_init : md5_state :=
  (0x67452301, 0xefcdab89, 0x98badcfe, 0x10325476).

Definition md5_step (M : list Z) (st : md5_state) (i : nat) : md5_state :=
  let '(a, b, c, d) := st in
  let '(f, g) :=
    match (i / 16)%nat with
    | 0%nat => (Z.lor (Z.land b c) (Z.land (not32 b) d), i)
    | 1%nat => (Z.lor (Z.land d b) (Z.land (not32 d) c), ((5 * i + 1) mod 16)%nat)
    | 2%nat => (Z.lxor b (Z.lxor c d), ((3 * i + 5) mod 16)%nat)
    | _ => (Z.lxor c (Z.lor b (not32 d)), ((7 * i) mod 16)%nat)
    end in
  let f' := add32 (add32 (add32 f a) (nth i md5_K 0)) (nth g M 0) in
  (d, add32 b (rotl32 f' (md5_shift i)), b, c).

Definition md5_block (st : md5_state) (block : list Z) : md5_state :=
  let '(a, b, c, d) := st in
  let '(a', b', c', d') := fold_left (md5_step (words word_le block)) (seq 0 64) st in
  (add32 a a', add32 b b', add32 c c', add32 d d').

(** The 16 bytes of [hashlib.md5(msg).digest()]. *)
Definition md5 (msg : list byte) : list byte :=
  let '(a, b, c, d) :=
    fold_left md5_block (blocks512 (pad_message (le_bytes 8) msg)) md5_init in
  map byte_of_Z (le_bytes 4 a ++ le_bytes 4 b ++ le_bytes 4 c ++ le_bytes 4 d).

(** *** SHA-1 (FIPS 180) *)

Definition sha1_state : Type := (Z * Z * Z * Z * Z)%type.

Definition sha1_init : sha1_state :=
  (0x67452301, 0xEFCDAB89, 0x98BADCFE, 0x10325476, 0xC3D2E1F0).

(** The message schedule, latest word first. *)
Fixpoint sha1_extend (count : nat) (rev_w : list Z) : list Z :=
  match count with
  | O => rev_w
  | S c =>
      let w := rotl32 (Z.lxor (Z.lxor (nth 2 rev_w 0) (nth 7 rev_w 0))
                              (Z.lxor (nth 13 rev_w 0) (nth 15 rev_w 0))) 1 in
      sha1_extend c (w :: rev_w)
  end.

Definition sha1_schedule (block : list Z) : list Z :=
  rev (sha1_extend 64 (rev (words word_be block))).

Definition sha1_step (W : list Z) (st : sha1_state) (i : nat) : sha1_state :=
  let '(a, b, c, d, e) := st in
  let '(f, k) :=
    match (i / 20)%nat with
    | 0%nat => (Z.lor (Z.land b c) (Z.land (not32 b) d), 0x5A827999)
    | 1%nat => (Z.lxor b (Z.lxor c d), 0x6ED9EBA1)
    | 2%nat => (Z.lor (Z.lor (Z.land b c) (Z.land b d)) (Z.land c d), 0x8F1BBCDC)
    | _ => (Z.lxor b (Z.lxor c d), 0xCA62C1D6)
    end in
  let temp := add32 (add32 (add32 (add32 (rotl32 a 5) f) e) k) (nth i W 0) in
  (temp, a, rotl32 b 30, c, d).

Definition sha1_block (st : sha1_state) (block : list Z) : sha1_state :=
  let '(a, b, c, d, e) := st in
  let '(a', b', c', d', e') := fold_left (sha1_step (sha1_schedule block)) (seq 0 80) st in
  (add32 a a', add32 b b', add32 c c', add32 d d', add32 e e').

(** The 20 bytes of [hashlib.sha1(msg).digest()]. *)
Definition sha1 (msg : list byte) : list byte :=
  let '(a, b, c, d, e) :=
    fold_left sha1_block (blocks512 (pad_message (be_bytes 8) msg)) sha1_init in
  map byte_of_Z (be_bytes 4 a ++ be_bytes 4 b ++ be_bytes 4 c ++ be_bytes 4 d
                 ++ be_bytes 4 e).

(** *** CRC-32 *)

Fixpoint crc32_bits (count : nat) (crc : Z) : Z :=
  match count with
  | O => crc
  | S c =>
      crc32_bits c (if Z.testbit crc 0
                    then Z.lxor (Z.shiftr crc 1) 0xEDB88320
                    else Z.shiftr crc 1)
  end.

Definition crc32_byte (crc : Z) (b : byte) : Z :=
  crc32_bits 8 (Z.lxor crc (Z_of_byte b)).

(** [zlib.crc32(data, value)]: the running checksum [value] continued over
    [data]. *)
Definition crc32 (data : list byte) (value : Z) : Z :=
  Z.lxor (fold_left crc32_byte data (Z.lxor (w32 value) mask32)) mask32.

(** *** Hexadecimal text *)

Definition hex_digit (alphabet : string) (d : Z) : ascii :=
  match String.get (Z.to_nat d) alphabet with
  | Some c => c
  | None => "0"%char
  end.

Definition lower_hex : string := "0123456789abcdef".
Definition upper_hex : string := "0123456789ABCDEF".

(** [digest.hex()], which is what [hexdigest()] returns: two lowercase
    digits per byte. *)
Fixpoint hexlify (bs : list byte) : string :=
  match bs with
  | [] => EmptyString
  | b :: rest =>
      String (hex_digit lower_hex (Z_of_byte b / 16))
        (String (hex_digit lower_hex (Z_of_byte b mod 16)) (hexlify rest))
  end.

Definition ascii_upper (c : ascii) : ascii :=
  let n := nat_of_ascii c in
  if ((97 <=? n) && (n <=? 122))%nat then ascii_of_nat (n - 32) else c.

(** [s.upper()] on text made of ASCII characters, as a hex digest is. *)
Fixpoint str_upper (s : string) : string :=
  match s with
  | EmptyString => EmptyString
  | String c rest => String (ascii_upper c) (str_upper rest)
  end.

(** The digits of [format(n, "X")] for [0 <= n]. *)
Definition hex_width (n : Z) : nat :=
  if n =? 0 then 1%nat else S (Z.to_nat (Z.log2 n / 4)).

Definition format_X (n : Z) : string :=
  string_of_list_ascii
    (map (fun i => hex_digit upper_hex (Z.land (Z.shiftr n (4 * Z.of_nat i)) 15))
         (rev (seq 0 (hex_width n)))).

(** [f"{n:08X}"] for [0 <= n]: zero-filled on the left up to eight
    characters, longer text is kept whole. *)
Definition format_08X (n : Z) : string :=
  let digits := format_X n in
  string_of_list_ascii (repeat "0"%char (8 - String.length digits)) ++ digits.

(** A [hashlib] object: the bytes fed to it so far. *)
Definition hash_obj : Type := list byte.
Definition hash_new : hash_obj := [].
Definition hash_update (h : hash_obj) (chunk : list byte) : hash_obj :=
  (h ++ chunk)%list.
Definition md5_hexdigest (h : hash_obj) : string := hexlify (md5 h).
Definition sha1_hexdigest (h : hash_obj) : string := hexlify (sha1 h).

End Digest.

(* ===================================================================== *)
(** ** The module: [GameMedia], [GameInfo], [ScreenScraperClient]         *)
(* ===================================================================== *)

Module Model.
Import Py Digest.

(** *** [GameMedia] and [GameInfo]

    The dataclasses annotate their fields with [str], and Python does not
    check annotations: a field holds whatever the response tree held. *)

Record GameMedia : Type := mk_GameMedia {
  media_type : pyval;
  url : pyval;
  format : pyval;
  region : pyval;
  size : pyval
}.

Record GameInfo : Type := mk_GameInfo {
  id : string;
  name : pyval;
  description : pyval;
  publisher : pyval;
  developer : pyval;
  players : pyval;
  rating : pyval;
  release_date : pyval;
  genre : pyval;
  system : pyval;
  media : list GameMedia;
  raw_data : pyval
}.

Section GameInfoMethods.
Context `{Runtime}.

Definition get_media_by_type (self : GameInfo) (media_type : string)
  : list GameMedia :=
  filter (fun m => eq_str (Model.media_type m) media_type) (media self).

Definition default_regions : list string := ["us"; "wor"; "eu"; "jp"].

(** The inner loop of [get_best_media]: the first candidate whose region
    is [region] when both are lowercased. *)
Fixpoint first_in_region (region : string) (candidates : list GameMedia)
  : result (option GameMedia) :=
  match candidates with
  | [] => Ok None
  | media :: rest =>
      bind (py_lower (Model.region media)) (fun r =>
        if String.eqb r (str_lower region)
        then Ok (Some media)
        else first_in_region region rest)
  end.

(** The outer loop: the preferences in order. *)
Fixpoint scan_regions (preferred_regions : list string)
    (candidates : list GameMedia) : result (option GameMedia) :=
  match preferred_regions with
  | [] => Ok None
  | region :: rest =>
      bind (first_in_region region candidates) (fun found =>
        match found with
        | Some media => Ok (Some media)
        | None => scan_regions rest candidates
        end)
  end.

Definition get_best_media (self : GameInfo) (media_type : string)
    (preferred_regions : option (list string)) : result (option GameMedia) :=
  let preferred_regions :=
    match preferred_regions with
    | None => default_regions
    | Some l => l
    end in
  let candidates := get_media_by_type self media_type in
  match candidates with
  | [] => Ok None
  | first :: _ =>
      bind (scan_regions preferred_regions candidates) (fun found =>
        match found with
        | Some media => Ok (Some media)
        | None => Ok (Some first)
        end)
  end.
End GameInfoMethods.

(** *** The world outside the process *)

Inductive file_state : Type :=
| Absent                                      (* [exists()] is False *)
| Unopenable (st_size : Z) (err : string)     (* exists, [open] raises OSError *)
| Regular (content : list byte).

Record response : Type := mk_response {
  status_code : Z;
  reason : string;
  resp_url : string;
  text : string
}.

Inductive http_result : Type :=
| TransportError (msg : string)   (* [session.get] raises a RequestException *)
| Response (r : response).

Definition params_t : Type := list (string * string).

Inductive event : Type :=
| EvSleep (seconds : float)
| EvGet (url : string) (params : params_t) (timeout : Z)
| EvJsonLoads (text : string)
| EvExists (path : string)
| EvStat (path : string)
| EvOpen (path : string)
| EvLogError (msg : string).

(** [clock] and [net] answer the n-th reading of the clock and the n-th
    request; [trace] lists what the process did, oldest first. *)
Record World : Type := mk_World {
  clock : nat -> float;
  net : nat -> string -> params_t -> http_result;
  fs : string -> file_state;
  clock_reads : nat;
  net_calls : nat;
  trace : list event
}.

Definition emit (e : event) (w : World) : World :=
  mk_World (clock w) (net w) (fs w) (clock_reads w) (net_calls w)
           (trace w ++ [e]).

(** *** [ScreenScraperClient] *)

Definition BASE_URL : string := "https://www.screenscraper.fr/api2".

Definition PLATFORMS : list (string * Z) :=
  [ ("nes", 3); ("snes", 4); ("n64", 14); ("gamecube", 13); ("wii", 16);
    ("gameboy", 9); ("gbc", 10); ("gba", 12); ("nds", 15); ("genesis", 1);
    ("megadrive", 1); ("mastersystem", 2); ("saturn", 22); ("dreamcast", 23);
    ("psx", 57); ("ps2", 58); ("psp", 61); ("arcade", 75); ("mame", 75);
    ("atari2600", 26); ("atari7800", 43); ("colecovision", 48);
    ("intellivision", 115) ].

Record ScreenScraperClient : Type := mk_client {
  dev_id : string;
  dev_password : string;
  software_name : string;
  user_id : option string;
  user_password : option string;
  language : string;
  max_requests_per_day : Z;
  request_delay : float;
  session_headers : list (string * string);
  request_count : Z;
  last_request_time : float
}.

Definition __init__ (dev_id dev_password software_name : string)
    (user_id user_password : option string) (language : string)
    (max_requests_per_day : Z) (request_delay : float) : ScreenScraperClient :=
  mk_client dev_id dev_password software_name user_id user_password language
    max_requests_per_day request_delay
    [("User-Agent", software_name ++ "/1.0")] 0 0%float.

(** The defaults of the keyword arguments of [__init__]. *)
Definition new_client (dev_id dev_password : string) : ScreenScraperClient :=
  __init__ dev_id dev_password "ScreenScraperPython" None None "en" 10000 1%float.

Definition set_request_count (n : Z) (c : ScreenScraperClient) : ScreenScraperClient :=
  mk_client (dev_id c) (dev_password c) (software_name c) (user_id c)
    (user_password c) (language c) (max_requests_per_day c) (request_delay c)
    (session_headers c) n (last_request_time c).

Definition set_last_request_time (t : float) (c : ScreenScraperClient)
  : ScreenScraperClient :=
  mk_client (dev_id c) (dev_password c) (software_name c) (user_id c)
    (user_password c) (language c) (max_requests_per_day c) (request_delay c)
    (session_headers c) (request_count c) t.

(** *** Methods run on the client and the world; an exception keeps the
    changes made before it *)

Definition M (A : Type) : Type :=
  ScreenScraperClient -> World -> result A * ScreenScraperClient * World.

Definition ret {A : Type} (a : A) : M A := fun c w => (Ok a, c, w).

Definition mbind {A B : Type} (m : M A) (k : A -> M B) : M B :=
  fun c w =>
    match m c w with
    | (Ok a, c', w') => k a c' w'
    | (Raise e, c', w') => (Raise e, c', w')
    end.

Definition throw {A : Type} (c : exc_class) (msg : string) : M A :=
  fun self w => (raise_ c msg, self, w).

Definition lift {A : Type} (r : result A) : M A := fun c w => (r, c, w).

Definition get_self : M ScreenScraperClient := fun c w => (Ok c, c, w).

Definition modify_self (f : ScreenScraperClient -> ScreenScraperClient) : M unit :=
  fun c w => (Ok tt, f c, w).

Definition do_event (e : event) : M unit := fun c w => (Ok tt, c, emit e w).

(** [try: body except cls as e: handler(e)] *)
Definition try_except {A : Type} (body : M A) (cls : exc_class)
    (handler : exn -> M A) : M A :=
  fun c w =>
    match body c w with
    | (Raise e, c', w') =>
        if issubclass (exn_class e) cls then handler e c' w'
        else (Raise e, c', w')
    | done => done
    end.

Declare Scope py_scope.
Delimit Scope py_scope with py.
Notation "x <- m ;; k" := (mbind m (fun x => k))
  (at level 61, m at next level, right associativity) : py_scope.
Notation "m ;;; k" := (mbind m (fun _ => k))
  (at level 61, right associativity) : py_scope.
Local Open Scope py_scope.

Definition time_time : M float :=
  fun c w =>
    (Ok (clock w (clock_reads w)), c,
     mk_World (clock w) (net w) (fs w) (S (clock_reads w)) (net_calls w) (trace w)).

Definition time_sleep (seconds : float) : M unit := do_event (EvSleep seconds).

(** [session.get(url, params=params, timeout=timeout)] *)
Definition session_get (url : string) (params : params_t) (timeout : Z) : M response :=
  fun c w =>
    let w' := mk_World (clock w) (net w) (fs w) (clock_reads w) (S (net_calls w))
                       (trace w ++ [EvGet url params timeout]) in
    match net w (net_calls w) url params with
    | TransportError msg => (raise_ RequestException msg, c, w')
    | Response r => (Ok r, c, w')
    end.

(** [response.raise_for_status()] *)
Definition raise_for_status (r : response) : M unit :=
  if (400 <=? status_code r) && (status_code r <? 500)
  then throw RequestException
         (str_of_Z (status_code r) ++ " Client Error: " ++ reason r
          ++ " for url: " ++ resp_url r)
  else if (500 <=? status_code r) && (status_code r <? 600)
  then throw RequestException
         (str_of_Z (status_code r) ++ " Server Error: " ++ reason r
          ++ " for url: " ++ resp_url r)
  else ret tt.

Definition opt_truthy (o : option string) : bool :=
  match o with
  | Some s => negb (String.eqb s "")
  | None => false
  end.

(** *** Reading a file *)

Definition path_exists (path : string) : M bool :=
  fun c w =>
    (Ok (match fs w path with Absent => false | _ => true end), c,
     emit (EvExists path) w).

(** [path.stat().st_size] *)
Definition stat_size (path : string) : M Z :=
  fun c w =>
    let w' := emit (EvStat path) w in
    match fs w path with
    | Absent =>
        (raise_ FileNotFoundError
           ("[Errno 2] No such file or directory: '" ++ path ++ "'"), c, w')
    | Unopenable st_size _ => (Ok st_size, c, w')
    | Regular content => (Ok (Z.of_nat (List.length content)), c, w')
    end.

(** [open(path, 'rb')]: the handle is what is left to read. *)
Definition open_rb (path : string) : M (list byte) :=
  fun c w =>
    let w' := emit (EvOpen path) w in
    match fs w path with
    | Absent =>
        (raise_ FileNotFoundError
           ("[Errno 2] No such file or directory: '" ++ path ++ "'"), c, w')
    | Unopenable _ err => (raise_ OSError err, c, w')
    | Regular content => (Ok content, c, w')
    end.

(** The three accumulators of [calculate_file_hashes]. *)
Definition hashes_t : Type := (hash_obj * hash_obj * Z)%type.

(** [while chunk := f.read(chunk_size): ...]: [f.read(n)] hands out the
    next [n] bytes, fewer at the end of the file, none after it. *)
Equations? hash_chunks (n : nat) (remaining : list byte) (acc : hashes_t)
  : hashes_t by wf (List.length remaining) lt :=
  hash_chunks n remaining (md5_hash, sha1_hash, crc32_hash)
    with inspect (firstn n remaining) := {
    | @exist [] _ => (md5_hash, sha1_hash, crc32_hash)
    | @exist (b :: more) _ =>
        let chunk := b :: more in
        hash_chunks n (skipn n remaining)
          (hash_update md5_hash chunk,
           hash_update sha1_hash chunk,
           crc32 chunk crc32_hash)
    }.
Proof.
  destruct n as [|n]; [discriminate|].
  destruct remaining as [|x xs]; [discriminate|].
  cbn [skipn List.length].
  pose proof (length_skipn n xs). lia.
Defined.

Definition chunk_size : nat := Z.to_nat (64 * 1024).

(** The final component of a path, as [Path(p).name] gives it: empty
    components and [.] do not count. *)
Fixpoint split_path (s : string) (cur : string) : list string :=
  match s with
  | EmptyString => [cur]
  | String c rest =>
      if Ascii.eqb c "/"%char then cur :: split_path rest EmptyString
      else split_path rest (cur ++ String c EmptyString)
  end.

Definition path_name (path : string) : string :=
  last (filter (fun part => negb (String.eqb part "") && negb (String.eqb part "."))
               (split_path path EmptyString))
       EmptyString.

Section ClientMethods.
Context `{Runtime}.

Definition _rate_limit : M unit :=
  current_time <- time_time ;;
  self <- get_self ;;
  let time_since_last := PrimFloat.sub current_time (last_request_time self) in
  (if PrimFloat.ltb time_since_last (request_delay self)
   then time_sleep (PrimFloat.sub (request_delay self) time_since_last)
   else ret tt) ;;;
  now <- time_time ;;
  modify_self (set_last_request_time now).

Definition _build_params (self : ScreenScraperClient) (kwargs : params_t)
  : params_t :=
  let params :=
    [ ("devid", dev_id self);
      ("devpassword", dev_password self);
      ("softname", software_name self);
      ("output", "json") ] in
  let params :=
    match user_id self, user_password self with
    | Some uid, Some pw =>
        if opt_truthy (user_id self) && opt_truthy (user_password self)
        then dict_update params [("ssid", uid); ("sspassword", pw)]
        else params
    | _, _ => params
    end in
  dict_update params kwargs.

(** The text the repair looks for and what it puts in its place. *)
Definition broken_close : string :=
  "]," ++ String LF (String TAB (String TAB "}")).
Definition fixed_close : string :=
  "]" ++ String LF (String TAB (String TAB "}")).

(** [json.loads(text)]; [response.json()] is the same on the body. *)
Definition loads (text : string) : M pyval :=
  do_event (EvJsonLoads text) ;;;
  match json_loads text with
  | Some data => ret data
  | None => throw JSONDecodeError (json_error text)
  end.

Definition _make_request (endpoint : string) (params : params_t) : M pyval :=
  _rate_limit ;;;
  let url := BASE_URL ++ "/" ++ endpoint in
  try_except
    (response <- session_get url params 30 ;;
     raise_for_status response ;;;
     data <- try_except (loads (text response)) JSONDecodeError
               (fun _ =>
                  let text := str_replace broken_close fixed_close (text response) in
                  loads text) ;;
     modify_self (fun self => set_request_count (request_count self + 1) self) ;;;
     header <- lift (py_get data "header" (PDict [])) ;;
     has_error <- lift (py_contains "erreur" header) ;;
     if has_error : bool then
       error_msg <- lift (py_getitem header "erreur") ;;
       lowered <- lift (py_lower error_msg) ;;
       if str_contains "quota" lowered
       then throw APIQuotaExceededError ("API quota exceeded: " ++ py_str error_msg)
       else if str_contains "fermÃ©" lowered || str_contains "closed" lowered
       then throw APIClosedError ("API closed: " ++ py_str error_msg)
       else throw ScreenScraperError ("API error: " ++ py_str error_msg)
     else ret data)
    RequestException
    (fun e => throw ScreenScraperError ("Request failed: " ++ exn_msg e)).

(** A static method: it leaves the client alone. *)
Definition calculate_file_hashes (file_path : string)
  : M (string * string * string) :=
  present <- path_exists file_path ;;
  if negb present
  then throw FileNotFoundError ("File not found: " ++ file_path)
  else
    file_size <- stat_size file_path ;;
    f <- open_rb file_path ;;
    let '(md5_hash, sha1_hash, crc32_hash) :=
      hash_chunks chunk_size f (hash_new, hash_new, 0) in
    ret (str_upper (md5_hexdigest md5_hash),
         str_upper (sha1_hexdigest sha1_hash),
         format_08X (Z.land crc32_hash 0xFFFFFFFF)).

(** *** The response mapper *)

(** The loop of [_get_localized_text]: the text of the first item whose
    [langue] is the configured language. *)
Fixpoint text_in_language (language : string) (items : list pyval)
  : result (option pyval) :=
  match items with
  | [] => Ok None
  | item :: rest =>
      let* langue := py_get item "langue" PNone in
      if eq_str langue language
      then let* text := py_get item "text" (PStr "") in Ok (Some text)
      else text_in_language language rest
  end.

Definition _get_localized_text (self : ScreenScraperClient) (text_list : pyval)
  : result pyval :=
  if negb (truthy text_list) then Ok (PStr "")
  else
    let* items := py_iter text_list in
    let* found := text_in_language (language self) items in
    match found with
    | Some text => Ok text
    | None =>
        if truthy text_list
        then let* item := py_first text_list in py_get item "text" (PStr "")
        else Ok (PStr "")
    end.

Definition _get_text_from_list (self : ScreenScraperClient) (item_list : pyval)
  : result pyval :=
  if negb (truthy item_list) then Ok (PStr "")
  else
    if truthy item_list
    then let* item := py_first item_list in py_get item "text" (PStr "")
    else Ok (PStr "").

(** The loop of [_get_release_date]. *)
Fixpoint text_in_main_region (items : list pyval) : result (option pyval) :=
  match items with
  | [] => Ok None
  | date_item :: rest =>
      let* region := py_get date_item "region" PNone in
      if eq_str region "wor" || eq_str region "us"
      then let* text := py_get date_item "text" (PStr "") in Ok (Some text)
      else text_in_main_region rest
  end.

Definition _get_release_date (self : ScreenScraperClient) (dates_list : pyval)
  : result pyval :=
  if negb (truthy dates_list) then Ok (PStr "")
  else
    let* items := py_iter dates_list in
    let* found := text_in_main_region items in
    match found with
    | Some text => Ok text
    | None =>
        if truthy dates_list
        then let* item := py_first dates_list in py_get item "text" (PStr "")
        else Ok (PStr "")
    end.

(** The inner loop over the items of one media group; [acc] is
    [game_info.media] so far. *)
Fixpoint append_media_items (items : list pyval) (acc : list GameMedia)
  : result (list GameMedia) :=
  match items with
  | [] => Ok acc
  | media_item :: rest =>
      let* media_type := py_get media_item "type" (PStr "") in
      let* media_url := py_get media_item "url" (PStr "") in
      if truthy media_url
      then
        let* format := py_get media_item "format" (PStr "") in
        let* region := py_get media_item "region" (PStr "") in
        let* size := py_get media_item "size" (PStr "") in
        let game_media := mk_GameMedia media_type media_url format region size in
        append_media_items rest (acc ++ [game_media])
      else append_media_items rest acc
  end.

(** The outer loop over the media groups. *)
Fixpoint append_media_groups (groups : list pyval) (acc : list GameMedia)
  : result (list GameMedia) :=
  match groups with
  | [] => Ok acc
  | media_group :: rest =>
      let* group_media := py_get media_group "media" (PList []) in
      let* items := py_iter group_media in
      let* acc' := append_media_items items acc in
      append_media_groups rest acc'
  end.

Definition _parse_game_data (self : ScreenScraperClient) (data : pyval)
  : result GameInfo :=
  let* has_response := py_contains "response" data in
  if negb has_response
  then raise_ GameNotFoundError "Game not found in response"
  else
    let* response := py_getitem data "response" in
    let* has_jeu := py_contains "jeu" response in
    if negb has_jeu
    then raise_ GameNotFoundError "No game data in response"
    else
      let* jeu := py_getitem response "jeu" in
      let* id := py_get jeu "id" (PStr "") in
      let* noms := py_get jeu "noms" (PList []) in
      let* name := _get_localized_text self noms in
      let* synopsis := py_get jeu "synopsis" (PList []) in
      let* description := _get_localized_text self synopsis in
      let* editeur := py_get jeu "editeur" (PList []) in
      let* publisher := _get_text_from_list self editeur in
      let* developpeur := py_get jeu "developpeur" (PList []) in
      let* developer := _get_text_from_list self developpeur in
      let* joueurs := py_get jeu "joueurs" (PDict []) in
      let* players := py_get joueurs "text" (PStr "") in
      let* note := py_get jeu "note" (PDict []) in
      let* rating := py_get note "text" (PStr "") in
      let* dates := py_get jeu "dates" (PList []) in
      let* release_date := _get_release_date self dates in
      let* genres := py_get jeu "genres" (PList []) in
      let* genre := _get_text_from_list self genres in
      let* systeme := py_get jeu "systeme" (PDict []) in
      let* system := py_get systeme "text" (PStr "") in
      let* medias := py_get jeu "medias" (PList []) in
      let* groups := py_iter medias in
      let* media := append_media_groups groups [] in
      Ok (mk_GameInfo (py_str id) name description publisher developer
            players rating release_date genre system media jeu).

(** *** The search methods *)

(** [repr] of a list of plain strings. *)
Definition repr_str_list (l : list string) : string :=
  "[" ++ str_join ", " (map (fun k => "'" ++ k ++ "'") l) ++ "]".

(** [self.PLATFORMS[platform]] *)
Definition platform_id (platform : string) : M Z :=
  match dict_lookup platform PLATFORMS with
  | Some n => ret n
  | None => throw KeyError ("'" ++ platform ++ "'")
  end.

Definition search_by_file (file_path : string) (platform : string)
    (rom_name : option string) : M (option GameInfo) :=
  if negb (dict_has platform PLATFORMS)
  then throw ValueError
         ("Unsupported platform: " ++ platform ++ ". Supported: "
          ++ repr_str_list (dict_keys PLATFORMS))
  else
    hashes <- try_except
                (h <- calculate_file_hashes file_path ;; ret (Some h))
                Exception
                (fun e =>
                   do_event (EvLogError ("Failed to calculate hashes for "
                                         ++ file_path ++ ": " ++ exn_msg e)) ;;;
                   ret None) ;;
    match hashes with
    | None => ret None
    | Some (md5, sha1, crc) =>
        let rom_name := if opt_truthy rom_name
                        then match rom_name with Some n => n | None => "" end
                        else path_name file_path in
        file_size <- stat_size file_path ;;
        systemeid <- platform_id platform ;;
        self <- get_self ;;
        let params := _build_params self
                        [ ("md5", md5); ("sha1", sha1); ("crc", crc);
                          ("romnom", rom_name);
                          ("romtaille", str_of_Z file_size);
                          ("systemeid", str_of_Z systemeid);
                          ("romtype", "rom") ] in
        try_except
          (data <- _make_request "jeuInfos.php" params ;;
           self <- get_self ;;
           game <- lift (_parse_game_data self data) ;;
           ret (Some game))
          GameNotFoundError
          (fun _ => ret None)
    end.

Definition search_by_name (game_name : string) (platform : string)
  : M (option GameInfo) :=
  if negb (dict_has platform PLATFORMS)
  then throw ValueError ("Unsupported platform: " ++ platform)
  else
    systemeid <- platform_id platform ;;
    self <- get_self ;;
    let params := _build_params self
                    [ ("recherche", game_name);
                      ("systemeid", str_of_Z systemeid) ] in
    try_except
      (data <- _make_request "jeuInfos.php" params ;;
       self <- get_self ;;
       game <- lift (_parse_game_data self data) ;;
       ret (Some game))
      GameNotFoundError
      (fun _ => ret None).

Definition search_by_id (game_id : string) : M (option GameInfo) :=
  self <- get_self ;;
  let params := _build_params self [("gameid", game_id)] in
  try_except
    (data <- _make_request "jeuInfos.php" params ;;
     self <- get_self ;;
     game <- lift (_parse_game_data self data) ;;
     ret (Some game))
    GameNotFoundError
    (fun _ => ret None).

End ClientMethods.

End Model.

(* ===================================================================== *)
(** ** A runtime to compute with                                          *)
(* ===================================================================== *)

Module Concrete.
Import Py Digest Model.

Definition ascii_lower (c : ascii) : ascii :=
  let n := nat_of_ascii c in
  if ((65 <=? n) && (n <=? 90))%nat then ascii_of_nat (n + 32) else c.

(** [str.lower] on ASCII text. *)
Fixpoint str_lower_ascii (s : string) : string :=
  match s with
  | EmptyString => EmptyString
  | String c rest => String (ascii_lower c) (str_lower_ascii rest)
  end.

(** A runtime whose [json.loads] knows the documents of a table and
    rejects every other text. *)
Definition table_runtime (documents : list (string * pyval)) : Runtime :=
  {| json_loads := fun text => dict_lookup text documents;
     json_error := fun _ => "Expecting value: line 1 column 1 (char 0)";
     str_lower := str_lower_ascii;
     py_repr := fun v => "<" ++ type_name v ++ ">" |}.

Fixpoint ticking_clock (n : nat) : float :=
  match n with
  | O => 1000%float
  | S k => PrimFloat.add (ticking_clock k) 10%float
  end.

(** A world with the given files, a network that answers every request
    the same way, and a clock that reads 1000 seconds plus ten per
    reading. *)
Definition simple_world (files : list (string * file_state))
    (answer : http_result) : World :=
  mk_World ticking_clock
           (fun _ _ _ => answer)
           (fun path => match dict_lookup path files with
                        | Some st => st
                        | None => Absent
                        end)
           0 0 [].

Definition ok_response (body : string) : http_result :=
  Response (mk_response 200 "OK" "https://www.screenscraper.fr/api2/jeuInfos.php" body).

(** Box art in a region, and a game whose box art is Japanese and
    European, in that order. *)
Definition box (region url : string) : GameMedia :=
  mk_GameMedia (PStr "box-2D") (PStr url) (PStr "png") (PStr region) (PStr "").

Definition game_jp_eu : GameInfo :=
  mk_GameInfo "1" (PStr "Game") (PStr "") (PStr "") (PStr "") (PStr "")
    (PStr "") (PStr "") (PStr "") (PStr "")
    [ box "jp" "http://media/jp.png"; box "eu" "http://media/eu.png" ]
    (PDict []).

(** A response tree around a game node. *)
Definition response_with (jeu : pyval) : pyval :=
  PDict [("header", PDict []); ("response", PDict [("jeu", jeu)])].

Definition text_entry (langue text : string) : pyval :=
  PDict [("langue", PStr langue); ("text", PStr text)].

Definition media_item (type url region : string) : pyval :=
  PDict [("type", PStr type); ("url", PStr url); ("region", PStr region)].

(** A game node with French and English texts and three media items, the
    first of them without a URL. *)
Definition mario_jeu : pyval :=
  PDict
    [ ("id", PInt 1234);
      ("noms", PList [text_entry "fr" "Bonjour"; text_entry "en" "Hello"]);
      ("editeur", PList [text_entry "fr" "Bonjour"; text_entry "en" "Hello"]);
      ("medias",
       PList [ PDict [("media",
                       PList [ media_item "box-2D" "" "us";
                               media_item "box-2D" "http://media/jp.png" "jp" ])];
               PDict [("media",
                       PList [ media_item "box-2D" "http://media/eu.png" "eu" ])] ]) ].

(** A parsed body whose header reports an exhausted quota. *)
Definition quota_body : pyval :=
  PDict [("header", PDict [("erreur", PStr "Votre QUOTA de scrape est depasse")])].

(** A game node with an identifier and names only. *)
Definition small_jeu : list (string * pyval) :=
  [ ("id", PInt 1234);
    ("noms", PList [text_entry "fr" "Bonjour"; text_entry "en" "Hello"]) ].

(** The media list of the specification's example: one item, no URL. *)
Definition no_url_jeu : pyval :=
  PDict [("medias",
          PList [PDict [("media",
                         PList [PDict [("type", PStr "box-2D"); ("url", PStr "")]])]])].

End Concrete.

(* ===================================================================== *)
(** ** The vocabulary of the specification                                *)
(* ===================================================================== *)

Module Spec.
Import Py Digest Model.

(** The error taxonomy of the specification. *)
Inductive condition : Type :=
| InvalidPlatform
| NotFound
| QuotaExceeded
| ServiceClosed
| RemoteError
| MalformedResponse
| TransportFailure
| FileUnreadable.

(** The condition an exception of the module stands for: its class, and
    for the base class [ScreenScraperError] the prefix of its message. The
    exceptions of Python's dynamic typing stand for none. *)
Definition condition_of (e : exn) : option condition :=
  match exn_class e with
  | ValueError => Some InvalidPlatform
  | GameNotFoundError => Some NotFound
  | APIQuotaExceededError => Some QuotaExceeded
  | APIClosedError => Some ServiceClosed
  | ScreenScraperError =>
      if str_prefix "Request failed: " (exn_msg e)
      then Some TransportFailure
      else Some RemoteError
  | JSONDecodeError => Some MalformedResponse
  | FileNotFoundError | OSError => Some FileUnreadable
  | _ => None
  end.

(** A media descriptor's region is [pref] when both are lowercased. *)
Definition region_is `{Runtime} (pref : string) (m : GameMedia) : Prop :=
  exists r, region m = PStr r /\ str_lower r = str_lower pref.

Definition has_str_region (m : GameMedia) : Prop :=
  exists r, region m = PStr r.

(** The text entries of a localized field, read as the specification
    reads them: a locale tag (if any) and a text (empty if missing). *)
Definition entry : Type := list (string * pyval).

Definition entry_text (e : entry) : pyval :=
  match dict_lookup "text" e with
  | Some t => t
  | None => PStr ""
  end.

Definition entry_in_locale (locale : string) (e : entry) : bool :=
  match dict_lookup "langue" e with
  | Some l => eq_str l locale
  | None => false
  end.

(** The selection rule of the specification for a localized field: the
    entry matching the configured locale, else the first entry, else the
    empty string. *)
Definition select_localized (locale : string) (entries : list entry) : pyval :=
  match find (entry_in_locale locale) entries with
  | Some e => entry_text e
  | None =>
      match entries with
      | e :: _ => entry_text e
      | [] => PStr ""
      end
  end.

(** What the mapper does for publisher, developer and genre: the first
    entry, else the empty string. *)
Definition select_first (entries : list entry) : pyval :=
  match entries with
  | e :: _ => entry_text e
  | [] => PStr ""
  end.

(** The game node of a well-shaped response tree. *)
Definition game_node (data : pyval) : option pyval :=
  match data with
  | PDict top =>
      match dict_lookup "response" top with
      | Some (PDict response) => dict_lookup "jeu" response
      | _ => None
      end
  | _ => None
  end.

(** The response tree lacks the top-level wrapper: [response] is not in it. *)
Definition lacks_wrapper (data : pyval) : Prop :=
  py_contains "response" data = Ok false.

(** The wrapper is there and lacks the game node: [jeu] is not in it. *)
Definition lacks_game_node (data : pyval) : Prop :=
  exists response,
    py_contains "response" data = Ok true /\
    py_getitem data "response" = Ok response /\
    py_contains "jeu" response = Ok false.

(** A media item has a URL when its [url] is there and not empty. *)
Definition has_url (media_item : pyval) : bool :=
  match py_get media_item "url" (PStr "") with
  | Ok u => truthy u
  | Raise _ => false
  end.

Definition field_or_empty (media_item : pyval) (k : string) : pyval :=
  match py_get media_item k (PStr "") with
  | Ok v => v
  | Raise _ => PStr ""
  end.

(** The descriptor a media item becomes. *)
Definition descriptor_of (media_item : pyval) : GameMedia :=
  mk_GameMedia (field_or_empty media_item "type")
               (field_or_empty media_item "url")
               (field_or_empty media_item "format")
               (field_or_empty media_item "region")
               (field_or_empty media_item "size").

(** The items of a media group, as the inner loop visits them. *)
Definition items_of_group (media_group : pyval) : result (list pyval) :=
  let* group_media := py_get media_group "media" (PList []) in
  py_iter group_media.

Definition is_upper_hex (c : ascii) : bool :=
  let n := nat_of_ascii c in
  (((48 <=? n) && (n <=? 57)) || ((65 <=? n) && (n <=? 70)))%nat.

Fixpoint str_forallb (p : ascii -> bool) (s : string) : bool :=
  match s with
  | EmptyString => true
  | String c rest => p c && str_forallb p rest
  end.

(** The fields of [ClientConfig] and the session: what a request must
    leave as it found it. *)
Definition same_config (c c' : ScreenScraperClient) : Prop :=
  dev_id c' = dev_id c /\
  dev_password c' = dev_password c /\
  software_name c' = software_name c /\
  user_id c' = user_id c /\
  user_password c' = user_password c /\
  language c' = language c /\
  max_requests_per_day c' = max_requests_per_day c /\
  request_delay c' = request_delay c /\
  session_headers c' = session_headers c.

Definition set_max_requests_per_day (m : Z) (c : ScreenScraperClient)
  : ScreenScraperClient :=
  mk_client (dev_id c) (dev_password c) (software_name c) (user_id c)
    (user_password c) (language c) m (request_delay c)
    (session_headers c) (request_count c) (last_request_time c).

(** The body the network hands to the next request, when it answers with
    a status [raise_for_status] accepts. *)
Definition received_body (w : World) (url : string) (params : params_t)
  : option string :=
  match net w (net_calls w) url params with
  | TransportError _ => None
  | Response r =>
      if ((400 <=? status_code r) && (status_code r <? 600))%Z
      then None
      else Some (text r)
  end.

(** The body parses as JSON, as it is or after the one repair. *)
Definition parses `{Runtime} (body : string) : bool :=
  match json_loads body with
  | Some _ => true
  | None =>
      match json_loads (str_replace broken_close fixed_close body) with
      | Some _ => true
      | None => false
      end
  end.

(** The selection rule of [get_best_media] as the specification words it:
    none without candidates; else the first candidate, in encounter order,
    in the first preferred region that any candidate is in; else the first
    candidate. *)
Inductive best_of `{Runtime} (prefs : list string) (candidates : list GameMedia)
  : option GameMedia -> Prop :=
| best_none :
    candidates = [] ->
    best_of prefs candidates None
| best_in_region (earlier : list string) (p : string) (later : list string)
      (before : list GameMedia) (m : GameMedia) (after : list GameMedia) :
    prefs = (earlier ++ p :: later)%list ->
    candidates = (before ++ m :: after)%list ->
    (forall p' c, In p' earlier -> In c candidates -> ~ region_is p' c) ->
    (forall c, In c before -> ~ region_is p c) ->
    region_is p m ->
    best_of prefs candidates (Some m)
| best_first (first : GameMedia) (rest : list GameMedia) :
    candidates = first :: rest ->
    (forall p c, In p prefs -> In c candidates -> ~ region_is p c) ->
    best_of prefs candidates (Some first).

(** What a successful run of [_parse_game_data] went through. *)
Record parsed `{Runtime} (self : ScreenScraperClient) (data : pyval) (g : GameInfo) : Prop := {
  p_node : exists response,
      py_contains "response" data = Ok true /\
      py_getitem data "response" = Ok response /\
      py_contains "jeu" response = Ok true /\
      py_getitem response "jeu" = Ok (raw_data g);
  p_id : exists v, py_get (raw_data g) "id" (PStr "") = Ok v /\ id g = py_str v;
  p_name : exists v, py_get (raw_data g) "noms" (PList []) = Ok v /\
                     _get_localized_text self v = Ok (name g);
  p_description : exists v, py_get (raw_data g) "synopsis" (PList []) = Ok v /\
                            _get_localized_text self v = Ok (description g);
  p_publisher : exists v, py_get (raw_data g) "editeur" (PList []) = Ok v /\
                          _get_text_from_list self v = Ok (publisher g);
  p_developer : exists v, py_get (raw_data g) "developpeur" (PList []) = Ok v /\
                          _get_text_from_list self v = Ok (developer g);
  p_players : exists v, py_get (raw_data g) "joueurs" (PDict []) = Ok v /\
                        py_get v "text" (PStr "") = Ok (players g);
  p_rating : exists v, py_get (raw_data g) "note" (PDict []) = Ok v /\
                       py_get v "text" (PStr "") = Ok (rating g);
  p_release_date : exists v, py_get (raw_data g) "dates" (PList []) = Ok v /\
                             _get_release_date self v = Ok (release_date g);
  p_genre : exists v, py_get (raw_data g) "genres" (PList []) = Ok v /\
                      _get_text_from_list self v = Ok (genre g);
  p_system : exists v, py_get (raw_data g) "systeme" (PDict []) = Ok v /\
                       py_get v "text" (PStr "") = Ok (system g);
  p_media : exists medias groups,
      py_get (raw_data g) "medias" (PList []) = Ok medias /\
      py_iter medias = Ok groups /\
      append_media_groups groups [] = Ok (media g)
}.

(** The exceptions of the mapper other than [GameNotFoundError] come from
    Python's dynamic typing: a value of the response tree has not the type
    the mapper takes it to have. *)
Definition typing_error (e : exn) : Prop :=
  In (exn_class e) [AttributeError; TypeError; KeyError; IndexError].

Definition only_typing_errors {A : Type} (r : result A) : Prop :=
  forall e, r = Raise e -> typing_error e.

(** The keys of the game node the mapper reads. *)
Definition jeu_keys : list string :=
  [ "id"; "noms"; "synopsis"; "editeur"; "developpeur"; "joueurs"; "note";
    "dates"; "genres"; "systeme"; "medias" ].

(** The record [g] with the field read from key [k] at its default and
    [jeu] as raw data. *)
Definition without_field (k : string) (g : GameInfo) (jeu : pyval) : GameInfo :=
  mk_GameInfo
    (if String.eqb "id" k then "" else id g)
    (if String.eqb "noms" k then PStr "" else name g)
    (if String.eqb "synopsis" k then PStr "" else description g)
    (if String.eqb "editeur" k then PStr "" else publisher g)
    (if String.eqb "developpeur" k then PStr "" else developer g)
    (if String.eqb "joueurs" k then PStr "" else players g)
    (if String.eqb "note" k then PStr "" else rating g)
    (if String.eqb "dates" k then PStr "" else release_date g)
    (if String.eqb "genres" k then PStr "" else genre g)
    (if String.eqb "systeme" k then PStr "" else system g)
    (if String.eqb "medias" k then [] else media g)
    jeu.

(** The record of a game node without any of the keys. *)
Definition empty_record (jeu : pyval) : GameInfo :=
  mk_GameInfo "" (PStr "") (PStr "") (PStr "") (PStr "") (PStr "") (PStr "")
    (PStr "") (PStr "") (PStr "") [] jeu.

(** The client and the world after [_rate_limit]: the clock was read
    twice, the second reading is the new [last_request_time], and a sleep
    for the rest of the delay was asked for when the first reading was
    less than the delay after the last request. *)
Definition rate_limited (c : ScreenScraperClient) (w : World)
  : ScreenScraperClient * World :=
  let time_since_last :=
    PrimFloat.sub (clock w (clock_reads w)) (last_request_time c) in
  let sleeps :=
    if PrimFloat.ltb time_since_last (request_delay c)
    then [EvSleep (PrimFloat.sub (request_delay c) time_since_last)]
    else [] in
  (set_last_request_time (clock w (S (clock_reads w))) c,
   mk_World (clock w) (net w) (fs w) (S (S (clock_reads w))) (net_calls w)
            (trace w ++ sleeps)).

(** The world after events [es], and after one more request. *)
Definition emits (es : list event) (w : World) : World :=
  mk_World (clock w) (net w) (fs w) (clock_reads w) (net_calls w) (trace w ++ es).

Definition requested (es : list event) (w : World) : World :=
  mk_World (clock w) (net w) (fs w) (clock_reads w) (S (net_calls w))
           (trace w ++ es).

Definition status_refused (r : response) : bool :=
  ((400 <=? status_code r) && (status_code r <? 600))%Z.

(** The text of the [HTTPError] that [raise_for_status] raises. *)
Definition http_error_text (r : response) : string :=
  str_of_Z (status_code r)
  ++ (if (status_code r <? 500)%Z then " Client Error: " else " Server Error: ")
  ++ reason r ++ " for url: " ++ resp_url r.

Definition repaired (body : string) : string :=
  str_replace broken_close fixed_close body.

(** The triple [calculate_file_hashes] returns for a file of this content. *)
Definition fingerprint (content : list byte) : string * string * string :=
  let '(md5_hash, sha1_hash, crc32_hash) :=
    hash_chunks chunk_size content (hash_new, hash_new, 0) in
  (str_upper (md5_hexdigest md5_hash),
   str_upper (sha1_hexdigest sha1_hash),
   format_08X (Z.land crc32_hash 0xFFFFFFFF)).

(** The world after [calculate_file_hashes] read a file, and after
    [search_by_file] then asked for its size. *)
Definition after_hashing (path : string) (w : World) : World :=
  emit (EvOpen path) (emit (EvStat path) (emit (EvExists path) w)).

Definition after_sizing (path : string) (w : World) : World :=
  emit (EvStat path) (after_hashing path w).

(** The [try] block the three search methods end with. *)
Definition game_or_none `{Runtime} (res : result pyval * ScreenScraperClient * World)
  : result (option GameInfo) * ScreenScraperClient * World :=
  match res with
  | (Ok data, c, w) =>
      match _parse_game_data c data with
      | Ok game => (Ok (Some game), c, w)
      | Raise e =>
          if issubclass (exn_class e) GameNotFoundError
          then (Ok None, c, w)
          else (Raise e, c, w)
      end
  | (Raise e, c, w) =>
      if issubclass (exn_class e) GameNotFoundError
      then (Ok None, c, w)
      else (Raise e, c, w)
  end.

(** The query of [search_by_file] for a file of this content. *)
Definition file_query (self : ScreenScraperClient) (file_path : string)
    (rom_name : option string) (systemeid : Z) (content : list byte) : params_t :=
  let '(md5, sha1, crc) := fingerprint content in
  _build_params self
    [ ("md5", md5); ("sha1", sha1); ("crc", crc);
      ("romnom", if opt_truthy rom_name
                 then match rom_name with Some n => n | None => "" end
                 else path_name file_path);
      ("romtaille", str_of_Z (Z.of_nat (List.length content)));
      ("systemeid", str_of_Z systemeid);
      ("romtype", "rom") ].

Definition name_query (self : ScreenScraperClient) (game_name : string)
    (systemeid : Z) : params_t :=
  _build_params self [("recherche", game_name); ("systemeid", str_of_Z systemeid)].

Definition id_query (self : ScreenScraperClient) (game_id : string) : params_t :=
  _build_params self [("gameid", game_id)].

Definition is_sleep (e : event) : bool :=
  match e with
  | EvSleep _ => true
  | _ => false
  end.

Definition is_get (e : event) : bool :=
  match e with
  | EvGet _ _ _ => true
  | _ => false
  end.

(** What [_make_request] makes of a parsed body: the body, or the
    exception for the error its header reports. *)
Definition checked `{Runtime} (data : pyval) : result pyval :=
  let* header := py_get data "header" (PDict []) in
  let* has_error := py_contains "erreur" header in
  if has_error : bool then
    let* error_msg := py_getitem header "erreur" in
    let* lowered := py_lower error_msg in
    if str_contains "quota" lowered
    then raise_ APIQuotaExceededError ("API quota exceeded: " ++ py_str error_msg)
    else if str_contains "fermÃ©" lowered || str_contains "closed" lowered
    then raise_ APIClosedError ("API closed: " ++ py_str error_msg)
    else raise_ ScreenScraperError ("API error: " ++ py_str error_msg)
  else Ok data.

(** The exceptions the module declares: [ScreenScraperError] and its
    subclasses, what a caller catches with [except ScreenScraperError].
    Any other exception reaches the caller as the library that raised it
    made it. *)
Definition module_error (e : exn) : bool :=
  issubclass (exn_class e) ScreenScraperError.

(** A run that met a body neither [json.loads] attempt could read: it
    raised the [JSONDecodeError] of the second attempt as [json.loads]
    made it, not one of the module's exceptions, after one request and the
    two attempts, and did not count the request. [w0] is the world the
    request started in. *)
Definition malformed_outcome `{Runtime} {A : Type} (r : response)
    (c : ScreenScraperClient) (w0 : World)
    (out : result A * ScreenScraperClient * World) : Prop :=
  exists e c' w' url params sleeps,
    out = (Raise e, c', w') /\
    e = mk_exn JSONDecodeError (json_error (repaired (text r))) /\
    module_error e = false /\
    issubclass (exn_class e) RequestException = false /\
    request_count c' = request_count c /\
    net_calls w' = S (net_calls w0) /\
    forallb is_sleep sleeps = true /\
    trace w' = (trace w0 ++ sleeps ++
                [ EvGet url params 30;
                  EvJsonLoads (text r);
                  EvJsonLoads (repaired (text r)) ])%list.

End Spec.

(* ===================================================================== *)
(** ** More vocabulary: requests, dates, queries                          *)
(* ===================================================================== *)

Module Notions.
Import Py Digest Model Spec.

Definition is_loads (e : event) : bool :=
  match e with
  | EvJsonLoads _ => true
  | _ => false
  end.

(** What the next request makes of the network's answer before it looks
    at the header: the parsed body, if the status is accepted and the body
    is JSON as it is or after the repair. *)
Definition parsed_body `{Runtime} (w : World) (url : string) (params : params_t)
  : option pyval :=
  match received_body w url params with
  | None => None
  | Some body =>
      match json_loads body with
      | Some data => Some data
      | None => json_loads (repaired body)
      end
  end.

(** The class of the exception for an error message of the service. *)
Definition service_error_class `{Runtime} (error_msg : string) : exc_class :=
  if str_contains "quota" (str_lower error_msg) then APIQuotaExceededError
  else if str_contains "fermÃ©" (str_lower error_msg)
          || str_contains "closed" (str_lower error_msg)
  then APIClosedError
  else ScreenScraperError.

Definition service_error_prefix `{Runtime} (error_msg : string) : string :=
  if str_contains "quota" (str_lower error_msg) then "API quota exceeded: "
  else if str_contains "fermÃ©" (str_lower error_msg)
          || str_contains "closed" (str_lower error_msg)
  then "API closed: "
  else "API error: ".

(** A date entry is a main release when its region is wor or us. *)
Definition entry_is_main_release (e : entry) : bool :=
  match dict_lookup "region" e with
  | Some r => eq_str r "wor" || eq_str r "us"
  | None => false
  end.

(** The release date rule: the first main release, else the first entry,
    else the empty string. *)
Definition select_release (entries : list entry) : pyval :=
  match find entry_is_main_release entries with
  | Some e => entry_text e
  | None =>
      match entries with
      | e :: _ => entry_text e
      | [] => PStr ""
      end
  end.

(** The parameters every request carries, before the arguments of the
    call are added. *)
Definition common_param (self : ScreenScraperClient) (k : string) : option string :=
  if String.eqb k "devid" then Some (dev_id self)
  else if String.eqb k "devpassword" then Some (dev_password self)
  else if String.eqb k "softname" then Some (software_name self)
  else if String.eqb k "output" then Some "json"
  else
    match user_id self, user_password self with
    | Some uid, Some pw =>
        if negb (String.eqb uid "") && negb (String.eqb pw "")
        then if String.eqb k "ssid" then Some uid
             else if String.eqb k "sspassword" then Some pw
             else None
        else None
    | _, _ => None
    end.

(** The number of values in a value, itself included. *)
Fixpoint value_size (v : pyval) : nat :=
  match v with
  | PList xs => S (list_sum (map value_size xs))
  | PDict kvs =>
      S (list_sum (map (fun kv => match kv with (_, x) => value_size x end) kvs))
  | _ => 1%nat
  end.

(** The objects of a list whose items are all objects. *)
Fixpoint as_objects (xs : list pyval) : option (list entry) :=
  match xs with
  | [] => Some []
  | PDict e :: rest => option_map (cons e) (as_objects rest)
  | _ :: _ => None
  end.

(** A field of an object that holds a list of objects: the objects, none
    of them when the key is missing. *)
Definition list_field (node : entry) (k : string) : option (list entry) :=
  match dict_lookup k node with
  | None => Some []
  | Some (PList xs) => as_objects xs
  | Some _ => None
  end.

(** A field of an object that holds one object: the object, the empty one
    when the key is missing. *)
Definition object_field (node : entry) (k : string) : option entry :=
  match dict_lookup k node with
  | None => Some []
  | Some (PDict e) => Some e
  | Some _ => None
  end.

(** The identifier of a game node: [str()] of its [id], of the empty
    string when the key is missing. *)
Definition node_id `{Runtime} (node : entry) : string :=
  py_str (match dict_lookup "id" node with
          | Some v => v
          | None => PStr ""
          end).

End Notions.

(* ===================================================================== *)
(** ** Downloads                                                          *)
(* ===================================================================== *)

Module Download.
Import Py Model.

(** The library functions of paths and characters the module calls and
    this development does not define: [Path(a) / b] and [Path(p).parent],
    on paths written as the strings they print as, and [str.isalnum] and
    [str.isspace] on one character. *)
Class Host : Type := {
  path_join : string -> string -> string;
  path_parent : string -> string;
  isalnum : string -> bool;
  isspace : string -> bool
}.

(** The characters of a str. In the UTF-8 text a character is a byte that
    is not a continuation byte (10xxxxxx) with the continuation bytes that
    follow it. *)
Definition is_continuation (c : ascii) : bool :=
  let n := nat_of_ascii c in
  ((128 <=? n) && (n <? 192))%nat.

Fixpoint chars_after (cur : string) (s : string) : list string :=
  match s with
  | EmptyString => [cur]
  | String c rest =>
      if is_continuation c
      then chars_after (cur ++ String c EmptyString) rest
      else cur :: chars_after (String c EmptyString) rest
  end.

Definition chars (s : string) : list string :=
  match s with
  | EmptyString => []
  | String c rest => chars_after (String c EmptyString) rest
  end.

(** What [requests.get(url, stream=True)] gives: an exception, or a
    response whose body [iter_content] hands out in chunks, the stream
    breaking after them when [broken] holds an exception. *)
Inductive stream_result : Type :=
| GetRaises (e : exn)
| Streams (r : response) (chunks : list (list byte)) (broken : option exn).

Inductive io_event : Type :=
| IoGet (url : pyval)
| IoMkdir (path : string)
| IoOpen (path : string)
| IoWrite (path : string) (chunk : list byte)
| IoLogInfo (msg : string)
| IoLogWarning (msg : string)
| IoLogError (msg : string).

(** The web and the disk of the media files. The oracles answer by the
    number of events so far: what [requests.get], [mkdir], [open] and
    [write] do at that moment, an exception or nothing. [files] holds the
    content of the files; a write that raises adds nothing to its file. *)
Record Disk : Type := mk_Disk {
  web : nat -> pyval -> stream_result;
  mkdir_error : nat -> string -> option exn;
  open_error : nat -> string -> option exn;
  write_error : nat -> string -> option exn;
  files : list (string * list byte);
  io_trace : list io_event
}.

Definition io_emit (e : io_event) (d : Disk) : Disk :=
  mk_Disk (web d) (mkdir_error d) (open_error d) (write_error d) (files d)
          (io_trace d ++ [e]).

Definition set_files (fl : list (string * list byte)) (d : Disk) : Disk :=
  mk_Disk (web d) (mkdir_error d) (open_error d) (write_error d) fl (io_trace d).

Definition moment (d : Disk) : nat := List.length (io_trace d).

(** Code that runs on the disk; an exception keeps the changes made
    before it. *)
Definition D (A : Type) : Type := Disk -> result A * Disk.

Definition dret {A : Type} (a : A) : D A := fun d => (Ok a, d).

Definition dbind {A B : Type} (m : D A) (k : A -> D B) : D B :=
  fun d =>
    match m d with
    | (Ok a, d') => k a d'
    | (Raise e, d') => (Raise e, d')
    end.

Definition dlift {A : Type} (r : result A) : D A := fun d => (r, d).

Definition dlog (e : io_event) : D unit := fun d => (Ok tt, io_emit e d).

(** [try: body except cls as e: handler(e)] *)
Definition dtry {A : Type} (body : D A) (cls : exc_class)
    (handler : exn -> D A) : D A :=
  fun d =>
    match body d with
    | (Raise e, d') =>
        if issubclass (exn_class e) cls then handler e d'
        else (Raise e, d')
    | done => done
    end.

Declare Scope io_scope.
Delimit Scope io_scope with io.
Notation "x <- m ;; k" := (dbind m (fun x => k))
  (at level 61, m at next level, right associativity) : io_scope.
Notation "m ;;; k" := (dbind m (fun _ => k))
  (at level 61, right associativity) : io_scope.
Local Open Scope io_scope.

(** [requests.get(url, stream=True)] *)
Definition requests_get (url : pyval)
  : D (response * list (list byte) * option exn) :=
  fun d =>
    let d' := io_emit (IoGet url) d in
    match web d (moment d) url with
    | GetRaises e => (Raise e, d')
    | Streams r chunks broken => (Ok (r, chunks, broken), d')
    end.

(** [response.raise_for_status()] *)
Definition check_status (r : response) : result unit :=
  if ((400 <=? status_code r) && (status_code r <? 500))%Z
  then raise_ RequestException
         (str_of_Z (status_code r) ++ " Client Error: " ++ reason r
          ++ " for url: " ++ resp_url r)
  else if ((500 <=? status_code r) && (status_code r <? 600))%Z
  then raise_ RequestException
         (str_of_Z (status_code r) ++ " Server Error: " ++ reason r
          ++ " for url: " ++ resp_url r)
  else Ok tt.

(** [path.mkdir(parents=True, exist_ok=True)] *)
Definition mkdir_parents (path : string) : D unit :=
  fun d =>
    let d' := io_emit (IoMkdir path) d in
    match mkdir_error d (moment d) path with
    | Some e => (Raise e, d')
    | None => (Ok tt, d')
    end.

(** [open(path, 'wb')]: the file is there and empty when it returns. *)
Definition open_wb (path : string) : D unit :=
  fun d =>
    let d' := io_emit (IoOpen path) d in
    match open_error d (moment d) path with
    | Some e => (Raise e, d')
    | None => (Ok tt, set_files (dict_set path [] (files d')) d')
    end.

(** [f.write(chunk)] on the file opened at [path] *)
Definition write (path : string) (chunk : list byte) : D unit :=
  fun d =>
    let d' := io_emit (IoWrite path chunk) d in
    match write_error d (moment d) path with
    | Some e => (Raise e, d')
    | None =>
        let content := match dict_lookup path (files d') with
                       | Some c => c
                       | None => []
                       end in
        (Ok tt, set_files (dict_set path (content ++ chunk)%list (files d')) d')
    end.

(** [for chunk in response.iter_content(chunk_size=8192): f.write(chunk)].
    The [with] block closes the file when the loop ends or raises; what
    [write] accepted is taken as stored, and closing as never failing. *)
Fixpoint write_chunks (path : string) (chunks : list (list byte))
    (broken : option exn) : D unit :=
  match chunks with
  | [] =>
      match broken with
      | Some e => dlift (Raise e)
      | None => dret tt
      end
  | chunk :: rest =>
      write path chunk ;;;
      write_chunks path rest broken
  end.

Section Methods.
Context `{Runtime} `{Host}.

(** [GameMedia.download]; [save_path] is the path [Path(save_path)] holds. *)
Definition download (self : GameMedia) (save_path : string) : D bool :=
  dtry
    (got <- requests_get (url self) ;;
     let '(response, chunks, broken) := got in
     dlift (check_status response) ;;;
     mkdir_parents (path_parent save_path) ;;;
     open_wb save_path ;;;
     write_chunks save_path chunks broken ;;;
     dlog (IoLogInfo ("Downloaded " ++ py_str (media_type self) ++ " to "
                      ++ save_path)) ;;;
     dret true)
    Exception
    (fun e =>
       dlog (IoLogError ("Failed to download " ++ py_str (media_type self)
                         ++ ": " ++ exn_msg e)) ;;;
       dret false).

(** [c.isalnum()] for a str: not empty, every character alphanumeric. *)
Definition str_isalnum (s : string) : bool :=
  negb (String.eqb s "") && forallb isalnum (chars s).

(** [c.isalnum() or c in (' ', '-', '_')] for an item of the name. *)
Definition kept (c : pyval) : result bool :=
  match c with
  | PStr s =>
      Ok (str_isalnum s || String.eqb s " " || String.eqb s "-" || String.eqb s "_")
  | _ => raise_ AttributeError
           ("'" ++ type_name c ++ "' object has no attribute 'isalnum'")
  end.

(** The items [for c in game_info.name] visits: the characters of a str,
    else what a loop over the value visits. *)
Definition name_items (name : pyval) : result (list pyval) :=
  match name with
  | PStr s => Ok (map PStr (chars s))
  | _ => py_iter name
  end.

(** [''.join(c for c in items if ...)] *)
Fixpoint join_kept (items : list pyval) : result string :=
  match items with
  | [] => Ok ""
  | c :: rest =>
      let* keep := kept c in
      let* tail := join_kept rest in
      Ok (if keep : bool
          then match c with PStr s => s ++ tail | _ => tail end
          else tail)
  end.

(** [s.rstrip()]: without the whitespace characters at its end. *)
Fixpoint strip_right (cs : list string) : list string :=
  match cs with
  | [] => []
  | c :: rest =>
      match strip_right rest with
      | [] => if isspace c then [] else [c]
      | stripped => c :: stripped
      end
  end.

Definition rstrip (s : string) : string :=
  String.concat "" (strip_right (chars s)).

Definition safe_name (name : pyval) : result string :=
  let* items := name_items name in
  let* joined := join_kept items in
  Ok (rstrip joined).

(** The loop of [download_media]; [results] is the dict so far. *)
Fixpoint download_each (game_info : GameInfo) (output_dir : string)
    (preferred_regions : option (list string)) (media_types : list string)
    (results : list (string * bool)) : D (list (string * bool)) :=
  match media_types with
  | [] => dret results
  | media_type :: rest =>
      media <- dlift (get_best_media game_info media_type preferred_regions) ;;
      match media with
      | Some media =>
          safe_name <- dlift (safe_name (name game_info)) ;;
          let filename := safe_name ++ "_" ++ media_type ++ "."
                          ++ py_str (format media) in
          let filepath := path_join output_dir filename in
          ok <- download media filepath ;;
          download_each game_info output_dir preferred_regions rest
            (dict_set media_type ok results)
      | None =>
          dlog (IoLogWarning ("No " ++ media_type ++ " media found for "
                              ++ py_str (name game_info))) ;;;
          download_each game_info output_dir preferred_regions rest
            (dict_set media_type false results)
      end
  end.

(** [output_dir] is the path [Path(output_dir)] holds. The method does
    not read the client. *)
Definition download_media (self : ScreenScraperClient) (game_info : GameInfo)
    (media_types : list string) (output_dir : string)
    (preferred_regions : option (list string)) : D (list (string * bool)) :=
  mkdir_parents output_dir ;;;
  download_each game_info output_dir preferred_regions media_types [].

(** [quick_search]: a client of its own, dropped when it returns. *)
Definition quick_search (dev_id dev_password rom_path platform : string)
    (user_id user_password : option string) (w : World)
  : result (option GameInfo) * World :=
  let client := __init__ dev_id dev_password "ScreenScraperPython"
                  user_id user_password "en" 10000 1%float in
  let '(found, _, w') := search_by_file rom_path platform None client w in
  (found, w').

Definition download_box_art (dev_id dev_password rom_path platform : string)
    (output_dir : string) (user_id user_password : option string)
    (w : World) (d : Disk) : result bool * World * Disk :=
  match quick_search dev_id dev_password rom_path platform user_id user_password w with
  | (Raise e, w') => (Raise e, w', d)
  | (Ok None, w') => (Ok false, w', d)
  | (Ok (Some game_info), w') =>
      let client := __init__ dev_id dev_password "ScreenScraperPython"
                      user_id user_password "en" 10000 1%float in
      match download_media client game_info ["box-2D"] output_dir None d with
      | (Raise e, d') => (Raise e, w', d')
      | (Ok results, d') =>
          (Ok (match dict_lookup "box-2D" results with
               | Some ok => ok
               | None => false
               end), w', d')
      end
  end.
End Methods.

End Download.

(* ===================================================================== *)
(** ** Notions for the downloads                                          *)
(* ===================================================================== *)

Module Shelf.
Import Py Model Download.

(** How many of the chunks [write] takes from moment [t] on before it
    raises, by the errors [errs] has for each moment. *)
Fixpoint writes_done (errs : nat -> option exn) (t : nat)
    (chunks : list (list byte)) : nat :=
  match chunks with
  | [] => O
  | _ :: rest =>
      match errs t with
      | Some _ => O
      | None => S (writes_done errs (S t) rest)
      end
  end.

Definition same_oracles (d d' : Disk) : Prop :=
  web d' = web d /\ mkdir_error d' = mkdir_error d /\
  open_error d' = open_error d /\ write_error d' = write_error d.

(** The files of [d'] are those of [d], but for [path], which holds
    [content]. *)
Definition stores (d d' : Disk) (path : string) (content : list byte) : Prop :=
  forall p, dict_lookup p (files d')
            = if String.eqb p path then Some content else dict_lookup p (files d).

(** The files of [d'] are those of [d]. *)
Definition same_files (d d' : Disk) : Prop :=
  forall p, dict_lookup p (files d') = dict_lookup p (files d).

Definition is_io_get (e : io_event) : bool :=
  match e with
  | IoGet _ => true
  | _ => false
  end.

Definition is_io_open (e : io_event) : bool :=
  match e with
  | IoOpen _ => true
  | _ => false
  end.

(** The shape of the pieces [chars] cuts a text into: a byte and the
    continuation bytes after it; all but the first begin with a byte that
    is not a continuation byte. *)
Fixpoint all_continuation (s : string) : bool :=
  match s with
  | EmptyString => true
  | String c rest => is_continuation c && all_continuation rest
  end.

Definition one_char (c : string) : bool :=
  match c with
  | EmptyString => false
  | String _ rest => all_continuation rest
  end.

Definition starts_char (c : string) : bool :=
  match c with
  | EmptyString => false
  | String b _ => negb (is_continuation b)
  end.

(** The characters the file name keeps of the game's name. *)
Definition keeps_char `{Host} (c : string) : bool :=
  str_isalnum c || String.eqb c " " || String.eqb c "-" || String.eqb c "_".

(** The name of the file [download_media] writes for a media of a game
    called [name]. *)
Definition file_name `{Runtime} `{Host} (name : string) (media_type : string)
    (media : GameMedia) : string :=
  rstrip (String.concat "" (filter keeps_char (chars name)))
  ++ "_" ++ media_type ++ "." ++ py_str (format media).

(** The requested types that have a media in the record. *)
Definition with_media (game_info : GameInfo) (media_types : list string)
  : list string :=
  filter (fun t => match get_media_by_type game_info t with
                   | [] => false
                   | _ => true
                   end) media_types.

(** The body [download] starts to write, if it gets as far as the opened
    file: the request, the status, the directory and the opening of the
    file are the four steps before, at the moments that follow [d]. *)
Definition reaches_file (d : Disk) (url : pyval) (save_path parent : string)
  : option (list (list byte) * option exn) :=
  match web d (moment d) url with
  | GetRaises _ => None
  | Streams r chunks broken =>
      match check_status r with
      | Raise _ => None
      | Ok _ =>
          match mkdir_error d (S (moment d)) parent with
          | Some _ => None
          | None =>
              match open_error d (S (S (moment d))) save_path with
              | Some _ => None
              | None => Some (chunks, broken)
              end
          end
      end
  end.

Definition no_stream_error (broken : option exn) : bool :=
  match broken with
  | Some _ => false
  | None => true
  end.

(** An event of one download after its GET: about the directory [parent],
    about the file [save_path], or a line of the log. *)
Definition for_file (save_path parent : string) (e : io_event) : Prop :=
  match e with
  | IoGet _ => False
  | IoMkdir p => p = parent
  | IoOpen p => p = save_path
  | IoWrite p _ => p = save_path
  | IoLogInfo _ | IoLogWarning _ | IoLogError _ => True
  end.

(** An event of [download_media] after it made the output directory: it
    is about a requested type that has a media, the best one, its URL and
    its file under the output directory, or it is a line of the log. *)
Definition from_request `{Runtime} `{Host} (game_info : GameInfo) (name : string)
    (output_dir : string) (preferred_regions : option (list string))
    (media_types : list string) (e : io_event) : Prop :=
  match e with
  | IoLogInfo _ | IoLogWarning _ | IoLogError _ => True
  | _ =>
      exists media_type media,
        In media_type media_types /\
        get_best_media game_info media_type preferred_regions = Ok (Some media) /\
        let save_path := path_join output_dir (file_name name media_type media) in
        match e with
        | IoGet u => u = url media
        | IoMkdir p => p = path_parent save_path
        | IoOpen p => p = save_path
        | IoWrite p _ => p = save_path
        | _ => True
        end
  end.

(** The loop of [download_media] over the requested types, from the disk
    [d] to the disk [d'], and what each type in turn came to. A type with
    a media came to what the download of the best one into its file
    returned, on the disk the types before it left. A type without media
    came to False, with a line in the log. *)
Inductive batch `{Runtime} `{Host} (game_info : GameInfo) (name : string)
    (output_dir : string) (preferred_regions : option (list string))
  : list string -> Disk -> list (string * bool) -> Disk -> Prop :=
| batch_end (d : Disk) :
    batch game_info name output_dir preferred_regions [] d [] d
| batch_download (media_type : string) (rest : list string) (media : GameMedia)
    (ok : bool) (d d1 d' : Disk) (outcomes : list (string * bool)) :
    get_best_media game_info media_type preferred_regions = Ok (Some media) ->
    download media (path_join output_dir (file_name name media_type media)) d
    = (Ok ok, d1) ->
    batch game_info name output_dir preferred_regions rest d1 outcomes d' ->
    batch game_info name output_dir preferred_regions (media_type :: rest) d
          ((media_type, ok) :: outcomes) d'
| batch_no_media (media_type : string) (rest : list string) (d d' : Disk)
    (outcomes : list (string * bool)) :
    get_best_media game_info media_type preferred_regions = Ok None ->
    batch game_info name output_dir preferred_regions rest
          (io_emit (IoLogWarning ("No " ++ media_type ++ " media found for "
                                  ++ name)) d)
          outcomes d' ->
    batch game_info name output_dir preferred_regions (media_type :: rest) d
          ((media_type, false) :: outcomes) d'.

(** What a type came to at the end: its last outcome, when it was
    requested more than once. *)
Definition last_outcome (media_type : string) (outcomes : list (string * bool))
  : option bool :=
  dict_lookup media_type (rev outcomes).

(** *** A host and disks to run the code on *)

Definition ascii_isalnum (c : ascii) : bool :=
  let n := nat_of_ascii c in
  (((48 <=? n) && (n <=? 57)) || ((65 <=? n) && (n <=? 90))
   || ((97 <=? n) && (n <=? 122)))%nat.

Definition ascii_isspace (c : ascii) : bool :=
  let n := nat_of_ascii c in
  (((9 <=? n) && (n <=? 13)) || ((28 <=? n) && (n <=? 32)))%nat.

(** The text before the last slash of [s], if it has one. *)
Fixpoint before_last_slash (s : string) : option string :=
  match s with
  | EmptyString => None
  | String c rest =>
      match before_last_slash rest with
      | Some p => Some (String c p)
      | None => if Ascii.eqb c "/" then Some EmptyString else None
      end
  end.

(** Paths that need no normalisation, and the characters of ASCII. *)
Definition plain_host : Host :=
  {| path_join := fun a b => a ++ "/" ++ b;
     path_parent := fun p => match before_last_slash p with
                             | Some q => q
                             | None => "."
                             end;
     isalnum := fun s => match s with
                         | String c EmptyString => ascii_isalnum c
                         | _ => false
                         end;
     isspace := fun s => match s with
                         | String c EmptyString => ascii_isspace c
                         | _ => false
                         end |}.

(** A disk without files where nothing fails and the web answers every
    request the same way. *)
Definition quiet_disk (answer : stream_result) : Disk :=
  mk_Disk (fun _ _ => answer) (fun _ _ => None) (fun _ _ => None)
          (fun _ _ => None) [] [].

Definition ok_stream (chunks : list (list byte)) : stream_result :=
  Streams (mk_response 200 "OK" "http://media/file" "") chunks None.

(** A disk without files where nothing fails and the web has the file of
    one URL only: a request for another times out. *)
Definition one_file_disk (url : string) (chunks : list (list byte)) : Disk :=
  mk_Disk (fun _ u => if eq_str u url then ok_stream chunks
                      else GetRaises (mk_exn RequestException "timed out"))
          (fun _ _ => None) (fun _ _ => None) (fun _ _ => None) [] [].

(** A game with box art and a video. *)
Definition game_with_video : GameInfo :=
  mk_GameInfo "1" (PStr "Game") (PStr "") (PStr "") (PStr "") (PStr "")
    (PStr "") (PStr "") (PStr "") (PStr "")
    [ mk_GameMedia (PStr "box-2D") (PStr "http://media/eu.png") (PStr "png")
        (PStr "eu") (PStr "");
      mk_GameMedia (PStr "video") (PStr "http://media/eu.mp4") (PStr "mp4")
        (PStr "eu") (PStr "") ]
    (PDict []).

End Shelf.

(* ===================================================================== *)
(** ** Properties                                                         *)
(* ===================================================================== *)

Import Py Digest Model Spec Notions Concrete.
Local Open Scope py_scope.

(** *** Unknown platforms *)

Section Platforms.
Context `{Runtime}.

Lemma dict_has_lookup_none {V : Type} (k : string) (d : list (string * V)) :
  dict_lookup k d = None -> dict_has k d = false.
Proof. unfold dict_has. intros ->. reflexivity. Qed.

(** C1. A platform name that is not a key of [PLATFORMS] makes
    [search_by_name] and [search_by_file] raise [ValueError], the
    InvalidPlatform condition, and leaves the client and the world as they
    were: the clock is not read, nothing is requested from the network, no
    file is touched, nothing is logged. *)
Theorem invalid_platform_rejected_first
    (platform game_name file_path : string) (rom_name : option string)
    (c : ScreenScraperClient) (w : World) :
  dict_lookup platform PLATFORMS = None ->
  (exists e,
      search_by_name game_name platform c w = (Raise e, c, w) /\
      exn_class e = ValueError /\ condition_of e = Some InvalidPlatform) /\
  (exists e,
      search_by_file file_path platform rom_name c w = (Raise e, c, w) /\
      exn_class e = ValueError /\ condition_of e = Some InvalidPlatform).
Proof.
  intros Hnone. apply dict_has_lookup_none in Hnone.
  split.
  - unfold search_by_name. rewrite Hnone. cbn [negb].
    eexists. split; [reflexivity|]. split; reflexivity.
  - unfold search_by_file. rewrite Hnone. cbn [negb].
    eexists. split; [reflexivity|]. split; reflexivity.
Qed.
End Platforms.

Lemma invalid_platform_rejected_first_witness :
  let rt := table_runtime [] in
  let c := new_client "dev" "secret" in
  let w := simple_world [("roms/mario.nes", Regular [])] (ok_response "{}") in
  dict_lookup "playstation9" PLATFORMS = None /\
  (exists e,
      search_by_name "Mario" "playstation9" c w = (Raise e, c, w) /\
      exn_class e = ValueError /\ condition_of e = Some InvalidPlatform) /\
  (exists e,
      search_by_file "roms/mario.nes" "playstation9" None c w = (Raise e, c, w) /\
      exn_class e = ValueError /\ condition_of e = Some InvalidPlatform).
Proof.
  intros rt c w. split; [reflexivity|].
  apply (@invalid_platform_rejected_first rt "playstation9" "Mario"
           "roms/mario.nes" None c w).
  reflexivity.
Defined.


(** *** Best media *)

Section BestMedia.
Context `{Runtime}.

Lemma region_is_eqb (pref r : string) (m : GameMedia) :
  region m = PStr r ->
  (region_is pref m <-> String.eqb (str_lower r) (str_lower pref) = true).
Proof.
  intros Hr. unfold region_is. rewrite String.eqb_eq. split.
  - intros (r' & Hr' & Heq). rewrite Hr in Hr'. injection Hr' as <-. exact Heq.
  - intros Heq. exists r. split; assumption.
Qed.

Lemma first_in_region_spec (pref : string) (candidates : list GameMedia) :
  Forall has_str_region candidates ->
  (first_in_region pref candidates = Ok None /\
   forall c, In c candidates -> ~ region_is pref c) \/
  (exists before m after,
      candidates = (before ++ m :: after)%list /\
      (forall c, In c before -> ~ region_is pref c) /\
      region_is pref m /\
      first_in_region pref candidates = Ok (Some m)).
Proof.
  induction 1 as [|m rest [r Hr] Hrest IH].
  - left. split; [reflexivity|]. intros c [].
  - cbn [first_in_region]. rewrite Hr. cbn [py_lower bind].
    destruct (String.eqb (str_lower r) (str_lower pref)) eqn:Heq.
    + right. exists [], m, rest. repeat split.
      * intros c [].
      * apply (region_is_eqb pref r m Hr). exact Heq.
    + assert (Hm : ~ region_is pref m).
      { intros Hm. apply (region_is_eqb pref r m Hr) in Hm. congruence. }
      destruct IH as [[Hnone Hall] | (before & m' & after & -> & Hbefore & Hm' & Hfound)].
      * left. split; [exact Hnone|].
        intros c [<- | Hc]; [exact Hm | exact (Hall c Hc)].
      * right. exists (m :: before), m', after. repeat split.
        -- intros c [<- | Hc]; [exact Hm | exact (Hbefore c Hc)].
        -- exact Hm'.
        -- exact Hfound.
Qed.

Lemma scan_regions_spec (prefs : list string) (candidates : list GameMedia) :
  Forall has_str_region candidates ->
  (scan_regions prefs candidates = Ok None /\
   forall p c, In p prefs -> In c candidates -> ~ region_is p c) \/
  (exists earlier p later before m after,
      prefs = (earlier ++ p :: later)%list /\
      candidates = (before ++ m :: after)%list /\
      (forall p' c, In p' earlier -> In c candidates -> ~ region_is p' c) /\
      (forall c, In c before -> ~ region_is p c) /\
      region_is p m /\
      scan_regions prefs candidates = Ok (Some m)).
Proof.
  intros Hstr. induction prefs as [|p prefs IH].
  - left. split; [reflexivity|]. intros p c [].
  - cbn [scan_regions].
    destruct (first_in_region_spec p candidates Hstr)
      as [[Hnone Hall] | (before & m & after & Hcands & Hbefore & Hm & Hfound)].
    + rewrite Hnone. cbn [bind].
      destruct IH as [[Hscan Hno] |
                      (earlier & p' & later & before & m & after
                       & -> & Hcands & Hearlier & Hbefore & Hm & Hscan)].
      * left. split; [exact Hscan|].
        intros q c [<- | Hq] Hc; [exact (Hall c Hc) | exact (Hno q c Hq Hc)].
      * right. exists (p :: earlier), p', later, before, m, after.
        repeat split; try assumption.
        intros q c [<- | Hq] Hc; [exact (Hall c Hc) | exact (Hearlier q c Hq Hc)].
    + rewrite Hfound. cbn [bind].
      right. exists [], p, prefs, before, m, after.
      repeat split; try assumption.
      intros q c [].
Qed.

Lemma split_at_same {A : Type} (l1 l2 r1 r2 : list A) (a b : A) :
  (l1 ++ a :: r1 = l2 ++ b :: r2)%list ->
  (l1 = l2 /\ a = b /\ r1 = r2) \/ In a l2 \/ In b l1.
Proof.
  revert l2. induction l1 as [|x l1 IH]; intros [|y l2] Heq; cbn in Heq.
  - injection Heq as -> ->. left. repeat split.
  - injection Heq as -> _. right. left. left. reflexivity.
  - injection Heq as -> _. right. right. left. reflexivity.
  - injection Heq as -> Heq. destruct (IH l2 Heq) as [(-> & -> & ->) | [Ha | Hb]].
    + left. repeat split.
    + right. left. right. exact Ha.
    + right. right. right. exact Hb.
Qed.

(** The rule leaves no choice: it names one result. *)
Lemma best_of_functional (prefs : list string) (candidates : list GameMedia)
    (a b : option GameMedia) :
  best_of prefs candidates a -> best_of prefs candidates b -> a = b.
Proof.
  intros Ha Hb.
  destruct Ha as [Hnil | e1 p1 l1 b1 m1 a1 Hp1 Hc1 He1 Hb1 Hm1 | f1 r1 Hc1 Hno1];
    destruct Hb as [Hnil2 | e2 p2 l2 b2 m2 a2 Hp2 Hc2 He2 Hb2 Hm2 | f2 r2 Hc2 Hno2].
  - reflexivity.
  - rewrite Hnil in Hc2. destruct b2; discriminate.
  - rewrite Hnil in Hc2. discriminate.
  - rewrite Hnil2 in Hc1. destruct b1; discriminate.
  - assert (Hin1 : In m1 candidates) by (rewrite Hc1; apply in_elt).
    assert (Hin2 : In m2 candidates) by (rewrite Hc2; apply in_elt).
    rewrite Hp1 in Hp2.
    destruct (split_at_same _ _ _ _ _ _ Hp2) as [(-> & -> & ->) | [Hin | Hin]].
    + rewrite Hc1 in Hc2.
      destruct (split_at_same _ _ _ _ _ _ Hc2) as [(-> & -> & ->) | [Hin | Hin]].
      * reflexivity.
      * exfalso. exact (Hb2 m1 Hin Hm1).
      * exfalso. exact (Hb1 m2 Hin Hm2).
    + exfalso. exact (He2 p1 m1 Hin Hin1 Hm1).
    + exfalso. exact (He1 p2 m2 Hin Hin2 Hm2).
  - exfalso. apply (Hno2 p1 m1); [rewrite Hp1; apply in_elt | | exact Hm1].
    rewrite Hc1. apply in_elt.
  - rewrite Hnil2 in Hc1. discriminate.
  - exfalso. apply (Hno1 p2 m2); [rewrite Hp2; apply in_elt | | exact Hm2].
    rewrite Hc2. apply in_elt.
  - rewrite Hc1 in Hc2. injection Hc2 as -> _. reflexivity.
Qed.

(** C6. [get_best_media] keeps the media whose type is [media_type], in
    encounter order; with the preferences given, or us, wor, eu, jp by
    default, it returns the first candidate in the first preferred region
    that any candidate is in (regions compared lowercased), else the first
    candidate, and none when there is no candidate. The regions of the
    candidates are strings, as the dataclass declares them. *)
Theorem get_best_media_selects
    (self : GameInfo) (media_type : string)
    (preferred_regions : option (list string)) :
  let prefs := match preferred_regions with
               | None => ["us"; "wor"; "eu"; "jp"]
               | Some l => l
               end in
  let candidates :=
    filter (fun m => eq_str (Model.media_type m) media_type) (media self) in
  Forall has_str_region candidates ->
  exists choice,
    get_best_media self media_type preferred_regions = Ok choice /\
    best_of prefs candidates choice.
Proof.
  intros prefs candidates Hstr.
  unfold get_best_media, get_media_by_type. fold candidates.
  change (match preferred_regions with
          | Some l => l
          | None => default_regions
          end) with prefs.
  destruct candidates as [|first rest] eqn:Hcands.
  - exists None. split; [reflexivity | constructor; reflexivity].
  - destruct (scan_regions_spec prefs (first :: rest) Hstr)
      as [[Hscan Hno] |
          (earlier & p & later & before & m & after
           & Hprefs & Hsplit & Hearlier & Hbefore & Hm & Hscan)].
    + rewrite Hscan. cbn [bind]. exists (Some first). split; [reflexivity|].
      eapply best_first; [reflexivity | exact Hno].
    + rewrite Hscan. cbn [bind]. exists (Some m). split; [reflexivity|].
      eapply best_in_region; eassumption.
Qed.
End BestMedia.

(** The scenario of the specification: candidates in regions jp and eu,
    default preferences; the eu candidate wins, since no candidate is in us
    or wor. Regions are compared lowercased. *)
Example best_media_jp_eu :
  @get_best_media (table_runtime []) game_jp_eu "box-2D" None
  = Ok (Some (box "eu" "http://media/eu.png")).
Proof. reflexivity. Qed.

Example best_media_ignores_case :
  @get_best_media (table_runtime []) game_jp_eu "box-2D" (Some ["JP"; "eu"])
  = Ok (Some (box "jp" "http://media/jp.png")).
Proof. reflexivity. Qed.

Example best_media_falls_back_to_first :
  @get_best_media (table_runtime []) game_jp_eu "box-2D" (Some ["fr"])
  = Ok (Some (box "jp" "http://media/jp.png")).
Proof. reflexivity. Qed.

Example best_media_none_of_kind :
  @get_best_media (table_runtime []) game_jp_eu "screenshot" None = Ok None.
Proof. reflexivity. Qed.

Lemma get_best_media_selects_witness :
  let rt := table_runtime [] in
  let candidates :=
    filter (fun m => eq_str (Model.media_type m) "box-2D") (media game_jp_eu) in
  Forall has_str_region candidates /\
  exists choice,
    get_best_media game_jp_eu "box-2D" None = Ok choice /\
    best_of ["us"; "wor"; "eu"; "jp"] candidates choice.
Proof.
  intros rt candidates.
  assert (Hstr : Forall has_str_region candidates).
  { repeat constructor; eexists; reflexivity. }
  split; [exact Hstr|].
  exact (@get_best_media_selects rt game_jp_eu "box-2D" None Hstr).
Defined.

(** *** The response mapper *)

(** One step of a [let*] chain that ended well. *)
Ltac bind_ok H :=
  match type of H with
  | bind ?r _ = Ok _ =>
      let E := fresh "E" in
      destruct r eqn:E; cbn [bind] in H; [| discriminate H]
  end.

Section Mapper.
Context `{Runtime}.

Lemma py_get_dict (v : pyval) (k : string) (default x : pyval) :
  py_get v k default = Ok x ->
  exists kvs, v = PDict kvs /\
              x = match dict_lookup k kvs with Some y => y | None => default end.
Proof.
  destruct v; cbn; intros Hget; try discriminate Hget.
  injection Hget as <-. eexists. split; reflexivity.
Qed.

Lemma append_media_items_spec (items : list pyval) :
  forall acc acc',
    append_media_items items acc = Ok acc' ->
    acc' = (acc ++ map descriptor_of (filter has_url items))%list.
Proof.
  induction items as [|media_item rest IH]; intros acc acc' Hrun.
  - cbn in Hrun. injection Hrun as <-. cbn. now rewrite app_nil_r.
  - cbn [append_media_items] in Hrun.
    bind_ok Hrun. bind_ok Hrun.
    destruct (py_get_dict _ _ _ _ E) as (kvs & -> & ->).
    destruct (py_get_dict _ _ _ _ E0) as (kvs' & Hkvs & ->).
    injection Hkvs as <-.
    cbn [filter]. unfold has_url at 1. cbn [py_get].
    destruct (truthy _) eqn:Hurl.
    + cbn [py_get bind] in Hrun. apply IH in Hrun. subst acc'.
      cbn [map]. rewrite <- app_assoc. reflexivity.
    + apply IH in Hrun. exact Hrun.
Qed.

Lemma append_media_groups_spec (groups : list pyval) :
  forall acc acc',
    append_media_groups groups acc = Ok acc' ->
    exists item_lists,
      Forall2 (fun media_group items => items_of_group media_group = Ok items)
              groups item_lists /\
      acc' = (acc ++ map descriptor_of (filter has_url (List.concat item_lists)))%list.
Proof.
  induction groups as [|media_group rest IH]; intros acc acc' Hrun.
  - cbn in Hrun. injection Hrun as <-. exists []. split; [constructor|].
    cbn. now rewrite app_nil_r.
  - cbn [append_media_groups] in Hrun.
    bind_ok Hrun. bind_ok Hrun. bind_ok Hrun.
    apply append_media_items_spec in E1. subst a1.
    destruct (IH _ _ Hrun) as (item_lists & Hall & ->).
    exists (a0 :: item_lists). split.
    + constructor; [|exact Hall]. unfold items_of_group. rewrite E. cbn [bind].
      exact E0.
    + cbn [List.concat]. rewrite filter_app, map_app, app_assoc. reflexivity.
Qed.

Lemma has_url_truthy (media_item : pyval) :
  has_url media_item = true ->
  truthy (url (descriptor_of media_item)) = true.
Proof.
  unfold has_url, descriptor_of, field_or_empty. cbn [url].
  destruct (py_get media_item "url" (PStr "")); [trivial | discriminate].
Qed.

Lemma parse_ok_inv (self : ScreenScraperClient) (data : pyval) (g : GameInfo) :
  _parse_game_data self data = Ok g -> parsed self data g.
Proof.
  unfold _parse_game_data. intros Hrun.
  bind_ok Hrun. destruct a; cbn [negb] in Hrun; [| discriminate Hrun].
  bind_ok Hrun. bind_ok Hrun.
  destruct a0; cbn [negb] in Hrun; [| discriminate Hrun].
  repeat bind_ok Hrun.
  injection Hrun as <-. cbn [raw_data id name description publisher developer
    players rating release_date genre system media].
  econstructor; cbn [raw_data id name description publisher developer
    players rating release_date genre system media];
    try eassumption; eauto.
Qed.
(** The record keeps the game node of the tree it was parsed from. *)
Lemma parsed_game_node (self : ScreenScraperClient) (data : pyval) (g : GameInfo) :
  _parse_game_data self data = Ok g -> game_node data = Some (raw_data g).
Proof.
  intros Hrun. apply parse_ok_inv in Hrun.
  destruct (p_node _ _ _ Hrun) as (response & _ & Hresponse & _ & Hjeu).
  destruct data as [| | | | | |top]; cbn in Hresponse; try discriminate Hresponse.
  cbn [game_node].
  destruct (dict_lookup "response" top) as [r|]; [|discriminate Hresponse].
  injection Hresponse as ->.
  destruct response as [| | | | | |kvs]; cbn in Hjeu; try discriminate Hjeu.
  destruct (dict_lookup "jeu" kvs) as [jeu|]; [|discriminate Hjeu].
  now injection Hjeu as ->.
Qed.
End Mapper.

Section MediaList.
Context `{Runtime}.

(** C7. For every response tree and every record the mapper returns for
    it, the record's [raw_data] is the game node of that tree, each media
    entry has a URL that is there and not empty, and the media list is, in
    encounter order (group after group, item after item), the descriptors
    of the items of the node's [medias] that have a URL: each of them is in
    the list, and the others are dropped. *)
Theorem parsed_media_keep_urls
    (self : ScreenScraperClient) (data : pyval) (g : GameInfo) :
  _parse_game_data self data = Ok g ->
  game_node data = Some (raw_data g) /\
  Forall (fun m => truthy (url m) = true /\ url m <> PStr "") (media g) /\
  exists medias groups item_lists,
    py_get (raw_data g) "medias" (PList []) = Ok medias /\
    py_iter medias = Ok groups /\
    Forall2 (fun media_group items => items_of_group media_group = Ok items)
            groups item_lists /\
    media g = map descriptor_of (filter has_url (List.concat item_lists)) /\
    (forall media_item,
        In media_item (List.concat item_lists) ->
        has_url media_item = true ->
        In (descriptor_of media_item) (media g)).
Proof.
  intros Hrun. pose proof (parsed_game_node self data g Hrun) as Hnode.
  apply parse_ok_inv in Hrun.
  destruct (p_media _ _ _ Hrun) as (medias & groups & Hmedias & Hgroups & Happend).
  apply append_media_groups_spec in Happend.
  destruct Happend as (item_lists & Hall & Hmedia). cbn [app] in Hmedia.
  split; [exact Hnode|]. split.
  - rewrite Hmedia. apply Forall_forall. intros m Hm.
    apply in_map_iff in Hm. destruct Hm as (item & <- & Hitem).
    apply filter_In in Hitem. destruct Hitem as [_ Hurl].
    apply has_url_truthy in Hurl. split; [exact Hurl|].
    intros Hempty. rewrite Hempty in Hurl. discriminate Hurl.
  - exists medias, groups, item_lists.
    split; [exact Hmedias|]. split; [exact Hgroups|]. split; [exact Hall|].
    split; [exact Hmedia|].
    intros media_item Hin Hurl. rewrite Hmedia. apply in_map.
    apply filter_In. split; assumption.
Qed.
End MediaList.

Example no_url_no_media :
  let rt := table_runtime [] in
  exists g, _parse_game_data (new_client "dev" "secret") (response_with no_url_jeu) = Ok g
            /\ media g = [].
Proof. eexists. split; reflexivity. Qed.

Example mario_media_in_order :
  let rt := table_runtime [] in
  exists g, _parse_game_data (new_client "dev" "secret") (response_with mario_jeu) = Ok g
            /\ map url (media g) = [PStr "http://media/jp.png"; PStr "http://media/eu.png"].
Proof. eexists. split; reflexivity. Qed.

Lemma parsed_media_keep_urls_witness :
  let rt := table_runtime [] in
  let self := new_client "dev" "secret" in
  exists g,
    _parse_game_data self (response_with mario_jeu) = Ok g /\
    game_node (response_with mario_jeu) = Some (raw_data g) /\
    raw_data g = mario_jeu /\
    Forall (fun m => truthy (url m) = true /\ url m <> PStr "") (media g) /\
    exists medias groups item_lists,
      py_get (raw_data g) "medias" (PList []) = Ok medias /\
      py_iter medias = Ok groups /\
      Forall2 (fun media_group items => items_of_group media_group = Ok items)
              groups item_lists /\
      media g = map descriptor_of (filter has_url (List.concat item_lists)) /\
      (forall media_item,
          In media_item (List.concat item_lists) ->
          has_url media_item = true ->
          In (descriptor_of media_item) (media g)).
Proof.
  intros rt self. eexists. split; [reflexivity|].
  destruct (@parsed_media_keep_urls rt self (response_with mario_jeu) _ eq_refl)
    as (Hnode & Hurls & Hlist).
  split; [exact Hnode|]. split; [reflexivity|]. split; [exact Hurls | exact Hlist].
Defined.

(** *** Localized text *)

Section LocalizedText.
Context `{Runtime}.

Lemma text_in_language_spec (language : string) (entries : list entry) :
  text_in_language language (map PDict entries)
  = Ok (option_map entry_text (find (entry_in_locale language) entries)).
Proof.
  induction entries as [|e rest IH]; [reflexivity|].
  cbn [map text_in_language py_get bind find].
  unfold entry_in_locale at 1.
  destruct (dict_lookup "langue" e) as [l|]; cbn [eq_str].
  - destruct (eq_str l language); [reflexivity | exact IH].
  - exact IH.
Qed.

Lemma get_localized_text_spec (self : ScreenScraperClient) (entries : list entry) :
  _get_localized_text self (PList (map PDict entries))
  = Ok (select_localized (language self) entries).
Proof.
  unfold _get_localized_text, select_localized.
  destruct entries as [|e rest]; [reflexivity|].
  cbn [map truthy negb py_iter bind]. rewrite <- map_cons.
  rewrite text_in_language_spec. cbn [bind].
  destruct (find _ _); reflexivity.
Qed.

Lemma get_text_from_list_spec (self : ScreenScraperClient) (entries : list entry) :
  _get_text_from_list self (PList (map PDict entries)) = Ok (select_first entries).
Proof.
  unfold _get_text_from_list, select_first.
  destruct entries as [|e rest]; reflexivity.
Qed.

Lemma text_in_main_region_spec (entries : list entry) :
  text_in_main_region (map PDict entries)
  = Ok (option_map entry_text (find entry_is_main_release entries)).
Proof.
  induction entries as [|e rest IH]; [reflexivity|].
  cbn [map text_in_main_region py_get bind find].
  unfold entry_is_main_release at 1.
  destruct (dict_lookup "region" e) as [r|]; cbn [eq_str orb].
  - destruct (eq_str r "wor" || eq_str r "us"); [reflexivity | exact IH].
  - exact IH.
Qed.

Lemma get_release_date_spec (self : ScreenScraperClient) (entries : list entry) :
  _get_release_date self (PList (map PDict entries)) = Ok (select_release entries).
Proof.
  unfold _get_release_date, select_release.
  destruct entries as [|e rest]; [reflexivity|].
  cbn [map truthy negb py_iter bind]. rewrite <- map_cons.
  rewrite text_in_main_region_spec. cbn [bind].
  destruct (find _ _); reflexivity.
Qed.

(** C5, as the code has it. Name and description take the text of the
    first entry whose locale tag is the configured language, else of the
    first entry, else the empty string. Publisher, developer and genre take
    the text of the first entry, whatever its locale, else the empty
    string. *)
Theorem localized_fields_selected
    (self : ScreenScraperClient) (data : pyval) (g : GameInfo) :
  _parse_game_data self data = Ok g ->
  (forall entries,
      py_get (raw_data g) "noms" (PList []) = Ok (PList (map PDict entries)) ->
      name g = select_localized (language self) entries) /\
  (forall entries,
      py_get (raw_data g) "synopsis" (PList []) = Ok (PList (map PDict entries)) ->
      description g = select_localized (language self) entries) /\
  (forall entries,
      py_get (raw_data g) "editeur" (PList []) = Ok (PList (map PDict entries)) ->
      publisher g = select_first entries) /\
  (forall entries,
      py_get (raw_data g) "developpeur" (PList []) = Ok (PList (map PDict entries)) ->
      developer g = select_first entries) /\
  (forall entries,
      py_get (raw_data g) "genres" (PList []) = Ok (PList (map PDict entries)) ->
      genre g = select_first entries).
Proof.
  intros Hrun. apply parse_ok_inv in Hrun.
  destruct (p_name _ _ _ Hrun) as (v1 & Hget1 & Hsel1).
  destruct (p_description _ _ _ Hrun) as (v2 & Hget2 & Hsel2).
  destruct (p_publisher _ _ _ Hrun) as (v3 & Hget3 & Hsel3).
  destruct (p_developer _ _ _ Hrun) as (v4 & Hget4 & Hsel4).
  destruct (p_genre _ _ _ Hrun) as (v5 & Hget5 & Hsel5).
  repeat split; intros entries Hentries.
  - rewrite Hget1 in Hentries. injection Hentries as ->.
    rewrite get_localized_text_spec in Hsel1. now injection Hsel1.
  - rewrite Hget2 in Hentries. injection Hentries as ->.
    rewrite get_localized_text_spec in Hsel2. now injection Hsel2.
  - rewrite Hget3 in Hentries. injection Hentries as ->.
    rewrite get_text_from_list_spec in Hsel3. now injection Hsel3.
  - rewrite Hget4 in Hentries. injection Hentries as ->.
    rewrite get_text_from_list_spec in Hsel4. now injection Hsel4.
  - rewrite Hget5 in Hentries. injection Hentries as ->.
    rewrite get_text_from_list_spec in Hsel5. now injection Hsel5.
Qed.
End LocalizedText.

(** The specification's example: entries (fr, Bonjour), (en, Hello). *)
Example name_in_configured_locale :
  let rt := table_runtime [] in
  _get_localized_text (new_client "dev" "secret")
    (PList [text_entry "fr" "Bonjour"; text_entry "en" "Hello"]) = Ok (PStr "Hello").
Proof. reflexivity. Qed.

Example name_falls_back_to_first :
  let rt := table_runtime [] in
  _get_localized_text
    (__init__ "dev" "secret" "ScreenScraperPython" None None "de" 10000 1%float)
    (PList [text_entry "fr" "Bonjour"; text_entry "en" "Hello"]) = Ok (PStr "Bonjour").
Proof. reflexivity. Qed.

(** C5 as stated does not hold for the publisher. With the configured
    language en and the publisher entries
    (fr, Bonjour), (en, Hello), the rule of the specification selects Hello;
    the mapper returns Bonjour. *)
Lemma publisher_ignores_locale :
  let rt := table_runtime [] in
  let self := new_client "dev" "secret" in
  let entries := [ [("langue", PStr "fr"); ("text", PStr "Bonjour")];
                   [("langue", PStr "en"); ("text", PStr "Hello")] ] in
  exists g,
    _parse_game_data self (response_with mario_jeu) = Ok g /\
    py_get (raw_data g) "editeur" (PList []) = Ok (PList (map PDict entries)) /\
    language self = "en" /\
    select_localized (language self) entries = PStr "Hello" /\
    publisher g = PStr "Bonjour" /\
    publisher g <> select_localized (language self) entries.
Proof.
  intros rt self entries. eexists.
  split; [reflexivity|]. split; [reflexivity|]. split; [reflexivity|].
  split; [reflexivity|]. split; [reflexivity|]. discriminate.
Qed.

Lemma localized_fields_selected_witness :
  let rt := table_runtime [] in
  let self := new_client "dev" "secret" in
  let entries := [ [("langue", PStr "fr"); ("text", PStr "Bonjour")];
                   [("langue", PStr "en"); ("text", PStr "Hello")] ] in
  exists g,
    _parse_game_data self (response_with mario_jeu) = Ok g /\
    py_get (raw_data g) "noms" (PList []) = Ok (PList (map PDict entries)) /\
    py_get (raw_data g) "editeur" (PList []) = Ok (PList (map PDict entries)) /\
    name g = select_localized "en" entries /\
    publisher g = select_first entries.
Proof.
  intros rt self entries. eexists.
  split; [reflexivity|]. split; [reflexivity|]. split; [reflexivity|].
  pose proof (@localized_fields_selected rt self (response_with mario_jeu) _ eq_refl)
    as (Hname & _ & Hpublisher & _).
  split; [apply Hname | apply Hpublisher]; reflexivity.
Defined.

(** *** Not found *)

Create HintDb typing discriminated.

Section NotFound.
Context `{Runtime}.

Lemma only_typing_ok {A : Type} (a : A) : only_typing_errors (Ok a).
Proof. intros e He. discriminate He. Qed.

Lemma only_typing_raise {A : Type} (c : exc_class) (msg : string) :
  In c [AttributeError; TypeError; KeyError; IndexError] ->
  only_typing_errors (@raise_ A c msg).
Proof. intros Hc e He. injection He as <-. exact Hc. Qed.

Lemma only_typing_bind {A B : Type} (r : result A) (k : A -> result B) :
  only_typing_errors r ->
  (forall a, only_typing_errors (k a)) ->
  only_typing_errors (bind r k).
Proof.
  intros Hr Hk e He. destruct r as [a|e0]; cbn [bind] in He.
  - exact (Hk a e He).
  - injection He as <-. apply Hr. reflexivity.
Qed.

Ltac typing_raise :=
  apply only_typing_raise; cbn [In]; tauto.

Lemma only_typing_py_get v k d : only_typing_errors (py_get v k d).
Proof. destruct v; cbn [py_get]; try typing_raise; apply only_typing_ok. Qed.

Lemma only_typing_py_contains k v : only_typing_errors (py_contains k v).
Proof. destruct v; cbn [py_contains]; try typing_raise; apply only_typing_ok. Qed.

Lemma only_typing_py_getitem v k : only_typing_errors (py_getitem v k).
Proof.
  destruct v; cbn [py_getitem]; try typing_raise.
  destruct (dict_lookup k kvs); [apply only_typing_ok | typing_raise].
Qed.

Lemma only_typing_py_iter v : only_typing_errors (py_iter v).
Proof. destruct v; cbn [py_iter]; try typing_raise; apply only_typing_ok. Qed.

Lemma only_typing_py_first v : only_typing_errors (py_first v).
Proof.
  destruct v as [| | | |s|xs|]; cbn [py_first]; try typing_raise.
  - destruct s; [typing_raise | apply only_typing_ok].
  - destruct xs; [typing_raise | apply only_typing_ok].
Qed.

Hint Resolve only_typing_ok only_typing_py_get only_typing_py_contains
  only_typing_py_getitem only_typing_py_iter only_typing_py_first : typing.

Ltac typing_chain :=
  repeat first
    [ apply only_typing_ok
    | solve [auto with typing]
    | apply only_typing_bind; [| intros ?]
    | match goal with
      | |- only_typing_errors (if ?b then _ else _) => destruct b
      | |- only_typing_errors (match ?o with Some _ => _ | None => _ end) =>
          destruct o
      end ].

Lemma only_typing_text_in_language language items :
  only_typing_errors (text_in_language language items).
Proof. induction items; cbn [text_in_language]; typing_chain. Qed.

Lemma only_typing_text_in_main_region items :
  only_typing_errors (text_in_main_region items).
Proof. induction items; cbn [text_in_main_region]; typing_chain. Qed.

Hint Resolve only_typing_text_in_language only_typing_text_in_main_region : typing.

Lemma only_typing_get_localized_text self v :
  only_typing_errors (_get_localized_text self v).
Proof. unfold _get_localized_text. typing_chain. Qed.

Lemma only_typing_get_text_from_list self v :
  only_typing_errors (_get_text_from_list self v).
Proof. unfold _get_text_from_list. typing_chain. Qed.

Lemma only_typing_get_release_date self v :
  only_typing_errors (_get_release_date self v).
Proof. unfold _get_release_date. typing_chain. Qed.

Lemma only_typing_append_media_items items :
  forall acc, only_typing_errors (append_media_items items acc).
Proof. induction items; intros acc; cbn [append_media_items]; typing_chain. Qed.

Hint Resolve only_typing_get_localized_text only_typing_get_text_from_list
  only_typing_get_release_date only_typing_append_media_items : typing.

Lemma only_typing_append_media_groups groups :
  forall acc, only_typing_errors (append_media_groups groups acc).
Proof. induction groups; intros acc; cbn [append_media_groups]; typing_chain. Qed.

Hint Resolve only_typing_append_media_groups : typing.

Lemma typing_error_not_found (e : exn) :
  typing_error e -> exn_class e <> GameNotFoundError.
Proof.
  unfold typing_error. cbn [In]. intros Hin Hnf. rewrite Hnf in Hin.
  repeat destruct Hin as [Hin | Hin]; try discriminate Hin. exact Hin.
Qed.

(** The mapper raises [GameNotFoundError] exactly when the wrapper or the
    game node is missing; whatever else it raises is a typing error. *)
Lemma parse_not_found_iff (self : ScreenScraperClient) (data : pyval) :
  (exists e, _parse_game_data self data = Raise e /\
             exn_class e = GameNotFoundError) <->
  (lacks_wrapper data \/ lacks_game_node data).
Proof.
  unfold lacks_wrapper, lacks_game_node, _parse_game_data. split.
  - intros (e & Hrun & Hclass).
    destruct (py_contains "response" data) as [[|]|e0] eqn:Hwrap; cbn [bind negb] in Hrun.
    + right.
      destruct (py_getitem data "response") as [response|e0] eqn:Hresp;
        cbn [bind] in Hrun.
      * exists response.
        destruct (py_contains "jeu" response) as [[|]|e0] eqn:Hjeu;
          cbn [bind negb] in Hrun.
        -- exfalso. revert Hclass. apply typing_error_not_found.
           revert e Hrun.
           match goal with
           | |- forall e, ?r = Raise e -> _ => change (only_typing_errors r)
           end.
           typing_chain.
        -- repeat split; reflexivity.
        -- exfalso. injection Hrun as <-. revert Hclass.
           apply typing_error_not_found.
           exact (only_typing_py_contains _ _ _ Hjeu).
      * exfalso. injection Hrun as <-. revert Hclass.
        apply typing_error_not_found. exact (only_typing_py_getitem _ _ _ Hresp).
    + left. reflexivity.
    + exfalso. injection Hrun as <-. revert Hclass.
      apply typing_error_not_found. exact (only_typing_py_contains _ _ _ Hwrap).
  - intros [Hwrap | (response & Hwrap & Hresp & Hjeu)].
    + rewrite Hwrap. cbn [bind negb]. eexists. split; reflexivity.
    + rewrite Hwrap. cbn [bind negb]. rewrite Hresp. cbn [bind].
      rewrite Hjeu. cbn [bind negb]. eexists. split; reflexivity.
Qed.

(** Every other failure of the mapper is a typing error. *)
Lemma parse_other_failures (self : ScreenScraperClient) (data : pyval) (e : exn) :
  _parse_game_data self data = Raise e ->
  exn_class e = GameNotFoundError \/ typing_error e.
Proof.
  unfold _parse_game_data. intros Hrun.
  destruct (py_contains "response" data) as [[|]|e0] eqn:Hwrap; cbn [bind negb] in Hrun.
  - destruct (py_getitem data "response") as [response|e0] eqn:Hresp;
      cbn [bind] in Hrun.
    + destruct (py_contains "jeu" response) as [[|]|e0] eqn:Hjeu;
        cbn [bind negb] in Hrun.
      * right. revert e Hrun.
        match goal with
        | |- forall e, ?r = Raise e -> _ => change (only_typing_errors r)
        end.
        typing_chain.
      * left. injection Hrun as <-. reflexivity.
      * right. injection Hrun as <-. exact (only_typing_py_contains _ _ _ Hjeu).
    + right. injection Hrun as <-. exact (only_typing_py_getitem _ _ _ Hresp).
  - left. injection Hrun as <-. reflexivity.
  - right. injection Hrun as <-. exact (only_typing_py_contains _ _ _ Hwrap).
Qed.
End NotFound.

(** *** Requests *)

Section Requests.
Context `{Runtime}.

Lemma rate_limit_run (c : ScreenScraperClient) (w : World) :
  _rate_limit c w = (Ok tt, fst (rate_limited c w), snd (rate_limited c w)).
Proof.
  unfold _rate_limit, rate_limited, mbind, time_time, get_self, modify_self,
    time_sleep, do_event, emit, ret.
  cbn [fst snd clock net fs clock_reads net_calls trace].
  destruct (PrimFloat.ltb _ _); cbn [fst snd clock net fs clock_reads net_calls trace].
  - reflexivity.
  - rewrite app_nil_r. reflexivity.
Qed.

(** What the rate limiter asks of the clock: with less than the delay
    between the last stamp and the first reading, a sleep for the rest of
    the delay; the stamp becomes the second reading. *)
Lemma rate_limit_asks_for_remainder (c : ScreenScraperClient) (w : World) :
  let elapsed := PrimFloat.sub (clock w (clock_reads w)) (last_request_time c) in
  exists c' w',
    _rate_limit c w = (Ok tt, c', w') /\
    last_request_time c' = clock w (S (clock_reads w)) /\
    request_count c' = request_count c /\
    trace w' = (trace w ++
                if PrimFloat.ltb elapsed (request_delay c)
                then [EvSleep (PrimFloat.sub (request_delay c) elapsed)]
                else [])%list.
Proof.
  intros elapsed. do 2 eexists. split; [apply rate_limit_run|].
  repeat split.
Qed.

(** The checks on the parsed header read and change nothing. *)
Lemma header_checks_pure (data : pyval) (c : ScreenScraperClient) (w : World) :
  (header <- lift (py_get data "header" (PDict [])) ;;
   has_error <- lift (py_contains "erreur" header) ;;
   if has_error : bool then
     error_msg <- lift (py_getitem header "erreur") ;;
     lowered <- lift (py_lower error_msg) ;;
     if str_contains "quota" lowered
     then throw APIQuotaExceededError ("API quota exceeded: " ++ py_str error_msg)
     else if str_contains "fermÃ©" lowered || str_contains "closed" lowered
     then throw APIClosedError ("API closed: " ++ py_str error_msg)
     else throw ScreenScraperError ("API error: " ++ py_str error_msg)
   else ret data) c w = (checked data, c, w).
Proof.
  unfold mbind, lift, throw, ret, checked.
  destruct (py_get data "header" (PDict [])) as [header|e1]; [|reflexivity].
  cbn [bind].
  destruct (py_contains "erreur" header) as [[|]|e2]; try reflexivity.
  cbn [bind].
  destruct (py_getitem header "erreur") as [error_msg|e3]; [|reflexivity].
  cbn [bind].
  destruct (py_lower error_msg) as [lowered|e4]; [|reflexivity].
  cbn [bind].
  destruct (str_contains "quota" lowered); [reflexivity|].
  destruct (str_contains "fermÃ©" lowered || str_contains "closed" lowered);
    reflexivity.
Qed.

Lemma checked_ok (data d : pyval) : checked data = Ok d -> d = data.
Proof.
  unfold checked. intros Hrun.
  bind_ok Hrun. bind_ok Hrun. destruct a0.
  - bind_ok Hrun. bind_ok Hrun.
    destruct (str_contains "quota" a1); [discriminate Hrun|].
    destruct (str_contains "fermÃ©" a1 || str_contains "closed" a1);
      discriminate Hrun.
  - now injection Hrun.
Qed.

(** The exceptions of the check: the three service errors, or a typing
    error of the header. *)
Lemma checked_raise (data : pyval) (e : exn) :
  checked data = Raise e ->
  In (exn_class e) [APIQuotaExceededError; APIClosedError; ScreenScraperError]
  \/ typing_error e.
Proof.
  unfold checked. intros Hrun.
  destruct (py_get data "header" (PDict [])) as [header|e1] eqn:E1; cbn [bind] in Hrun.
  2:{ right. injection Hrun as <-. exact (only_typing_py_get _ _ _ _ E1). }
  destruct (py_contains "erreur" header) as [[|]|e2] eqn:E2; cbn [bind] in Hrun.
  3:{ right. injection Hrun as <-. exact (only_typing_py_contains _ _ _ E2). }
  2:{ discriminate Hrun. }
  destruct (py_getitem header "erreur") as [error_msg|e3] eqn:E3; cbn [bind] in Hrun.
  2:{ right. injection Hrun as <-. exact (only_typing_py_getitem _ _ _ E3). }
  destruct (py_lower error_msg) as [lowered|e4] eqn:E4; cbn [bind] in Hrun.
  2:{ right. injection Hrun as <-.
      destruct error_msg; cbn in E4; try discriminate E4;
        injection E4 as <-; unfold typing_error; cbn; tauto. }
  left.
  destruct (str_contains "quota" lowered).
  { injection Hrun as <-. cbn. tauto. }
  destruct (str_contains "fermÃ©" lowered || str_contains "closed" lowered);
    injection Hrun as <-; cbn; tauto.
Qed.

Lemma checked_not_transport (data : pyval) (e : exn) :
  checked data = Raise e -> issubclass (exn_class e) RequestException = false.
Proof.
  intros Hrun. apply checked_raise in Hrun. unfold typing_error in Hrun.
  cbn [In] in Hrun.
  destruct Hrun as [Hin | Hin];
    repeat destruct Hin as [<- | Hin]; try reflexivity; contradiction.
Qed.

(** Every run of [_make_request], by what the network answers. *)
Lemma make_request_run (endpoint : string) (params : params_t)
    (c : ScreenScraperClient) (w : World) :
  let url := BASE_URL ++ "/" ++ endpoint in
  let c1 := fst (rate_limited c w) in
  let w2 := requested [EvGet url params 30] (snd (rate_limited c w)) in
  match net w (net_calls w) url params with
  | TransportError msg =>
      _make_request endpoint params c w
      = (Raise (mk_exn ScreenScraperError ("Request failed: " ++ msg)), c1, w2)
  | Response r =>
      if status_refused r
      then
        _make_request endpoint params c w
        = (Raise (mk_exn ScreenScraperError
                    ("Request failed: " ++ http_error_text r)), c1, w2)
      else
        match json_loads (text r), json_loads (repaired (text r)) with
        | Some data, _ =>
            _make_request endpoint params c w
            = (checked data, set_request_count (request_count c + 1) c1,
               emits [EvJsonLoads (text r)] w2)
        | None, Some data =>
            _make_request endpoint params c w
            = (checked data, set_request_count (request_count c + 1) c1,
               emits [EvJsonLoads (text r); EvJsonLoads (repaired (text r))] w2)
        | None, None =>
            _make_request endpoint params c w
            = (Raise (mk_exn JSONDecodeError (json_error (repaired (text r)))), c1,
               emits [EvJsonLoads (text r); EvJsonLoads (repaired (text r))] w2)
        end
  end.
Proof.
  intros url c1 w2.
  assert (Hcount : request_count c1 = request_count c) by reflexivity.
  assert (Hstart :
    _make_request endpoint params c w
    = try_except
        (response <- session_get url params 30 ;;
         raise_for_status response ;;;
         data <- try_except (loads (text response)) JSONDecodeError
                   (fun _ => loads (str_replace broken_close fixed_close (text response))) ;;
         modify_self (fun self => set_request_count (request_count self + 1) self) ;;;
         header <- lift (py_get data "header" (PDict [])) ;;
         has_error <- lift (py_contains "erreur" header) ;;
         if has_error : bool then
           error_msg <- lift (py_getitem header "erreur") ;;
           lowered <- lift (py_lower error_msg) ;;
           if str_contains "quota" lowered
           then throw APIQuotaExceededError ("API quota exceeded: " ++ py_str error_msg)
           else if str_contains "fermÃ©" lowered || str_contains "closed" lowered
           then throw APIClosedError ("API closed: " ++ py_str error_msg)
           else throw ScreenScraperError ("API error: " ++ py_str error_msg)
         else ret data)
        RequestException
        (fun e => throw ScreenScraperError ("Request failed: " ++ exn_msg e))
        c1 (snd (rate_limited c w))).
  { unfold _make_request. unfold mbind at 1. rewrite rate_limit_run. reflexivity. }
  subst w2. set (w1 := snd (rate_limited c w)) in *.
  assert (Hnet : net w1 (net_calls w1) url params = net w (net_calls w) url params)
    by reflexivity.
  destruct (net w (net_calls w) url params) as [msg | r] eqn:Hanswer.
  - rewrite Hstart. unfold try_except at 1. unfold mbind at 1. unfold session_get.
    rewrite Hnet. reflexivity.
  - unfold status_refused.
    destruct ((400 <=? status_code r) && (status_code r <? 600)) eqn:Hs.
    + unfold http_error_text.
      rewrite Hstart. unfold try_except at 1. unfold mbind at 1. unfold session_get.
      rewrite Hnet. unfold mbind at 1. unfold raise_for_status.
      apply andb_true_iff in Hs. destruct Hs as [Ha Hb]. rewrite Ha, Hb.
      cbn [andb]. destruct (status_code r <? 500) eqn:H5.
      * reflexivity.
      * apply Z.ltb_ge in H5. apply Z.leb_le in H5. rewrite H5. reflexivity.
    + assert (H4 : (400 <=? status_code r) && (status_code r <? 500) = false).
      { apply andb_false_iff. apply andb_false_iff in Hs.
        destruct Hs as [Hs|Hs]; [left; exact Hs | right].
        apply Z.ltb_ge in Hs. apply Z.ltb_ge. lia. }
      assert (H5 : (500 <=? status_code r) && (status_code r <? 600) = false).
      { apply andb_false_iff. apply andb_false_iff in Hs.
        destruct Hs as [Hs|Hs]; [left | right; exact Hs].
        apply Z.leb_gt in Hs. apply Z.leb_gt. lia. }
      assert (Hbody :
        forall k : pyval -> M pyval,
          try_except
            (response <- session_get url params 30 ;;
             raise_for_status response ;;;
             data <- try_except (loads (text response)) JSONDecodeError
                       (fun _ => loads (str_replace broken_close fixed_close (text response))) ;;
             k data)
            RequestException
            (fun e => throw ScreenScraperError ("Request failed: " ++ exn_msg e))
            c1 w1
          = match
              (data <- try_except (loads (text r)) JSONDecodeError
                         (fun _ => loads (str_replace broken_close fixed_close (text r))) ;;
               k data) c1 (requested [EvGet url params 30] w1)
            with
            | (Raise e, c', w') =>
                if issubclass (exn_class e) RequestException
                then throw ScreenScraperError ("Request failed: " ++ exn_msg e) c' w'
                else (Raise e, c', w')
            | done => done
            end).
      { intros k. unfold try_except at 1. unfold mbind at 1. unfold session_get.
        rewrite Hnet. unfold mbind at 1. unfold raise_for_status.
        rewrite H4, H5. unfold ret at 1. reflexivity. }
      unfold repaired.
      destruct (json_loads (text r)) as [data|] eqn:J1;
        [| destruct (json_loads (str_replace broken_close fixed_close (text r)))
             as [data|] eqn:J2 ].
      * rewrite Hstart, Hbody.
        unfold mbind at 1. unfold try_except at 1. unfold loads at 1.
        unfold mbind at 1, do_event at 1. rewrite J1.
        unfold ret at 1. unfold mbind at 1. unfold modify_self at 1.
        rewrite header_checks_pure, Hcount.
        destruct (checked data) as [d|e] eqn:Hchecked; [reflexivity|].
        rewrite (checked_not_transport _ _ Hchecked). reflexivity.
      * rewrite Hstart, Hbody.
        unfold mbind at 1. unfold try_except at 1. unfold loads at 1.
        unfold mbind at 1, do_event at 1. rewrite J1.
        unfold throw at 1. unfold raise_ at 1. cbn [exn_class issubclass
          exc_class_eqb base_class orb]. unfold loads at 1.
        unfold mbind at 1, do_event at 1. rewrite J2.
        unfold ret at 1. unfold mbind at 1. unfold modify_self at 1.
        rewrite header_checks_pure, Hcount.
        destruct (checked data) as [d|e] eqn:Hchecked.
        -- unfold emits, emit, requested.
           cbn [trace clock net fs clock_reads net_calls].
           rewrite <- !app_assoc. reflexivity.
        -- rewrite (checked_not_transport _ _ Hchecked).
           unfold emits, emit, requested.
           cbn [trace clock net fs clock_reads net_calls].
           rewrite <- !app_assoc. reflexivity.
      * rewrite Hstart, Hbody.
        unfold mbind at 1. unfold try_except at 1. unfold loads at 1.
        unfold mbind at 1, do_event at 1. rewrite J1.
        unfold throw at 1. unfold raise_ at 1. cbn [exn_class issubclass
          exc_class_eqb base_class orb]. unfold loads at 1.
        unfold mbind at 1, do_event at 1. rewrite J2.
        unfold throw. unfold raise_. cbn [exn_class issubclass
          exc_class_eqb base_class orb].
        unfold emits, emit, requested.
        cbn [trace clock net fs clock_reads net_calls].
        rewrite <- !app_assoc. reflexivity.
Qed.

End Requests.

(** *** The search methods *)

Section Search.
Context `{Runtime}.

Lemma search_block_run (params : params_t) (c : ScreenScraperClient) (w : World) :
  try_except
    (data <- _make_request "jeuInfos.php" params ;;
     self <- get_self ;;
     game <- lift (_parse_game_data self data) ;;
     ret (Some game))
    GameNotFoundError
    (fun _ => ret None) c w
  = game_or_none (_make_request "jeuInfos.php" params c w).
Proof.
  unfold try_except, mbind, game_or_none.
  destruct (_make_request "jeuInfos.php" params c w) as [[[data|e] c1] w1].
  - unfold get_self, lift, ret.
    destruct (_parse_game_data c1 data) as [game|e]; reflexivity.
  - reflexivity.
Qed.

Lemma search_by_id_run (game_id : string) (c : ScreenScraperClient) (w : World) :
  search_by_id game_id c w
  = game_or_none (_make_request "jeuInfos.php" (id_query c game_id) c w).
Proof.
  unfold search_by_id. unfold mbind at 1. unfold get_self at 1.
  apply search_block_run.
Qed.

Lemma search_by_name_run (game_name platform : string) (systemeid : Z)
    (c : ScreenScraperClient) (w : World) :
  dict_lookup platform PLATFORMS = Some systemeid ->
  search_by_name game_name platform c w
  = game_or_none
      (_make_request "jeuInfos.php" (name_query c game_name systemeid) c w).
Proof.
  intros Hplatform. unfold search_by_name, dict_has, platform_id.
  rewrite Hplatform. cbn [negb].
  unfold mbind at 1. unfold ret at 1. unfold mbind at 1. unfold get_self at 1.
  apply search_block_run.
Qed.

Lemma fs_emit (e : event) (w : World) : fs (emit e w) = fs w.
Proof. reflexivity. Qed.

Lemma calculate_file_hashes_regular (file_path : string) (content : list byte)
    (c : ScreenScraperClient) (w : World) :
  fs w file_path = Regular content ->
  calculate_file_hashes file_path c w
  = (Ok (fingerprint content), c, after_hashing file_path w).
Proof.
  intros Hfile.
  unfold calculate_file_hashes, mbind, path_exists, stat_size, open_rb, fingerprint.
  rewrite Hfile. cbn [negb]. cbv beta iota. rewrite !fs_emit, Hfile.
  cbv beta iota. rewrite !fs_emit, Hfile. cbv beta iota.
  destruct (hash_chunks chunk_size content (hash_new, hash_new, 0)) as [[a b] d].
  reflexivity.
Qed.

Lemma calculate_file_hashes_unreadable (file_path : string)
    (c : ScreenScraperClient) (w : World) :
  (forall content, fs w file_path <> Regular content) ->
  exists e w',
    calculate_file_hashes file_path c w = (Raise e, c, w') /\
    condition_of e = Some FileUnreadable /\
    net_calls w' = net_calls w /\
    forallb (fun ev => negb (is_get ev)) (skipn (List.length (trace w)) (trace w')) = true /\
    firstn (List.length (trace w)) (trace w') = trace w.
Proof.
  intros Hfile.
  unfold calculate_file_hashes, mbind, path_exists, stat_size, open_rb.
  destruct (fs w file_path) as [| st_size err | content] eqn:Hstate.
  - cbn [negb]. eexists. eexists. split; [reflexivity|].
    split; [reflexivity|]. split; [reflexivity|].
    cbn [emit trace]. rewrite skipn_app, firstn_app, skipn_all, firstn_all.
    rewrite Nat.sub_diag. cbn. rewrite app_nil_r. split; reflexivity.
  - cbn [negb]. cbv beta iota. rewrite !fs_emit, Hstate.
    cbv beta iota. rewrite !fs_emit, Hstate. cbv beta iota.
    eexists. eexists. split; [reflexivity|].
    split; [reflexivity|]. split; [reflexivity|].
    cbn [emit trace]. rewrite <- !app_assoc.
    rewrite skipn_app, firstn_app, skipn_all, firstn_all.
    rewrite Nat.sub_diag. cbn. rewrite app_nil_r. split; reflexivity.
  - exfalso. exact (Hfile content eq_refl).
Qed.

Lemma search_by_file_run (file_path platform : string) (rom_name : option string)
    (systemeid : Z) (content : list byte) (c : ScreenScraperClient) (w : World) :
  dict_lookup platform PLATFORMS = Some systemeid ->
  fs w file_path = Regular content ->
  search_by_file file_path platform rom_name c w
  = game_or_none
      (_make_request "jeuInfos.php"
         (file_query c file_path rom_name systemeid content) c
         (after_sizing file_path w)).
Proof.
  intros Hplatform Hfile. unfold search_by_file, dict_has, platform_id.
  rewrite Hplatform. cbn [negb].
  unfold mbind at 1. unfold try_except at 1. unfold mbind at 1.
  rewrite (calculate_file_hashes_regular _ _ _ _ Hfile).
  unfold ret at 1. unfold file_query.
  destruct (fingerprint content) as [[md5 sha1] crc].
  unfold mbind at 1. unfold stat_size at 1.
  change (fs (after_hashing file_path w) file_path) with (fs w file_path).
  rewrite Hfile.
  unfold mbind at 1. unfold ret at 1. unfold mbind at 1. unfold get_self at 1.
  apply search_block_run.
Qed.
End Search.

(** *** Malformed responses *)

Section Malformed.
Context `{Runtime}.

Lemma rate_limited_sleeps (c : ScreenScraperClient) (w : World) :
  exists sleeps,
    forallb is_sleep sleeps = true /\
    trace (snd (rate_limited c w)) = (trace w ++ sleeps)%list.
Proof.
  unfold rate_limited. cbn [snd trace].
  destruct (PrimFloat.ltb _ _); eexists; (split; [| reflexivity]); reflexivity.
Qed.

Lemma malformed_make_request (endpoint : string) (params : params_t)
    (c : ScreenScraperClient) (w : World) (r : response) :
  net w (net_calls w) (BASE_URL ++ "/" ++ endpoint) params = Response r ->
  status_refused r = false ->
  json_loads (text r) = None ->
  json_loads (repaired (text r)) = None ->
  malformed_outcome r c w (_make_request endpoint params c w).
Proof.
  intros Hanswer Hstatus Hfirst Hsecond.
  pose proof (make_request_run endpoint params c w) as Hrun.
  cbv zeta in Hrun. rewrite Hanswer, Hstatus, Hfirst, Hsecond in Hrun.
  destruct (rate_limited_sleeps c w) as (sleeps & Hsleeps & Htrace).
  unfold malformed_outcome.
  do 2 eexists. eexists. exists (BASE_URL ++ "/" ++ endpoint), params, sleeps.
  split; [exact Hrun|].
  split; [reflexivity|]. split; [reflexivity|]. split; [reflexivity|].
  split; [reflexivity|]. split; [reflexivity|]. split; [exact Hsleeps|].
  cbn [emits requested trace]. rewrite Htrace, <- !app_assoc. reflexivity.
Qed.

Lemma malformed_game_or_none (r : response) (c : ScreenScraperClient) (w0 : World)
    (out : result pyval * ScreenScraperClient * World) :
  malformed_outcome r c w0 out -> malformed_outcome r c w0 (game_or_none out).
Proof.
  intros (e & c' & w' & url & params & sleeps & -> & Hclass & Hrest).
  exists e, c', w', url, params, sleeps.
  split; [| split; [exact Hclass | exact Hrest]].
  unfold game_or_none. rewrite Hclass. reflexivity.
Qed.

(** C2, as the code has it. When the body of the response is not JSON for
    [json.loads], as it is or after the one replacement of the trailing
    comma, the request raises the [json.JSONDecodeError] of the second
    attempt, with its message: a raw exception of the JSON library, not
    one of the module's exceptions and not wrapped as a failed request is.
    One GET was sent, [json.loads] was tried on the body and on the
    repaired body and on nothing else, and the request is not counted. The
    three search methods let the exception through to their caller. *)
Theorem malformed_response_raises
    (c : ScreenScraperClient) (w : World) (r : response) :
  (forall url params, net w (net_calls w) url params = Response r) ->
  status_refused r = false ->
  json_loads (text r) = None ->
  json_loads (repaired (text r)) = None ->
  (forall endpoint params,
      malformed_outcome r c w (_make_request endpoint params c w)) /\
  (forall game_id,
      malformed_outcome r c w (search_by_id game_id c w)) /\
  (forall game_name platform systemeid,
      dict_lookup platform PLATFORMS = Some systemeid ->
      malformed_outcome r c w (search_by_name game_name platform c w)) /\
  (forall file_path platform rom_name systemeid content,
      dict_lookup platform PLATFORMS = Some systemeid ->
      fs w file_path = Regular content ->
      malformed_outcome r c (after_sizing file_path w)
        (search_by_file file_path platform rom_name c w)).
Proof.
  intros Hanswer Hstatus Hfirst Hsecond.
  assert (Hreq : forall w0 endpoint params,
             net w0 = net w -> net_calls w0 = net_calls w ->
             malformed_outcome r c w0 (_make_request endpoint params c w0)).
  { intros w0 endpoint params Hnet Hcalls.
    apply malformed_make_request; try assumption.
    rewrite Hnet, Hcalls. apply Hanswer. }
  split; [intros; now apply Hreq|].
  split.
  { intros game_id. rewrite search_by_id_run.
    apply malformed_game_or_none. now apply Hreq. }
  split.
  { intros game_name platform systemeid Hplatform.
    rewrite (search_by_name_run _ _ _ _ _ Hplatform).
    apply malformed_game_or_none. now apply Hreq. }
  intros file_path platform rom_name systemeid content Hplatform Hfile.
  rewrite (search_by_file_run _ _ _ _ _ _ _ Hplatform Hfile).
  apply malformed_game_or_none. now apply Hreq.
Qed.
End Malformed.

Lemma malformed_response_raises_witness :
  let rt := table_runtime [] in
  let c := new_client "dev" "secret" in
  let r := mk_response 200 "OK" "https://www.screenscraper.fr/api2/jeuInfos.php"
             "{bad" in
  let w := simple_world [] (Response r) in
  (forall url params, net w (net_calls w) url params = Response r) /\
  status_refused r = false /\
  json_loads (text r) = None /\
  json_loads (repaired (text r)) = None /\
  malformed_outcome r c w (search_by_id "42" c w) /\
  malformed_outcome r c w (search_by_name "Mario" "nes" c w).
Proof.
  intros rt c r w.
  assert (Hanswer : forall url params, net w (net_calls w) url params = Response r)
    by (intros; reflexivity).
  destruct (@malformed_response_raises rt c w r Hanswer eq_refl eq_refl eq_refl)
    as (_ & Hid & Hname & _).
  split; [exact Hanswer|].
  split; [reflexivity|]. split; [reflexivity|]. split; [reflexivity|].
  split; [apply Hid | apply (Hname "Mario" "nes" 3); reflexivity].
Defined.

(** C2 as stated does not hold. A body that is not JSON, with or without
    the repair: [search_by_id] raises [json.JSONDecodeError] itself, which
    is not a [ScreenScraperError], so a caller that catches the module's
    exceptions does not catch it. A request that fails in the transport,
    through the same call, is wrapped in [ScreenScraperError]. *)
Lemma malformed_body_escapes_raw :
  let rt := table_runtime [] in
  let c := new_client "dev" "secret" in
  let r := mk_response 200 "OK" "https://www.screenscraper.fr/api2/jeuInfos.php"
             "{bad" in
  let w := simple_world [] (Response r) in
  let raw := mk_exn JSONDecodeError "Expecting value: line 1 column 1 (char 0)" in
  json_loads (text r) = None /\
  json_loads (repaired (text r)) = None /\
  module_error raw = false /\
  issubclass (exn_class raw) ValueError = true /\
  (exists c' w',
      search_by_id "42" c w = (Raise raw, c', w') /\
      try_except (search_by_id "42") ScreenScraperError (fun _ => ret None) c w
      = (Raise raw, c', w')) /\
  (exists c' w',
      search_by_id "42" c (simple_world [] (TransportError "timed out"))
      = (Raise (mk_exn ScreenScraperError "Request failed: timed out"), c', w') /\
      module_error (mk_exn ScreenScraperError "Request failed: timed out") = true).
Proof.
  intros rt c r w raw.
  split; [reflexivity|]. split; [reflexivity|]. split; [reflexivity|].
  split; [reflexivity|]. split.
  - do 2 eexists. split; vm_compute; reflexivity.
  - do 2 eexists. split; [vm_compute; reflexivity | reflexivity].
Qed.

(** A body with the known defect, and a runtime that reads it once the
    comma is gone: the request succeeds after the repair and is counted. *)
Example known_defect_is_repaired :
  let body := "{x: [1]," ++ String LF (String TAB (String TAB "}")) in
  let fixed := "{x: [1]" ++ String LF (String TAB (String TAB "}")) in
  let rt := table_runtime [(fixed, PDict [("x", PList [PInt 1])])] in
  let c := new_client "dev" "secret" in
  let w := simple_world [] (ok_response body) in
  repaired body = fixed /\
  exists c1 w1,
    _make_request "jeuInfos.php" [] c w = (Ok (PDict [("x", PList [PInt 1])]), c1, w1)
    /\ request_count c1 = 1
    /\ trace w1 = [ EvGet "https://www.screenscraper.fr/api2/jeuInfos.php" [] 30;
                    EvJsonLoads body; EvJsonLoads fixed ].
Proof.
  split; [reflexivity|]. do 2 eexists.
  split; [vm_compute; reflexivity | split; reflexivity].
Qed.

(** *** Missing fields *)

(** Decides the comparisons of two string literals in the goal. *)
Ltac eval_eqb :=
  repeat match goal with
         | |- context [String.eqb ?a ?b] =>
             let v := eval vm_compute in (String.eqb a b) in
             match v with
             | true => change (String.eqb a b) with true
             | false => change (String.eqb a b) with false
             end
         end.

Section MissingFields.
Context `{Runtime}.

Lemma dict_lookup_remove {V : Type} (key k : string) (d : list (string * V)) :
  dict_lookup key (dict_remove k d)
  = if String.eqb key k then None else dict_lookup key d.
Proof.
  induction d as [|[k' v] rest IH]; cbn [dict_remove dict_lookup].
  - destruct (String.eqb key k); reflexivity.
  - destruct (String.eqb k k') eqn:Hk.
    + apply String.eqb_eq in Hk. subst k'. rewrite IH.
      destruct (String.eqb key k); reflexivity.
    + cbn [dict_lookup]. rewrite IH.
      destruct (String.eqb key k') eqn:Hkey; [|reflexivity].
      apply String.eqb_eq in Hkey. subst k'.
      rewrite String.eqb_sym in Hk. rewrite Hk. reflexivity.
Qed.

Lemma parse_at_game_node (self : ScreenScraperClient) (data jeu : pyval) :
  game_node data = Some jeu ->
  _parse_game_data self data
  = _parse_game_data self (PDict [("response", PDict [("jeu", jeu)])]).
Proof.
  intros Hnode. destruct data as [| | | | | |top]; try discriminate Hnode.
  cbn [game_node] in Hnode.
  destruct (dict_lookup "response" top) as [[| | | | | |response]|] eqn:Hresponse;
    try discriminate Hnode.
  unfold _parse_game_data.
  cbn [py_contains py_getitem]. unfold dict_has.
  rewrite Hresponse. cbn [bind negb py_contains py_getitem]. unfold dict_has.
  rewrite Hnode.
  change (dict_lookup "response" [("response", PDict [("jeu", jeu)])])
    with (Some (PDict [("jeu", jeu)])).
  cbn [bind negb py_contains py_getitem]. unfold dict_has.
  change (dict_lookup "jeu" [("jeu", jeu)]) with (Some jeu).
  reflexivity.
Qed.

Lemma parse_wrapped_inv (self : ScreenScraperClient) (jeu : pyval) (g : GameInfo) :
  _parse_game_data self (PDict [("response", PDict [("jeu", jeu)])]) = Ok g ->
  raw_data g = jeu.
Proof.
  intros Hrun. apply parse_ok_inv in Hrun.
  destruct (p_node _ _ _ Hrun) as (response & _ & Hresponse & _ & Hjeu).
  cbn in Hresponse. injection Hresponse as <-.
  cbn in Hjeu. now injection Hjeu.
Qed.

Lemma key_cases (k : string) :
  In k jeu_keys \/ (forall key, In key jeu_keys -> String.eqb key k = false).
Proof.
  destruct (in_dec string_dec k jeu_keys) as [Hin | Hout]; [left; exact Hin|].
  right. intros key Hkey. apply String.eqb_neq. intros ->. exact (Hout Hkey).
Qed.

Lemma removal_on_wrapped (self : ScreenScraperClient) (k : string)
    (kvs : list (string * pyval)) (g : GameInfo) :
  _parse_game_data self (PDict [("response", PDict [("jeu", PDict kvs)])]) = Ok g ->
  _parse_game_data self
    (PDict [("response", PDict [("jeu", PDict (dict_remove k kvs))])])
  = Ok (without_field k g (PDict (dict_remove k kvs))).
Proof.
  intros Hrun. pose proof (parse_wrapped_inv _ _ _ Hrun) as Hraw.
  apply parse_ok_inv in Hrun.
  destruct Hrun as [_ Hid Hname Hdesc Hpub Hdev Hplay Hrat Hrel Hgen Hsys Hmed].
  rewrite Hraw in *. cbn [py_get] in *.
  destruct Hid as (v & E & Hid); injection E as <-.
  destruct Hname as (v & E & Hname); injection E as <-.
  destruct Hdesc as (v & E & Hdesc); injection E as <-.
  destruct Hpub as (v & E & Hpub); injection E as <-.
  destruct Hdev as (v & E & Hdev); injection E as <-.
  destruct Hplay as (v & E & Hplay); injection E as <-.
  destruct Hrat as (v & E & Hrat); injection E as <-.
  destruct Hrel as (v & E & Hrel); injection E as <-.
  destruct Hgen as (v & E & Hgen); injection E as <-.
  destruct Hsys as (v & E & Hsys); injection E as <-.
  destruct Hmed as (v & groups & E & Hiter & Hmed); injection E as <-.
  unfold _parse_game_data, without_field.
  cbn [py_contains py_getitem]. unfold dict_has.
  change (dict_lookup "response"
            [("response", PDict [("jeu", PDict (dict_remove k kvs))])])
    with (Some (PDict [("jeu", PDict (dict_remove k kvs))])).
  cbn [bind negb py_contains py_getitem]. unfold dict_has.
  change (dict_lookup "jeu" [("jeu", PDict (dict_remove k kvs))])
    with (Some (PDict (dict_remove k kvs))).
  cbn [bind negb py_get]. rewrite !dict_lookup_remove.
  destruct (key_cases k) as [Hin | Hout].
  - unfold jeu_keys in Hin. cbn [In] in Hin.
    repeat destruct Hin as [<- | Hin]; try contradiction; eval_eqb;
      cbv iota; cbn [bind py_get dict_lookup];
      change (_get_localized_text self (PList [])) with (@Ok pyval (PStr ""));
      change (_get_text_from_list self (PList [])) with (@Ok pyval (PStr ""));
      change (_get_release_date self (PList [])) with (@Ok pyval (PStr ""));
      change (py_iter (PList [])) with (@Ok (list pyval) []);
      rewrite ?Hname, ?Hdesc, ?Hpub, ?Hdev, ?Hplay, ?Hrat, ?Hrel, ?Hgen, ?Hsys,
        ?Hiter; cbn [bind append_media_groups];
      rewrite ?Hmed, ?Hid; reflexivity.
  - repeat match goal with
           | |- context [String.eqb ?a k] =>
               rewrite (Hout a)
                 by (unfold jeu_keys; cbn [In];
                     repeat (first [left; reflexivity | right]))
           end.
    rewrite Hname. cbn [bind]. rewrite Hdesc. cbn [bind]. rewrite Hpub. cbn [bind].
    rewrite Hdev. cbn [bind]. rewrite Hplay. cbn [bind]. rewrite Hrat. cbn [bind].
    rewrite Hrel. cbn [bind]. rewrite Hgen. cbn [bind]. rewrite Hsys. cbn [bind].
    rewrite Hiter. cbn [bind]. rewrite Hmed. cbn [bind]. rewrite Hid. reflexivity.
Qed.
Lemma as_objects_map (xs : list pyval) (es : list entry) :
  as_objects xs = Some es -> xs = map PDict es.
Proof.
  revert es. induction xs as [|x rest IH]; intros es Hes.
  - injection Hes as <-. reflexivity.
  - destruct x; try discriminate Hes. cbn [as_objects] in Hes.
    destruct (as_objects rest) as [es'|]; [|discriminate Hes].
    injection Hes as <-. cbn [map]. now rewrite (IH es' eq_refl).
Qed.

Lemma list_field_get (node : entry) (k : string) (es : list entry) :
  list_field node k = Some es ->
  py_get (PDict node) k (PList []) = Ok (PList (map PDict es)).
Proof.
  unfold list_field. cbn [py_get]. intros Hfield.
  destruct (dict_lookup k node) as [v|].
  - destruct v; try discriminate Hfield.
    now rewrite (as_objects_map _ _ Hfield).
  - injection Hfield as <-. reflexivity.
Qed.

Lemma object_field_get (node : entry) (k : string) (e : entry) :
  object_field node k = Some e ->
  py_get (PDict node) k (PDict []) = Ok (PDict e).
Proof.
  unfold object_field. cbn [py_get]. intros Hfield.
  destruct (dict_lookup k node) as [v|].
  - destruct v; try discriminate Hfield. now injection Hfield as <-.
  - injection Hfield as <-. reflexivity.
Qed.

Lemma append_media_items_objects (items : list entry) :
  forall acc,
    append_media_items (map PDict items) acc
    = Ok (acc ++ map descriptor_of (filter has_url (map PDict items)))%list.
Proof.
  induction items as [|item rest IH]; intros acc.
  - cbn [map filter append_media_items]. now rewrite app_nil_r.
  - cbn [map append_media_items py_get bind filter].
    unfold has_url at 1. cbn [py_get].
    destruct (truthy _) eqn:Hurl.
    + rewrite IH. cbn [map]. rewrite <- app_assoc. reflexivity.
    + apply IH.
Qed.

Lemma append_media_groups_objects (groups : list entry)
    (item_lists : list (list entry)) :
  Forall2 (fun group items => list_field group "media" = Some items)
          groups item_lists ->
  forall acc,
    append_media_groups (map PDict groups) acc
    = Ok (acc ++ map descriptor_of
                   (filter has_url (map PDict (List.concat item_lists))))%list.
Proof.
  induction 1 as [|group items groups item_lists Hgroup _ IH]; intros acc.
  - cbn [map filter append_media_groups List.concat]. now rewrite app_nil_r.
  - cbn [map append_media_groups].
    rewrite (list_field_get _ _ _ Hgroup). cbn [bind py_iter].
    rewrite append_media_items_objects. cbn [bind]. rewrite IH.
    cbn [List.concat]. rewrite map_app, filter_app, map_app, app_assoc.
    reflexivity.
Qed.

Lemma parse_shaped (self : ScreenScraperClient) (jeu : entry)
    (noms synopsis editeur developpeur dates genres groups : list entry)
    (joueurs note systeme : entry) (item_lists : list (list entry)) :
  list_field jeu "noms" = Some noms ->
  list_field jeu "synopsis" = Some synopsis ->
  list_field jeu "editeur" = Some editeur ->
  list_field jeu "developpeur" = Some developpeur ->
  object_field jeu "joueurs" = Some joueurs ->
  object_field jeu "note" = Some note ->
  list_field jeu "dates" = Some dates ->
  list_field jeu "genres" = Some genres ->
  object_field jeu "systeme" = Some systeme ->
  list_field jeu "medias" = Some groups ->
  Forall2 (fun group items => list_field group "media" = Some items)
          groups item_lists ->
  _parse_game_data self (PDict [("response", PDict [("jeu", PDict jeu)])])
  = Ok (mk_GameInfo (node_id jeu)
          (select_localized (language self) noms)
          (select_localized (language self) synopsis)
          (select_first editeur) (select_first developpeur)
          (entry_text joueurs) (entry_text note)
          (select_release dates) (select_first genres) (entry_text systeme)
          (map descriptor_of
             (filter has_url (map PDict (List.concat item_lists))))
          (PDict jeu)).
Proof.
  intros Hnoms Hsynopsis Hediteur Hdeveloppeur Hjoueurs Hnote Hdates Hgenres
    Hsysteme Hmedias Hgroups.
  unfold _parse_game_data.
  cbn [py_contains py_getitem]. unfold dict_has.
  change (dict_lookup "response" [("response", PDict [("jeu", PDict jeu)])])
    with (Some (PDict [("jeu", PDict jeu)])).
  cbn [bind negb py_contains py_getitem]. unfold dict_has.
  change (dict_lookup "jeu" [("jeu", PDict jeu)]) with (Some (PDict jeu)).
  cbn [bind negb].
  change (py_get (PDict jeu) "id" (PStr ""))
    with (Ok (match dict_lookup "id" jeu with
              | Some v => v
              | None => PStr ""
              end)).
  cbn [bind].
  rewrite (list_field_get _ _ _ Hnoms). cbn [bind].
  rewrite get_localized_text_spec. cbn [bind].
  rewrite (list_field_get _ _ _ Hsynopsis). cbn [bind].
  rewrite get_localized_text_spec. cbn [bind].
  rewrite (list_field_get _ _ _ Hediteur). cbn [bind].
  rewrite get_text_from_list_spec. cbn [bind].
  rewrite (list_field_get _ _ _ Hdeveloppeur). cbn [bind].
  rewrite get_text_from_list_spec. cbn [bind].
  rewrite (object_field_get _ _ _ Hjoueurs). cbn [bind].
  change (py_get (PDict joueurs) "text" (PStr "")) with (Ok (entry_text joueurs)).
  cbn [bind].
  rewrite (object_field_get _ _ _ Hnote). cbn [bind].
  change (py_get (PDict note) "text" (PStr "")) with (Ok (entry_text note)).
  cbn [bind].
  rewrite (list_field_get _ _ _ Hdates). cbn [bind].
  rewrite get_release_date_spec. cbn [bind].
  rewrite (list_field_get _ _ _ Hgenres). cbn [bind].
  rewrite get_text_from_list_spec. cbn [bind].
  rewrite (object_field_get _ _ _ Hsysteme). cbn [bind].
  change (py_get (PDict systeme) "text" (PStr "")) with (Ok (entry_text systeme)).
  cbn [bind].
  rewrite (list_field_get _ _ _ Hmedias). cbn [bind py_iter].
  rewrite (append_media_groups_objects _ _ Hgroups). cbn [bind app].
  reflexivity.
Qed.
End MissingFields.

Section NotFoundTheorem.
Context `{Runtime}.

Lemma not_found_game_or_none (data : pyval) (c1 : ScreenScraperClient) (w1 : World) :
  lacks_wrapper data \/ lacks_game_node data ->
  game_or_none (Ok data, c1, w1) = (Ok None, c1, w1).
Proof.
  intros Hlacks. apply (parse_not_found_iff c1) in Hlacks.
  destruct Hlacks as (e & Hrun & Hclass).
  unfold game_or_none. rewrite Hrun, Hclass. reflexivity.
Qed.

(** C4. The mapper raises [GameNotFoundError], the NotFound condition,
    exactly when the response tree lacks the [response] wrapper or the
    wrapper lacks the [jeu] node, and then each of the three search methods
    returns None with the state the request left. Whatever else the mapper
    raises is a typing error of a value that is there. A key missing from
    the game node never makes it fail: without key [k] the mapper returns
    the same record with the field read from [k] at its default (the empty
    string, or the empty media list), and a game node without any key gives
    the record of defaults. Nor does a key missing further down: on a game
    node whose fields, where they are there, hold what the service sends
    (lists of objects for [noms], [synopsis], [editeur], [developpeur],
    [dates], [genres] and [medias], objects for [joueurs], [note] and
    [systeme], a list of objects for the [media] of a group), the mapper
    returns the record of the selection rules whatever keys the node, its
    entries, its groups and its media items lack: an entry without [text]
    reads as the empty string, an entry without [langue] or [region] is
    not selected by it, a group without [media] has no items, an item
    without [url] is dropped and any other missing key of an item is the
    empty string in its descriptor. *)
Theorem not_found_and_defaults (self : ScreenScraperClient) :
  (forall data,
      (exists e, _parse_game_data self data = Raise e /\
                 exn_class e = GameNotFoundError /\
                 condition_of e = Some NotFound) <->
      (lacks_wrapper data \/ lacks_game_node data)) /\
  (forall data c1 w1,
      lacks_wrapper data \/ lacks_game_node data ->
      (forall game_id c w,
          _make_request "jeuInfos.php" (id_query c game_id) c w = (Ok data, c1, w1) ->
          search_by_id game_id c w = (Ok None, c1, w1)) /\
      (forall game_name platform systemeid c w,
          dict_lookup platform PLATFORMS = Some systemeid ->
          _make_request "jeuInfos.php" (name_query c game_name systemeid) c w
          = (Ok data, c1, w1) ->
          search_by_name game_name platform c w = (Ok None, c1, w1)) /\
      (forall file_path platform rom_name systemeid content c w,
          dict_lookup platform PLATFORMS = Some systemeid ->
          fs w file_path = Regular content ->
          _make_request "jeuInfos.php"
            (file_query c file_path rom_name systemeid content) c
            (after_sizing file_path w) = (Ok data, c1, w1) ->
          search_by_file file_path platform rom_name c w = (Ok None, c1, w1))) /\
  (forall data e,
      _parse_game_data self data = Raise e ->
      exn_class e = GameNotFoundError \/ typing_error e) /\
  (forall data data' k kvs g,
      game_node data = Some (PDict kvs) ->
      game_node data' = Some (PDict (dict_remove k kvs)) ->
      _parse_game_data self data = Ok g ->
      _parse_game_data self data'
      = Ok (without_field k g (PDict (dict_remove k kvs)))) /\
  (forall data,
      game_node data = Some (PDict []) ->
      _parse_game_data self data = Ok (empty_record (PDict []))) /\
  (forall data jeu noms synopsis editeur developpeur dates genres groups
          joueurs note systeme item_lists,
      game_node data = Some (PDict jeu) ->
      list_field jeu "noms" = Some noms ->
      list_field jeu "synopsis" = Some synopsis ->
      list_field jeu "editeur" = Some editeur ->
      list_field jeu "developpeur" = Some developpeur ->
      object_field jeu "joueurs" = Some joueurs ->
      object_field jeu "note" = Some note ->
      list_field jeu "dates" = Some dates ->
      list_field jeu "genres" = Some genres ->
      object_field jeu "systeme" = Some systeme ->
      list_field jeu "medias" = Some groups ->
      Forall2 (fun group items => list_field group "media" = Some items)
              groups item_lists ->
      _parse_game_data self data
      = Ok (mk_GameInfo (node_id jeu)
              (select_localized (language self) noms)
              (select_localized (language self) synopsis)
              (select_first editeur) (select_first developpeur)
              (entry_text joueurs) (entry_text note)
              (select_release dates) (select_first genres)
              (entry_text systeme)
              (map descriptor_of
                 (filter has_url (map PDict (List.concat item_lists))))
              (PDict jeu))) /\
  (forall node k,
      dict_lookup k node = None ->
      list_field node k = Some [] /\ object_field node k = Some [] /\
      field_or_empty (PDict node) k = PStr "") /\
  (forall e,
      dict_lookup "text" e = None ->
      entry_text e = PStr "" /\
      select_first [e] = PStr "" /\
      select_localized (language self) [e] = PStr "" /\
      select_release [e] = PStr "") /\
  (forall e locale,
      (dict_lookup "langue" e = None -> entry_in_locale locale e = false) /\
      (dict_lookup "region" e = None -> entry_is_main_release e = false) /\
      (dict_lookup "url" e = None -> has_url (PDict e) = false)).
Proof.
  split; [| split; [| split; [| split; [| split; [| split; [| split; [| split]]]]]]].
  - intros data. split.
    + intros (e & Hrun & Hclass & _). apply (parse_not_found_iff self).
      exists e. split; assumption.
    + intros Hlacks. apply (parse_not_found_iff self) in Hlacks.
      destruct Hlacks as (e & Hrun & Hclass). exists e.
      repeat split; try assumption.
      unfold condition_of. rewrite Hclass. reflexivity.
  - intros data c1 w1 Hlacks. split; [| split].
    + intros game_id c w Hreq.
      rewrite search_by_id_run, Hreq. now apply not_found_game_or_none.
    + intros game_name platform systemeid c w Hplatform Hreq.
      rewrite (search_by_name_run _ _ _ _ _ Hplatform), Hreq.
      now apply not_found_game_or_none.
    + intros file_path platform rom_name systemeid content c w Hplatform Hfile Hreq.
      rewrite (search_by_file_run _ _ _ _ _ _ _ Hplatform Hfile), Hreq.
      now apply not_found_game_or_none.
  - intros data e. apply parse_other_failures.
  - intros data data' k kvs g Hnode Hnode' Hrun.
    rewrite (parse_at_game_node _ _ _ Hnode) in Hrun.
    rewrite (parse_at_game_node _ _ _ Hnode').
    now apply removal_on_wrapped.
  - intros data Hnode. rewrite (parse_at_game_node _ _ _ Hnode). reflexivity.
  - intros data jeu noms synopsis editeur developpeur dates genres groups
      joueurs note systeme item_lists Hnode Hnoms Hsynopsis Hediteur
      Hdeveloppeur Hjoueurs Hnote Hdates Hgenres Hsysteme Hmedias Hgroups.
    rewrite (parse_at_game_node _ _ _ Hnode).
    eapply parse_shaped; eassumption.
  - intros node k Hmissing.
    unfold list_field, object_field, field_or_empty. cbn [py_get].
    rewrite Hmissing. repeat split.
  - intros e Hmissing.
    assert (Htext : entry_text e = PStr "")
      by (unfold entry_text; now rewrite Hmissing).
    unfold select_first, select_localized, select_release. cbn [find].
    destruct (entry_in_locale (language self) e), (entry_is_main_release e);
      rewrite Htext; repeat split.
  - intros e locale. repeat split; intros Hmissing.
    + unfold entry_in_locale. now rewrite Hmissing.
    + unfold entry_is_main_release. now rewrite Hmissing.
    + unfold has_url. cbn [py_get]. now rewrite Hmissing.
Qed.
End NotFoundTheorem.

Example empty_response_is_not_found :
  let rt := table_runtime [("{}", PDict [])] in
  let c := new_client "dev" "secret" in
  let w := simple_world [] (ok_response "{}") in
  exists c1 w1, search_by_name "Mario" "nes" c w = (Ok None, c1, w1)
                /\ request_count c1 = 1.
Proof. do 2 eexists. split; [vm_compute; reflexivity | reflexivity]. Qed.

Lemma not_found_and_defaults_witness :
  let rt := table_runtime [("{}", PDict [])] in
  let c := new_client "dev" "secret" in
  let w := simple_world [] (ok_response "{}") in
  lacks_wrapper (PDict []) /\
  (exists e, _parse_game_data c (PDict []) = Raise e /\
             exn_class e = GameNotFoundError /\ condition_of e = Some NotFound) /\
  (exists c1 w1,
      _make_request "jeuInfos.php" (id_query c "42") c w = (Ok (PDict []), c1, w1) /\
      search_by_id "42" c w = (Ok None, c1, w1)) /\
  (exists g,
      _parse_game_data c (response_with (PDict small_jeu)) = Ok g /\
      _parse_game_data c (response_with (PDict (dict_remove "noms" small_jeu)))
      = Ok (without_field "noms" g (PDict (dict_remove "noms" small_jeu))) /\
      name g = PStr "Hello" /\
      name (without_field "noms" g (PDict (dict_remove "noms" small_jeu))) = PStr "") /\
  (let art := [("url", PStr "http://media/a.png")] in
   let bare :=
     [("noms", PList [PDict [("langue", PStr "en")]]);
      ("dates", PList [PDict [("text", PStr "1990")]]);
      ("medias",
       PList [PDict [];
              PDict [("media", PList [PDict art; PDict [("type", PStr "box-2D")]])]])] in
   _parse_game_data c (response_with (PDict bare))
   = Ok (mk_GameInfo "" (PStr "") (PStr "") (PStr "") (PStr "") (PStr "")
           (PStr "") (PStr "1990") (PStr "") (PStr "")
           [mk_GameMedia (PStr "") (PStr "http://media/a.png") (PStr "")
              (PStr "") (PStr "")]
           (PDict bare))).
Proof.
  intros rt c w.
  destruct (@not_found_and_defaults rt c)
    as (Hiff & Hsearch & _ & Hremove & _ & Hshaped & _).
  assert (Hlacks : lacks_wrapper (PDict [])) by reflexivity.
  split; [exact Hlacks|].
  split; [apply Hiff; left; exact Hlacks|].
  split; [| split].
  - do 2 eexists. split; [vm_compute; reflexivity|].
    apply (proj1 (Hsearch (PDict []) _ _ (or_introl Hlacks))).
    vm_compute. reflexivity.
  - eexists. split; [vm_compute; reflexivity|].
    split; [| split; reflexivity].
    apply (Hremove (response_with (PDict small_jeu))
             (response_with (PDict (dict_remove "noms" small_jeu)))
             "noms" small_jeu _ eq_refl eq_refl).
    vm_compute. reflexivity.
  - intros art bare.
    rewrite (Hshaped (response_with (PDict bare)) bare
               [[("langue", PStr "en")]] [] [] [] [[("text", PStr "1990")]] []
               [[]; [("media", PList [PDict art; PDict [("type", PStr "box-2D")]])]]
               [] [] [] [[]; [art; [("type", PStr "box-2D")]]]
               eq_refl eq_refl eq_refl eq_refl eq_refl eq_refl eq_refl eq_refl
               eq_refl eq_refl eq_refl).
    + reflexivity.
    + repeat constructor.
Defined.

(** *** Unreadable files *)

Section Unreadable.
Context `{Runtime}.

(** C3, as the code has it. With a known platform and a file that cannot
    be opened, [calculate_file_hashes] raises to its caller
    ([FileNotFoundError] or another [OSError], the FileUnreadable
    condition); [search_by_file] catches it, logs an error and returns
    None, the client unchanged and nothing requested from the network. *)
Theorem unreadable_file_gives_none
    (file_path platform : string) (rom_name : option string) (systemeid : Z)
    (c : ScreenScraperClient) (w : World) :
  dict_lookup platform PLATFORMS = Some systemeid ->
  (forall content, fs w file_path <> Regular content) ->
  exists e w1,
    calculate_file_hashes file_path c w = (Raise e, c, w1) /\
    condition_of e = Some FileUnreadable /\
    search_by_file file_path platform rom_name c w
    = (Ok None, c,
       emit (EvLogError ("Failed to calculate hashes for " ++ file_path ++ ": "
                         ++ exn_msg e)) w1) /\
    net_calls w1 = net_calls w /\
    firstn (List.length (trace w)) (trace w1) = trace w /\
    forallb (fun ev => negb (is_get ev)) (skipn (List.length (trace w)) (trace w1))
    = true.
Proof.
  intros Hplatform Hfile.
  destruct (calculate_file_hashes_unreadable file_path c w Hfile)
    as (e & w1 & Hrun & Hcond & Hcalls & Hnoget & Hprefix).
  exists e, w1. repeat split; try assumption.
  unfold search_by_file, dict_has. rewrite Hplatform. cbn [negb].
  unfold mbind at 1. unfold try_except at 1. unfold mbind at 1. rewrite Hrun.
  assert (Hsub : issubclass (exn_class e) Exception = true).
  { destruct e as [cls msg]. destruct cls; reflexivity. }
  rewrite Hsub. reflexivity.
Qed.
End Unreadable.

(** C3 as stated does not hold. A known platform and a file that is not
    there: [search_by_file] does not fail with FileUnreadable, it returns
    None. *)
Lemma missing_file_is_swallowed :
  let rt := table_runtime [] in
  let c := new_client "dev" "secret" in
  let w := simple_world [] (ok_response "{}") in
  dict_lookup "nes" PLATFORMS = Some 3 /\
  fs w "roms/missing.nes" = Absent /\
  (exists w', search_by_file "roms/missing.nes" "nes" None c w = (Ok None, c, w')) /\
  ~ (exists e c' w',
        search_by_file "roms/missing.nes" "nes" None c w = (Raise e, c', w') /\
        condition_of e = Some FileUnreadable).
Proof.
  intros rt c w. split; [reflexivity|]. split; [reflexivity|].
  split; [eexists; vm_compute; reflexivity|].
  intros (e & c' & w' & Hrun & _). vm_compute in Hrun. discriminate Hrun.
Qed.

Lemma unreadable_file_gives_none_witness :
  let rt := table_runtime [] in
  let c := new_client "dev" "secret" in
  let w := simple_world [("roms/locked.nes", Unopenable 40976
                            "[Errno 13] Permission denied: 'roms/locked.nes'")]
             (ok_response "{}") in
  dict_lookup "nes" PLATFORMS = Some 3 /\
  (forall content, fs w "roms/locked.nes" <> Regular content) /\
  exists e w1,
    calculate_file_hashes "roms/locked.nes" c w = (Raise e, c, w1) /\
    condition_of e = Some FileUnreadable /\
    search_by_file "roms/locked.nes" "nes" None c w
    = (Ok None, c,
       emit (EvLogError ("Failed to calculate hashes for " ++ "roms/locked.nes" ++ ": "
                         ++ exn_msg e)) w1) /\
    net_calls w1 = net_calls w /\
    firstn (List.length (trace w)) (trace w1) = trace w /\
    forallb (fun ev => negb (is_get ev)) (skipn (List.length (trace w)) (trace w1))
    = true.
Proof.
  intros rt c w.
  assert (Hfile : forall content, fs w "roms/locked.nes" <> Regular content)
    by (intros content; discriminate).
  split; [reflexivity|]. split; [exact Hfile|].
  exact (@unreadable_file_gives_none rt "roms/locked.nes" "nes" None 3 c w
           eq_refl Hfile).
Defined.

(** *** The request counter *)

Section Counter.
Context `{Runtime}.

(** C10. A request adds one to [request_count] exactly when the body it
    received is JSON for [json.loads], as it is or after the repair, also
    when the parsed body then reports a service error; a transport failure,
    a refused status and an unreadable body leave the count as it was. No
    field of the configuration changes. The outcome does not depend on
    [max_requests_per_day] nor on the count: with other values of both the
    request ends the same way, in the same world. *)
Theorem request_count_counts_parsed_bodies
    (endpoint : string) (params : params_t) (c : ScreenScraperClient) (w : World) :
  let counted :=
    match received_body w (BASE_URL ++ "/" ++ endpoint) params with
    | Some body => parses body
    | None => false
    end in
  exists res c' w',
    _make_request endpoint params c w = (res, c', w') /\
    request_count c' = request_count c + (if counted then 1 else 0) /\
    (counted = true <-> request_count c' = request_count c + 1) /\
    (counted = false ->
     exists e, res = Raise e /\
               (condition_of e = Some TransportFailure \/
                condition_of e = Some MalformedResponse)) /\
    (forall e, res = Raise e ->
               In (condition_of e)
                  [Some QuotaExceeded; Some ServiceClosed; Some RemoteError] ->
               request_count c' = request_count c + 1) /\
    same_config c c' /\
    (forall m n,
        _make_request endpoint params
          (set_request_count n (set_max_requests_per_day m c)) w
        = (res,
           set_request_count (n + (if counted then 1 else 0))
             (set_max_requests_per_day m c'),
           w')).
Proof.
  intros counted. subst counted. unfold received_body, parses.
  pose proof (make_request_run endpoint params c w) as Hrun.
  assert (Hother := fun m n =>
    make_request_run endpoint params
      (set_request_count n (set_max_requests_per_day m c)) w).
  cbv zeta in Hrun, Hother.
  unfold status_refused, repaired in Hrun, Hother.
  destruct (net w (net_calls w) (BASE_URL ++ "/" ++ endpoint) params) as [msg | r].
  - do 3 eexists. split; [exact Hrun|].
    split; [cbn; lia|]. split; [split; [discriminate | cbn; lia]|].
    split; [intros _; eexists; split; [reflexivity | left; reflexivity]|].
    split; [intros e He Hin; injection He as <-; cbn in Hin;
            repeat destruct Hin as [Hin | Hin]; try discriminate Hin; contradiction|].
    split; [repeat split|].
    intros m n. rewrite Hother. rewrite Z.add_0_r. reflexivity.
  - destruct ((400 <=? status_code r) && (status_code r <? 600)).
    + do 3 eexists. split; [exact Hrun|].
      split; [cbn; lia|]. split; [split; [discriminate | cbn; lia]|].
      split; [intros _; eexists; split; [reflexivity | left; reflexivity]|].
      split; [intros e He Hin; injection He as <-; cbn in Hin;
              repeat destruct Hin as [Hin | Hin]; try discriminate Hin; contradiction|].
      split; [repeat split|].
      intros m n. rewrite Hother. rewrite Z.add_0_r. reflexivity.
    + destruct (json_loads (text r)) as [data|];
        [| destruct (json_loads (str_replace broken_close fixed_close (text r)))
             as [data|] ].
      * do 3 eexists. split; [exact Hrun|].
        split; [reflexivity|]. split; [split; reflexivity|].
        split; [discriminate|]. split; [reflexivity|]. split; [repeat split|].
        intros m n. rewrite Hother. reflexivity.
      * do 3 eexists. split; [exact Hrun|].
        split; [reflexivity|]. split; [split; reflexivity|].
        split; [discriminate|]. split; [reflexivity|]. split; [repeat split|].
        intros m n. rewrite Hother. reflexivity.
      * do 3 eexists. split; [exact Hrun|].
        split; [cbn; lia|]. split; [split; [discriminate | cbn; lia]|].
        split; [intros _; eexists; split; [reflexivity | right; reflexivity]|].
        split; [intros e He Hin; injection He as <-; cbn in Hin;
                repeat destruct Hin as [Hin | Hin]; try discriminate Hin;
                contradiction|].
        split; [repeat split|].
        intros m n. rewrite Hother. rewrite Z.add_0_r. reflexivity.
Qed.
End Counter.

(** A body that parses and reports an exhausted quota: the request fails
    with QuotaExceeded and is counted all the same. *)
Example quota_error_is_counted :
  let rt := table_runtime [("{quota}", quota_body)] in
  let c := new_client "dev" "secret" in
  let w := simple_world [] (ok_response "{quota}") in
  exists e c' w',
    _make_request "jeuInfos.php" [] c w = (Raise e, c', w') /\
    exn_class e = APIQuotaExceededError /\
    request_count c = 0 /\ request_count c' = 1.
Proof. do 3 eexists. split; [vm_compute; reflexivity | repeat split]. Qed.

Example transport_failure_is_not_counted :
  let rt := table_runtime [] in
  let c := new_client "dev" "secret" in
  let w := simple_world [] (TransportError "Connection refused") in
  exists c' w',
    _make_request "jeuInfos.php" [] c w
    = (Raise (mk_exn ScreenScraperError "Request failed: Connection refused"), c', w')
    /\ request_count c' = 0.
Proof. do 2 eexists. split; [vm_compute; reflexivity | reflexivity]. Qed.

Lemma request_count_counts_parsed_bodies_witness :
  let rt := table_runtime [("{quota}", quota_body)] in
  let c := new_client "dev" "secret" in
  let w := simple_world [] (ok_response "{quota}") in
  exists res c' w',
    _make_request "jeuInfos.php" [] c w = (res, c', w') /\
    request_count c' = request_count c + 1 /\
    same_config c c' /\
    _make_request "jeuInfos.php" []
      (set_request_count 99999 (set_max_requests_per_day 5 c)) w
    = (res, set_request_count 100000 (set_max_requests_per_day 5 c'), w').
Proof.
  intros rt c w.
  destruct (@request_count_counts_parsed_bodies rt "jeuInfos.php" [] c w)
    as (res & c' & w' & Hrun & Hcount & _ & _ & _ & Hconfig & Hframe).
  exists res, c', w'.
  split; [exact Hrun|]. split; [exact Hcount|]. split; [exact Hconfig|].
  exact (Hframe 5 99999).
Defined.

(** *** Fingerprints *)

Section FingerprintFormat.

Lemma hexlify_length (bytes : list byte) :
  String.length (hexlify bytes) = (2 * List.length bytes)%nat.
Proof.
  induction bytes as [|b rest IH]; [reflexivity|].
  cbn [hexlify String.length List.length]. rewrite IH. lia.
Qed.

Lemma str_upper_length (s : string) : String.length (str_upper s) = String.length s.
Proof. induction s as [|ch s IH]; cbn; [reflexivity | now rewrite IH]. Qed.

Lemma md5_length (msg : list byte) : List.length (md5 msg) = 16%nat.
Proof.
  unfold md5.
  destruct (fold_left md5_block _ md5_init) as [[[a b] c] d]. reflexivity.
Qed.

Lemma sha1_length (msg : list byte) : List.length (sha1 msg) = 20%nat.
Proof.
  unfold sha1.
  destruct (fold_left sha1_block _ sha1_init) as [[[[a b] c] d] e]. reflexivity.
Qed.

Lemma hex_byte_upper (b : byte) :
  is_upper_hex (ascii_upper (hex_digit lower_hex (Z_of_byte b / 16))) = true /\
  is_upper_hex (ascii_upper (hex_digit lower_hex (Z_of_byte b mod 16))) = true.
Proof. destruct b; split; vm_compute; reflexivity. Qed.

Lemma hexlify_upper_hex (bytes : list byte) :
  str_forallb is_upper_hex (str_upper (hexlify bytes)) = true.
Proof.
  induction bytes as [|b rest IH]; [reflexivity|].
  cbn [hexlify str_upper str_forallb].
  destruct (hex_byte_upper b) as [-> ->]. exact IH.
Qed.

Lemma string_of_list_length (l : list ascii) :
  String.length (string_of_list_ascii l) = List.length l.
Proof. induction l as [|ch l IH]; cbn; [reflexivity | now rewrite IH]. Qed.

Lemma append_length (s t : string) :
  String.length (s ++ t) = (String.length s + String.length t)%nat.
Proof. induction s as [|ch s IH]; cbn; [reflexivity | now rewrite IH]. Qed.

Lemma str_forallb_append (p : ascii -> bool) (s t : string) :
  str_forallb p (s ++ t) = str_forallb p s && str_forallb p t.
Proof.
  induction s as [|ch s IH]; cbn; [reflexivity|]. rewrite IH.
  now rewrite andb_assoc.
Qed.

Lemma str_forallb_of_list (p : ascii -> bool) (l : list ascii) :
  str_forallb p (string_of_list_ascii l) = forallb p l.
Proof. induction l as [|ch l IH]; cbn; [reflexivity | now rewrite IH]. Qed.

Lemma upper_hex_digit (d : Z) :
  0 <= d < 16 -> is_upper_hex (hex_digit upper_hex d) = true.
Proof.
  intros Hd. unfold hex_digit.
  assert (Hn : (Z.to_nat d < 16)%nat) by lia.
  destruct (Z.to_nat d) as [|n]; [reflexivity|].
  do 15 (destruct n as [|n]; [reflexivity|]). lia.
Qed.

Lemma hex_width_bound (n : Z) : 0 <= n < 2 ^ 32 -> (1 <= hex_width n <= 8)%nat.
Proof.
  intros Hn. unfold hex_width.
  destruct (n =? 0) eqn:Hz; [lia|].
  apply Z.eqb_neq in Hz.
  assert (Hlog : Z.log2 n < 32) by (apply Z.log2_lt_pow2; lia).
  assert (Hlog0 : 0 <= Z.log2 n) by apply Z.log2_nonneg.
  assert (0 <= Z.log2 n / 4 <= 7).
  { split; [apply Z.div_pos; lia|]. apply Z.lt_succ_r.
    apply Z.div_lt_upper_bound; lia. }
  lia.
Qed.

Lemma format_X_length (n : Z) : String.length (format_X n) = hex_width n.
Proof.
  unfold format_X.
  rewrite string_of_list_length, length_map, length_rev, length_seq. reflexivity.
Qed.

Lemma format_X_upper_hex (n : Z) : str_forallb is_upper_hex (format_X n) = true.
Proof.
  unfold format_X. rewrite str_forallb_of_list. apply forallb_forall.
  intros ch Hch. apply in_map_iff in Hch. destruct Hch as (i & <- & _).
  apply upper_hex_digit.
  change 15 with (Z.ones 4). rewrite Z.land_ones by lia.
  apply Z.mod_pos_bound. lia.
Qed.

Lemma format_08X_length (n : Z) :
  0 <= n < 2 ^ 32 -> String.length (format_08X n) = 8%nat.
Proof.
  intros Hn. unfold format_08X.
  rewrite append_length, string_of_list_length, repeat_length, format_X_length.
  pose proof (hex_width_bound n Hn). lia.
Qed.

Lemma format_08X_upper_hex (n : Z) :
  str_forallb is_upper_hex (format_08X n) = true.
Proof.
  unfold format_08X.
  rewrite str_forallb_append, str_forallb_of_list, format_X_upper_hex, andb_true_r.
  apply forallb_forall. intros ch Hch. apply repeat_spec in Hch. now subst ch.
Qed.

Lemma mask32_range (x : Z) : 0 <= Z.land x 0xFFFFFFFF < 2 ^ 32.
Proof.
  change 0xFFFFFFFF with (Z.ones 32). rewrite Z.land_ones by lia.
  apply Z.mod_pos_bound. lia.
Qed.

(** The three strings have 32, 40 and 8 characters, all of them digits or
    capital letters A to F. *)
Lemma fingerprint_format (content : list byte) :
  let '(md5, sha1, crc) := fingerprint content in
  String.length md5 = 32%nat /\ String.length sha1 = 40%nat /\
  String.length crc = 8%nat /\
  str_forallb is_upper_hex md5 = true /\
  str_forallb is_upper_hex sha1 = true /\
  str_forallb is_upper_hex crc = true.
Proof.
  unfold fingerprint.
  destruct (hash_chunks chunk_size content (hash_new, hash_new, 0)) as [[a b] v].
  unfold md5_hexdigest, sha1_hexdigest.
  rewrite !str_upper_length, !hexlify_length, md5_length, sha1_length.
  rewrite !hexlify_upper_hex, format_08X_upper_hex.
  rewrite (format_08X_length _ (mask32_range v)).
  repeat split.
Qed.
End FingerprintFormat.

Section Fingerprints.

(** C8. For a file that can be read, [calculate_file_hashes] returns three
    strings of 32, 40 and 8 characters, each character a digit or a capital
    letter from A to F. *)
Theorem file_hashes_are_fixed_width_upper_hex
    (file_path : string) (content : list byte)
    (c : ScreenScraperClient) (w : World) :
  fs w file_path = Regular content ->
  exists md5 sha1 crc w',
    calculate_file_hashes file_path c w = (Ok (md5, sha1, crc), c, w') /\
    String.length md5 = 32%nat /\
    String.length sha1 = 40%nat /\
    String.length crc = 8%nat /\
    str_forallb is_upper_hex md5 = true /\
    str_forallb is_upper_hex sha1 = true /\
    str_forallb is_upper_hex crc = true.
Proof.
  intros Hfile. rewrite (calculate_file_hashes_regular _ _ _ _ Hfile).
  pose proof (fingerprint_format content) as Hformat.
  destruct (fingerprint content) as [[md5 sha1] crc].
  exists md5, sha1, crc, (after_hashing file_path w).
  split; [reflexivity | exact Hformat].
Qed.
End Fingerprints.

Example fingerprint_of_abc :
  fingerprint (list_byte_of_string "abc")
  = ("900150983CD24FB0D6963F7D28E17F72",
     "A9993E364706816ABA3E25717850C26C9CD0D89D",
     "352441C2").
Proof. vm_compute. reflexivity. Qed.

Example fingerprint_of_empty_file :
  fingerprint []
  = ("D41D8CD98F00B204E9800998ECF8427E",
     "DA39A3EE5E6B4B0D3255BFEF95601890AFD80709",
     "00000000").
Proof. vm_compute. reflexivity. Qed.

Lemma file_hashes_are_fixed_width_upper_hex_witness :
  let c := new_client "dev" "secret" in
  let w := simple_world [("roms/abc.nes", Regular (list_byte_of_string "abc"))]
             (ok_response "{}") in
  fs w "roms/abc.nes" = Regular (list_byte_of_string "abc") /\
  exists md5 sha1 crc w',
    calculate_file_hashes "roms/abc.nes" c w = (Ok (md5, sha1, crc), c, w') /\
    String.length md5 = 32%nat /\
    String.length sha1 = 40%nat /\
    String.length crc = 8%nat /\
    str_forallb is_upper_hex md5 = true /\
    str_forallb is_upper_hex sha1 = true /\
    str_forallb is_upper_hex crc = true.
Proof.
  intros c w. split; [reflexivity|].
  exact (file_hashes_are_fixed_width_upper_hex "roms/abc.nes"
           (list_byte_of_string "abc") c w eq_refl).
Defined.

(** *** The fingerprint is that of the whole file *)

Section WholeFile.

Lemma w32_range (x : Z) : w32 x = x <-> 0 <= x < 2 ^ 32.
Proof.
  unfold w32, mask32. change 0xFFFFFFFF with (Z.ones 32).
  rewrite Z.land_ones by lia. split.
  - intros <-. apply Z.mod_pos_bound. lia.
  - intros Hx. apply Z.mod_small. exact Hx.
Qed.

Lemma w32_lxor (x y : Z) : w32 (Z.lxor x y) = Z.lxor (w32 x) (w32 y).
Proof.
  unfold w32. apply Z.bits_inj'. intros n Hn.
  rewrite Z.lxor_spec, !Z.land_spec, Z.lxor_spec.
  destruct (Z.testbit x n), (Z.testbit y n), (Z.testbit mask32 n); reflexivity.
Qed.

Lemma w32_idem (x : Z) : w32 (w32 x) = w32 x.
Proof.
  unfold w32. rewrite <- Z.land_assoc. rewrite Z.land_diag. reflexivity.
Qed.

Lemma w32_byte (b : byte) : w32 (Z_of_byte b) = Z_of_byte b.
Proof. destruct b; reflexivity. Qed.

Lemma crc32_bits_w32 (count : nat) :
  forall crc, w32 crc = crc -> w32 (crc32_bits count crc) = crc32_bits count crc.
Proof.
  induction count as [|count IH]; intros crc Hcrc; [exact Hcrc|].
  cbn [crc32_bits]. apply IH.
  assert (Hshift : w32 (Z.shiftr crc 1) = Z.shiftr crc 1).
  { apply w32_range. apply w32_range in Hcrc.
    rewrite Z.shiftr_div_pow2 by lia. change (2 ^ 1) with 2. split.
    - apply Z.div_pos; lia.
    - apply Z.div_lt_upper_bound; lia. }
  destruct (Z.testbit crc 0); [|exact Hshift].
  rewrite w32_lxor, Hshift. reflexivity.
Qed.

Lemma crc32_byte_w32 (crc : Z) (b : byte) :
  w32 crc = crc -> w32 (crc32_byte crc b) = crc32_byte crc b.
Proof.
  intros Hcrc. unfold crc32_byte. apply crc32_bits_w32.
  rewrite w32_lxor, Hcrc, w32_byte. reflexivity.
Qed.

Lemma crc32_fold_w32 (data : list byte) :
  forall crc, w32 crc = crc ->
              w32 (fold_left crc32_byte data crc) = fold_left crc32_byte data crc.
Proof.
  induction data as [|b rest IH]; intros crc Hcrc; [exact Hcrc|].
  cbn [fold_left]. apply IH. now apply crc32_byte_w32.
Qed.

(** [zlib.crc32] continues a running checksum: the checksum of two
    chunks is the checksum of the second continued from the first. *)
Lemma crc32_app (x y : list byte) (value : Z) :
  crc32 (x ++ y) value = crc32 y (crc32 x value).
Proof.
  unfold crc32. rewrite fold_left_app.
  set (start := Z.lxor (w32 value) mask32).
  assert (Hstart : w32 start = start).
  { unfold start. rewrite w32_lxor, w32_idem. reflexivity. }
  pose proof (crc32_fold_w32 x start Hstart) as Hfold.
  set (mid := fold_left crc32_byte x start) in *.
  rewrite w32_lxor, Hfold. change (w32 mask32) with mask32.
  rewrite Z.lxor_assoc, Z.lxor_nilpotent, Z.lxor_0_r. reflexivity.
Qed.

Lemma crc32_nil (value : Z) : crc32 [] value = w32 value.
Proof.
  unfold crc32. cbn [fold_left].
  rewrite Z.lxor_assoc, Z.lxor_nilpotent, Z.lxor_0_r. reflexivity.
Qed.

(** The loop feeds the accumulators the whole content, chunk by chunk. *)
Lemma hash_chunks_whole (n : nat) (remaining : list byte) (acc : hashes_t) :
  (0 < n)%nat ->
  hash_chunks n remaining acc
  = let '(md5_hash, sha1_hash, crc32_hash) := acc in
    ((md5_hash ++ remaining)%list, (sha1_hash ++ remaining)%list,
     match remaining with
     | [] => crc32_hash
     | _ :: _ => crc32 remaining crc32_hash
     end).
Proof.
  intros Hn. funelim (hash_chunks n remaining acc).
  - destruct remaining as [|x xs].
    + unfold hash_obj in *. now rewrite !app_nil_r.
    + destruct n; [lia | discriminate e].
  - rewrite (H Hn). clear H H0 Heqcall. unfold hash_update.
    pose proof (firstn_skipn n remaining) as Hsplit. rewrite e in Hsplit.
    remember (skipn n remaining) as rest eqn:Hrest. clear Hrest.
    subst remaining. rewrite <- !app_assoc. cbn [app].
    f_equal.
    destruct rest as [|y ys].
    + rewrite app_nil_r. reflexivity.
    + change (b :: more ++ y :: ys)%list with ((b :: more) ++ y :: ys)%list.
      now rewrite crc32_app.
Qed.

(** The triple is the MD5 and SHA-1 of the whole content in capital
    hexadecimal digits, and its CRC-32 on eight of them. *)
Lemma fingerprint_whole (content : list byte) :
  fingerprint content
  = (str_upper (hexlify (md5 content)),
     str_upper (hexlify (sha1 content)),
     format_08X (crc32 content 0)).
Proof.
  unfold fingerprint.
  rewrite hash_chunks_whole by (unfold chunk_size; lia).
  unfold md5_hexdigest, sha1_hexdigest, hash_new. cbn [app].
  f_equal. f_equal.
  destruct content as [|x xs]; [reflexivity|].
  change (Z.land ?v 0xFFFFFFFF) with (w32 v).
  unfold crc32. rewrite w32_lxor. rewrite crc32_fold_w32; [reflexivity|].
  rewrite w32_lxor, w32_idem. reflexivity.
Qed.
End WholeFile.

(* ===================================================================== *)
(** ** Further properties                                                 *)
(* ===================================================================== *)

(** *** Request parameters *)

Section Params.
Context {V : Type}.

Lemma dict_lookup_set (k k' : string) (v : V) (d : list (string * V)) :
  dict_lookup k' (dict_set k v d)
  = if String.eqb k' k then Some v else dict_lookup k' d.
Proof.
  induction d as [|[k0 v0] rest IH]; cbn [dict_set dict_lookup].
  - destruct (String.eqb k' k); reflexivity.
  - destruct (String.eqb k k0) eqn:Hk.
    + apply String.eqb_eq in Hk. subst k0. cbn [dict_lookup].
      destruct (String.eqb k' k); reflexivity.
    + cbn [dict_lookup]. rewrite IH.
      destruct (String.eqb k' k0) eqn:Hk0; [|reflexivity].
      apply String.eqb_eq in Hk0. subst k0.
      rewrite String.eqb_sym in Hk. rewrite Hk. reflexivity.
Qed.

(** [d.update(other)] then lookup: the last binding of the key in [other],
    else what [d] had. *)
Lemma dict_lookup_update (k : string) (other d : list (string * V)) :
  dict_lookup k (dict_update d other)
  = match dict_lookup k (rev other) with
    | Some v => Some v
    | None => dict_lookup k d
    end.
Proof.
  unfold dict_update. revert d.
  induction other as [|[k0 v0] rest IH]; intros d; [reflexivity|].
  cbn [fold_left fst snd rev]. rewrite IH, dict_lookup_set.
  assert (Happ : forall l, dict_lookup k (l ++ [(k0, v0)])
                          = match dict_lookup k l with
                            | Some v => Some v
                            | None => if String.eqb k k0 then Some v0 else None
                            end).
  { induction l as [|[k1 v1] l IHl]; cbn [app dict_lookup]; [reflexivity|].
    destruct (String.eqb k k1); [reflexivity | exact IHl]. }
  rewrite Happ. destruct (dict_lookup k (rev rest)); [reflexivity|].
  destruct (String.eqb k k0); reflexivity.
Qed.
End Params.

(** X1. Every request carries the developer id and password, the software
    name and [output=json]; the user's id and password go with them only
    when both are set and not empty; an argument of the call overrides a
    common parameter of the same name, and no other parameter is sent. *)
Theorem build_params_lookup
    (self : ScreenScraperClient) (kwargs : params_t) (k : string) :
  dict_lookup k (_build_params self kwargs)
  = match dict_lookup k (rev kwargs) with
    | Some v => Some v
    | None => common_param self k
    end.
Proof.
  unfold _build_params. rewrite dict_lookup_update.
  destruct (dict_lookup k (rev kwargs)) as [v|]; [reflexivity|].
  unfold common_param, opt_truthy.
  destruct (user_id self) as [uid|], (user_password self) as [pw|];
    try (cbn [dict_lookup];
         destruct (String.eqb k "devid"); [reflexivity|];
         destruct (String.eqb k "devpassword"); [reflexivity|];
         destruct (String.eqb k "softname"); [reflexivity|];
         destruct (String.eqb k "output"); reflexivity).
  destruct (negb (String.eqb uid "") && negb (String.eqb pw "")).
  - rewrite dict_lookup_update. cbn [rev app dict_lookup].
    destruct (String.eqb k "devid") eqn:H1.
    { apply String.eqb_eq in H1. subst k. reflexivity. }
    destruct (String.eqb k "devpassword") eqn:H2.
    { apply String.eqb_eq in H2. subst k. reflexivity. }
    destruct (String.eqb k "softname") eqn:H3.
    { apply String.eqb_eq in H3. subst k. reflexivity. }
    destruct (String.eqb k "output") eqn:H4.
    { apply String.eqb_eq in H4. subst k. reflexivity. }
    destruct (String.eqb k "sspassword") eqn:H5.
    { apply String.eqb_eq in H5. subst k. reflexivity. }
    destruct (String.eqb k "ssid"); reflexivity.
  - cbn [dict_lookup].
    destruct (String.eqb k "devid"); [reflexivity|].
    destruct (String.eqb k "devpassword"); [reflexivity|].
    destruct (String.eqb k "softname"); [reflexivity|].
    destruct (String.eqb k "output"); reflexivity.
Qed.

Example params_of_anonymous_client :
  _build_params (new_client "dev" "secret") [("gameid", "3")]
  = [ ("devid", "dev"); ("devpassword", "secret");
      ("softname", "ScreenScraperPython"); ("output", "json"); ("gameid", "3") ].
Proof. reflexivity. Qed.

Example params_need_both_user_fields :
  dict_lookup "ssid"
    (_build_params
       (__init__ "dev" "secret" "tool" (Some "alice") None "en" 10000 1%float) [])
  = None.
Proof. reflexivity. Qed.

(** *** What a request does to the world *)

Section RequestEffects.
Context `{Runtime}.

(** X2. Whatever the outcome, [_make_request] reads the clock twice, asks for
    at most one sleep, sends one GET with the timeout of 30 seconds, and
    calls [json.loads] at most twice; it never sends a second request and
    touches no file. *)
Theorem request_sends_one_get
    (endpoint : string) (params : params_t) (c : ScreenScraperClient) (w : World)
    (res : result pyval) (c' : ScreenScraperClient) (w' : World) :
  _make_request endpoint params c w = (res, c', w') ->
  exists sleeps loads,
    w' = mk_World (clock w) (net w) (fs w) (S (S (clock_reads w)))
           (S (net_calls w))
           (trace w ++ sleeps ++ [EvGet (BASE_URL ++ "/" ++ endpoint) params 30]
            ++ loads) /\
    forallb is_sleep sleeps = true /\ (List.length sleeps <= 1)%nat /\
    forallb is_loads loads = true /\ (List.length loads <= 2)%nat.
Proof.
  intros Hrun.
  pose proof (make_request_run endpoint params c w) as Hcases. cbv zeta in Hcases.
  assert (Hsleeps : exists sleeps,
             snd (rate_limited c w)
             = mk_World (clock w) (net w) (fs w) (S (S (clock_reads w)))
                 (net_calls w) (trace w ++ sleeps) /\
             forallb is_sleep sleeps = true /\ (List.length sleeps <= 1)%nat).
  { unfold rate_limited. cbn [snd].
    destruct (PrimFloat.ltb _ _); eexists; (split; [reflexivity|]); split;
      cbn; auto. }
  destruct Hsleeps as (sleeps & Hw1 & Hsl & Hlen).
  rewrite Hw1 in Hcases. unfold requested, emits in Hcases.
  cbn [clock net fs clock_reads net_calls trace] in Hcases.
  exists sleeps.
  destruct (net w (net_calls w) (BASE_URL ++ "/" ++ endpoint) params) as [msg | r].
  - rewrite Hcases in Hrun. injection Hrun as _ _ <-.
    exists []. rewrite <- !app_assoc. repeat split; cbn; auto.
  - destruct (status_refused r).
    + rewrite Hcases in Hrun. injection Hrun as _ _ <-.
      exists []. rewrite <- !app_assoc. repeat split; cbn; auto.
    + destruct (json_loads (text r)) as [data|];
        [| destruct (json_loads (repaired (text r))) as [data|] ];
        rewrite Hcases in Hrun; injection Hrun as _ _ <-.
      * exists [EvJsonLoads (text r)].
        rewrite <- !app_assoc. repeat split; cbn; auto.
      * exists [EvJsonLoads (text r); EvJsonLoads (repaired (text r))].
        rewrite <- !app_assoc. repeat split; cbn; auto.
      * exists [EvJsonLoads (text r); EvJsonLoads (repaired (text r))].
        rewrite <- !app_assoc. repeat split; cbn; auto.
Qed.
End RequestEffects.

Lemma request_sends_one_get_witness :
  let rt := table_runtime [("{}", PDict [])] in
  let c := new_client "dev" "secret" in
  let w := simple_world [] (ok_response "{}") in
  exists res c' w' sleeps loads,
    _make_request "jeuInfos.php" [("gameid", "3")] c w = (res, c', w') /\
    w' = mk_World (clock w) (net w) (fs w) (S (S (clock_reads w)))
           (S (net_calls w))
           (trace w ++ sleeps
            ++ [EvGet (BASE_URL ++ "/" ++ "jeuInfos.php") [("gameid", "3")] 30]
            ++ loads) /\
    forallb is_sleep sleeps = true /\ (List.length sleeps <= 1)%nat /\
    forallb is_loads loads = true /\ (List.length loads <= 2)%nat.
Proof.
  intros rt c w.
  destruct (_make_request "jeuInfos.php" [("gameid", "3")] c w)
    as [[res c'] w'] eqn:Hrun.
  destruct (@request_sends_one_get rt _ _ _ _ _ _ _ Hrun) as (sleeps & loads & Hshape).
  exists res, c', w', sleeps, loads. split; [reflexivity | exact Hshape].
Defined.

(** *** Outcomes of a request *)

Section RequestOutcomes.
Context `{Runtime}.

(** X3. A request the network refuses, by an exception of the transport or by
    a status between 400 and 599, raises [ScreenScraperError] with the
    text of the failure after "Request failed: ". The body is not parsed
    and the request is not counted. *)
Theorem transport_failure_is_wrapped
    (endpoint : string) (params : params_t) (c : ScreenScraperClient) (w : World) :
  received_body w (BASE_URL ++ "/" ++ endpoint) params = None ->
  exists cause c' w',
    _make_request endpoint params c w
    = (Raise (mk_exn ScreenScraperError ("Request failed: " ++ cause)), c', w') /\
    cause = match net w (net_calls w) (BASE_URL ++ "/" ++ endpoint) params with
            | TransportError msg => msg
            | Response r => http_error_text r
            end /\
    condition_of (mk_exn ScreenScraperError ("Request failed: " ++ cause))
    = Some TransportFailure /\
    request_count c' = request_count c /\
    existsb is_loads (trace w') = existsb is_loads (trace w).
Proof.
  unfold received_body. intros Hnone.
  pose proof (make_request_run endpoint params c w) as Hrun. cbv zeta in Hrun.
  assert (Htrace : forall e,
             is_loads e = false ->
             existsb is_loads
               (trace (requested [e] (snd (rate_limited c w))))
             = existsb is_loads (trace w)).
  { intros e He. unfold requested, rate_limited. cbn [snd trace].
    rewrite !existsb_app. cbn [existsb]. rewrite He.
    destruct (PrimFloat.ltb _ _); cbn [existsb is_loads];
      now rewrite !orb_false_r. }
  destruct (net w (net_calls w) (BASE_URL ++ "/" ++ endpoint) params) as [msg | r].
  - do 3 eexists. split; [exact Hrun|]. split; [reflexivity|].
    split; [reflexivity|]. split; [reflexivity|]. now apply Htrace.
  - unfold status_refused in Hrun.
    destruct ((400 <=? status_code r) && (status_code r <? 600));
      [| discriminate Hnone].
    do 3 eexists. split; [exact Hrun|]. split; [reflexivity|].
    split; [reflexivity|]. split; [reflexivity|]. now apply Htrace.
Qed.

Lemma parsed_body_run (endpoint : string) (params : params_t)
    (c : ScreenScraperClient) (w : World) (data : pyval) :
  parsed_body w (BASE_URL ++ "/" ++ endpoint) params = Some data ->
  exists c' w',
    _make_request endpoint params c w = (checked data, c', w') /\
    request_count c' = request_count c + 1.
Proof.
  unfold parsed_body, received_body. intros Hbody.
  pose proof (make_request_run endpoint params c w) as Hrun. cbv zeta in Hrun.
  unfold status_refused in Hrun.
  destruct (net w (net_calls w) (BASE_URL ++ "/" ++ endpoint) params) as [msg | r];
    [discriminate Hbody|].
  destruct ((400 <=? status_code r) && (status_code r <? 600));
    [discriminate Hbody|].
  destruct (json_loads (text r)) as [d|].
  - injection Hbody as ->. do 2 eexists. split; [exact Hrun | reflexivity].
  - rewrite Hbody in Hrun. do 2 eexists. split; [exact Hrun | reflexivity].
Qed.

(** X4. When the parsed body has an [erreur] text in its header, the request
    is counted and then raises: [APIQuotaExceededError] if the lowercased
    text contains "quota"; else [APIClosedError] if it contains the closed
    keywords; else [ScreenScraperError]. The message keeps the text of the
    service as it came. *)
Theorem service_error_is_classified
    (endpoint : string) (params : params_t) (c : ScreenScraperClient) (w : World)
    (data header : pyval) (error_msg : string) :
  parsed_body w (BASE_URL ++ "/" ++ endpoint) params = Some data ->
  py_get data "header" (PDict []) = Ok header ->
  py_getitem header "erreur" = Ok (PStr error_msg) ->
  exists c' w',
    _make_request endpoint params c w
    = (Raise (mk_exn (service_error_class error_msg)
                (service_error_prefix error_msg ++ error_msg)), c', w') /\
    request_count c' = request_count c + 1.
Proof.
  intros Hbody Hheader Herror.
  destruct (parsed_body_run endpoint params c w data Hbody) as (c' & w' & Hrun & Hcount).
  exists c', w'. split; [|exact Hcount]. rewrite Hrun. f_equal. f_equal.
  unfold checked. rewrite Hheader. cbn [bind].
  assert (Hin : py_contains "erreur" header = Ok true).
  { destruct header; cbn in Herror; try discriminate Herror.
    cbn [py_contains]. unfold dict_has.
    destruct (dict_lookup "erreur" kvs); [reflexivity | discriminate Herror]. }
  rewrite Hin. cbn [bind]. rewrite Herror. cbn [bind py_lower py_str].
  unfold service_error_class, service_error_prefix.
  destruct (str_contains "quota" (str_lower error_msg)); [reflexivity|].
  destruct (str_contains "fermÃ©" (str_lower error_msg)
            || str_contains "closed" (str_lower error_msg)); reflexivity.
Qed.

(** X5. When the parsed body is an object whose header reports no error, the
    request returns the body as parsed and counts it. A parsed body that is
    not an object, such as an array, is counted too and then raises
    [AttributeError]. *)
Theorem request_returns_parsed_body
    (endpoint : string) (params : params_t) (c : ScreenScraperClient) (w : World)
    (data : pyval) :
  parsed_body w (BASE_URL ++ "/" ++ endpoint) params = Some data ->
  exists res c' w',
    _make_request endpoint params c w = (res, c', w') /\
    request_count c' = request_count c + 1 /\
    (forall header,
        py_get data "header" (PDict []) = Ok header ->
        py_contains "erreur" header = Ok false ->
        res = Ok data) /\
    ((forall kvs, data <> PDict kvs) ->
     exists e, res = Raise e /\ exn_class e = AttributeError).
Proof.
  intros Hbody.
  destruct (parsed_body_run endpoint params c w data Hbody) as (c' & w' & Hrun & Hcount).
  exists (checked data), c', w'. split; [exact Hrun|]. split; [exact Hcount|].
  split.
  - intros header Hheader Hnone. unfold checked.
    rewrite Hheader. cbn [bind]. rewrite Hnone. reflexivity.
  - intros Hshape. unfold checked.
    destruct data; try (eexists; split; reflexivity).
    exfalso. exact (Hshape kvs eq_refl).
Qed.
End RequestOutcomes.

Lemma transport_failure_is_wrapped_witness :
  let rt := table_runtime [] in
  let c := new_client "dev" "secret" in
  let w := simple_world []
             (Response (mk_response 503 "Service Unavailable"
                          "https://www.screenscraper.fr/api2/jeuInfos.php" "busy")) in
  received_body w (BASE_URL ++ "/" ++ "jeuInfos.php") [] = None /\
  exists c' w',
    _make_request "jeuInfos.php" [] c w
    = (Raise (mk_exn ScreenScraperError
                "Request failed: 503 Server Error: Service Unavailable for url: https://www.screenscraper.fr/api2/jeuInfos.php"),
       c', w') /\
    request_count c' = request_count c.
Proof.
  intros rt c w. split; [reflexivity|].
  destruct (@transport_failure_is_wrapped rt "jeuInfos.php" [] c w eq_refl)
    as (cause & c' & w' & Hrun & -> & _ & Hcount & _).
  exists c', w'. split; [exact Hrun | exact Hcount].
Defined.

Lemma service_error_is_classified_witness :
  let rt := table_runtime [("{quota}", quota_body)] in
  let c := new_client "dev" "secret" in
  let w := simple_world [] (ok_response "{quota}") in
  parsed_body w (BASE_URL ++ "/" ++ "jeuInfos.php") [] = Some quota_body /\
  exists c' w',
    _make_request "jeuInfos.php" [] c w
    = (Raise (mk_exn APIQuotaExceededError
                "API quota exceeded: Votre QUOTA de scrape est depasse"), c', w') /\
    request_count c' = request_count c + 1.
Proof.
  intros rt c w. split; [reflexivity|].
  exact (@service_error_is_classified rt "jeuInfos.php" [] c w quota_body
           (PDict [("erreur", PStr "Votre QUOTA de scrape est depasse")])
           "Votre QUOTA de scrape est depasse" eq_refl eq_refl eq_refl).
Defined.

Lemma request_returns_parsed_body_witness :
  let rt := table_runtime [("[]", PList [])] in
  let c := new_client "dev" "secret" in
  let w := simple_world [] (ok_response "[]") in
  parsed_body w (BASE_URL ++ "/" ++ "jeuInfos.php") [] = Some (PList []) /\
  exists e c' w',
    _make_request "jeuInfos.php" [] c w = (Raise e, c', w') /\
    exn_class e = AttributeError /\
    request_count c' = request_count c + 1.
Proof.
  intros rt c w. split; [reflexivity|].
  destruct (@request_returns_parsed_body rt "jeuInfos.php" [] c w (PList []) eq_refl)
    as (res & c' & w' & Hrun & Hcount & _ & Hshape).
  destruct Hshape as (e & -> & Hclass); [discriminate|].
  exists e, c', w'. repeat split; assumption.
Defined.

(** *** What the search methods let through *)

Section SearchErrors.
Context `{Runtime}.

Lemma make_request_not_game_not_found (endpoint : string) (params : params_t)
    (c : ScreenScraperClient) (w : World) (e : exn)
    (c' : ScreenScraperClient) (w' : World) :
  _make_request endpoint params c w = (Raise e, c', w') ->
  issubclass (exn_class e) GameNotFoundError = false.
Proof.
  intros Hrun.
  pose proof (make_request_run endpoint params c w) as Hcases. cbv zeta in Hcases.
  assert (Hchecked : forall data, checked data = Raise e ->
                                  issubclass (exn_class e) GameNotFoundError = false).
  { intros data Hc. apply checked_raise in Hc. unfold typing_error in Hc.
    cbn [In] in Hc.
    destruct Hc as [Hin | Hin];
      repeat destruct Hin as [<- | Hin]; try reflexivity; contradiction. }
  destruct (net w (net_calls w) (BASE_URL ++ "/" ++ endpoint) params) as [msg | r].
  - rewrite Hcases in Hrun. now injection Hrun as <- _ _.
  - destruct (status_refused r).
    + rewrite Hcases in Hrun. now injection Hrun as <- _ _.
    + destruct (json_loads (text r)) as [data|].
      * rewrite Hcases in Hrun. injection Hrun as Hc _ _. now apply (Hchecked data).
      * destruct (json_loads (repaired (text r))) as [data|].
        -- rewrite Hcases in Hrun. injection Hrun as Hc _ _.
           now apply (Hchecked data).
        -- rewrite Hcases in Hrun. now injection Hrun as <- _ _.
Qed.

Lemma game_or_none_raise (out : result pyval * ScreenScraperClient * World)
    (e : exn) (c' : ScreenScraperClient) (w' : World) :
  game_or_none out = (Raise e, c', w') ->
  issubclass (exn_class e) GameNotFoundError = false.
Proof.
  destruct out as [[[data|e0] c0] w0]; unfold game_or_none.
  - destruct (_parse_game_data c0 data) as [game|e1]; [discriminate|].
    destruct (issubclass (exn_class e1) GameNotFoundError) eqn:Hsub; [discriminate|].
    intros Hout. now injection Hout as <- _ _.
  - destruct (issubclass (exn_class e0) GameNotFoundError) eqn:Hsub; [discriminate|].
    intros Hout. now injection Hout as <- _ _.
Qed.

Lemma game_or_none_request_error (e : exn) (c' : ScreenScraperClient) (w' : World)
    (out : result pyval * ScreenScraperClient * World) :
  out = (Raise e, c', w') ->
  issubclass (exn_class e) GameNotFoundError = false ->
  game_or_none out = (Raise e, c', w').
Proof. intros -> Hsub. unfold game_or_none. now rewrite Hsub. Qed.

Lemma search_by_file_cases (file_path platform : string) (rom_name : option string)
    (c : ScreenScraperClient) (w : World) :
  (exists msg, search_by_file file_path platform rom_name c w
               = (Raise (mk_exn ValueError msg), c, w)) \/
  (exists w', search_by_file file_path platform rom_name c w = (Ok None, c, w')) \/
  (exists params w0,
      search_by_file file_path platform rom_name c w
      = game_or_none (_make_request "jeuInfos.php" params c w0)).
Proof.
  destruct (dict_lookup platform PLATFORMS) as [systemeid|] eqn:Hplatform.
  - destruct (fs w file_path) as [| st_size err | content] eqn:Hfile.
    + right; left.
      destruct (calculate_file_hashes_unreadable file_path c w) as (e & w1 & Hrun & _).
      { intros content. rewrite Hfile. discriminate. }
      unfold search_by_file, dict_has. rewrite Hplatform. cbn [negb].
      unfold mbind at 1. unfold try_except at 1. unfold mbind at 1. rewrite Hrun.
      assert (Hsub : issubclass (exn_class e) Exception = true).
      { destruct e as [cls msg]. destruct cls; reflexivity. }
      rewrite Hsub. eexists. reflexivity.
    + right; left.
      destruct (calculate_file_hashes_unreadable file_path c w) as (e & w1 & Hrun & _).
      { intros content. rewrite Hfile. discriminate. }
      unfold search_by_file, dict_has. rewrite Hplatform. cbn [negb].
      unfold mbind at 1. unfold try_except at 1. unfold mbind at 1. rewrite Hrun.
      assert (Hsub : issubclass (exn_class e) Exception = true).
      { destruct e as [cls msg]. destruct cls; reflexivity. }
      rewrite Hsub. eexists. reflexivity.
    + right; right. do 2 eexists.
      apply (search_by_file_run _ _ _ _ _ _ _ Hplatform Hfile).
  - left. unfold search_by_file, dict_has. rewrite Hplatform. cbn [negb].
    eexists. reflexivity.
Qed.

(** X6. No search method ever raises [GameNotFoundError]: whatever the
    arguments, the client and the world, an exception that leaves
    [search_by_id], [search_by_name] or [search_by_file] is of another
    class, and so is not the NotFound condition. *)
Theorem search_never_raises_not_found
    (game_id game_name file_path platform : string) (rom_name : option string)
    (c : ScreenScraperClient) (w : World)
    (e : exn) (c' : ScreenScraperClient) (w' : World) :
  search_by_id game_id c w = (Raise e, c', w') \/
  search_by_name game_name platform c w = (Raise e, c', w') \/
  search_by_file file_path platform rom_name c w = (Raise e, c', w') ->
  issubclass (exn_class e) GameNotFoundError = false /\
  condition_of e <> Some NotFound.
Proof.
  intros Hrun.
  assert (Hsub : issubclass (exn_class e) GameNotFoundError = false).
  { destruct Hrun as [Hrun | [Hrun | Hrun]].
    - rewrite search_by_id_run in Hrun. exact (game_or_none_raise _ _ _ _ Hrun).
    - destruct (dict_lookup platform PLATFORMS) as [systemeid|] eqn:Hplatform.
      + rewrite (search_by_name_run _ _ _ _ _ Hplatform) in Hrun.
        exact (game_or_none_raise _ _ _ _ Hrun).
      + unfold search_by_name, dict_has in Hrun. rewrite Hplatform in Hrun.
        cbn [negb] in Hrun. now injection Hrun as <- _ _.
    - destruct (search_by_file_cases file_path platform rom_name c w)
        as [(msg & Hcase) | [(w0 & Hcase) | (params & w0 & Hcase)]];
        rewrite Hcase in Hrun.
      + now injection Hrun as <- _ _.
      + discriminate Hrun.
      + exact (game_or_none_raise _ _ _ _ Hrun). }
  split; [exact Hsub|].
  destruct e as [cls msg]. cbn [exn_class] in Hsub.
  destruct cls; try discriminate Hsub; unfold condition_of; cbn [exn_class exn_msg];
    try discriminate.
  destruct (str_prefix "Request failed: " msg); discriminate.
Qed.

(** X7. An exception of the request passes through the search methods as it
    is, with the client and the world the request left: only the missing
    game is turned into None. *)
Theorem request_errors_reach_caller
    (game_id game_name file_path platform : string) (rom_name : option string)
    (systemeid : Z) (content : list byte)
    (c : ScreenScraperClient) (w : World)
    (e : exn) (c' : ScreenScraperClient) (w' : World) :
  dict_lookup platform PLATFORMS = Some systemeid ->
  fs w file_path = Regular content ->
  (_make_request "jeuInfos.php" (id_query c game_id) c w = (Raise e, c', w') ->
   search_by_id game_id c w = (Raise e, c', w')) /\
  (_make_request "jeuInfos.php" (name_query c game_name systemeid) c w
   = (Raise e, c', w') ->
   search_by_name game_name platform c w = (Raise e, c', w')) /\
  (_make_request "jeuInfos.php"
     (file_query c file_path rom_name systemeid content) c (after_sizing file_path w)
   = (Raise e, c', w') ->
   search_by_file file_path platform rom_name c w = (Raise e, c', w')).
Proof.
  intros Hplatform Hfile. repeat split; intros Hrun.
  - rewrite search_by_id_run.
    apply game_or_none_request_error; [exact Hrun|].
    exact (make_request_not_game_not_found _ _ _ _ _ _ _ Hrun).
  - rewrite (search_by_name_run _ _ _ _ _ Hplatform).
    apply game_or_none_request_error; [exact Hrun|].
    exact (make_request_not_game_not_found _ _ _ _ _ _ _ Hrun).
  - rewrite (search_by_file_run _ _ _ _ _ _ _ Hplatform Hfile).
    apply game_or_none_request_error; [exact Hrun|].
    exact (make_request_not_game_not_found _ _ _ _ _ _ _ Hrun).
Qed.
End SearchErrors.

Lemma search_never_raises_not_found_witness :
  let rt := table_runtime [("{quota}", quota_body)] in
  let c := new_client "dev" "secret" in
  let w := simple_world [] (ok_response "{quota}") in
  exists e c' w',
    search_by_name "Mario" "nes" c w = (Raise e, c', w') /\
    exn_class e = APIQuotaExceededError /\
    issubclass (exn_class e) GameNotFoundError = false /\
    condition_of e <> Some NotFound.
Proof.
  intros rt c w.
  destruct (search_by_name "Mario" "nes" c w) as [[[g|e] c'] w'] eqn:Hrun;
    [vm_compute in Hrun; discriminate Hrun|].
  exists e, c', w'. split; [reflexivity|].
  split; [vm_compute in Hrun; now injection Hrun as <- _ _|].
  exact (@search_never_raises_not_found rt "" "Mario" "" "nes" None c w e c' w'
           (or_intror (or_introl Hrun))).
Defined.

Lemma request_errors_reach_caller_witness :
  let rt := table_runtime [("{quota}", quota_body)] in
  let c := new_client "dev" "secret" in
  let w := simple_world [("mario.nes", Regular [])] (ok_response "{quota}") in
  dict_lookup "nes" PLATFORMS = Some 3 /\
  fs w "mario.nes" = Regular [] /\
  exists e c' w',
    exn_class e = APIQuotaExceededError /\
    search_by_file "mario.nes" "nes" None c w = (Raise e, c', w').
Proof.
  intros rt c w. split; [reflexivity|]. split; [reflexivity|].
  destruct (_make_request "jeuInfos.php"
              (file_query c "mario.nes" None 3 []) c (after_sizing "mario.nes" w))
    as [[[d|e] c'] w'] eqn:Hrun; [vm_compute in Hrun; discriminate Hrun|].
  exists e, c', w'. split; [vm_compute in Hrun; now injection Hrun as <- _ _|].
  exact (proj2 (proj2 (@request_errors_reach_caller rt "" "" "mario.nes" "nes" None 3 []
                         c w e c' w' eq_refl eq_refl)) Hrun).
Defined.

(** *** What a search sends *)

Section Queries.
Context `{Runtime}.

(** X8. The three strings [calculate_file_hashes] returns for a readable file
    are the MD5 and the SHA-1 of its whole content in capital hexadecimal
    digits and its CRC-32 on eight of them: reading by chunks of 64 KiB
    gives what one pass over the content gives. The client is left as it
    was and the file was looked up, sized and opened once. *)
Theorem file_hashes_are_of_whole_content
    (file_path : string) (content : list byte)
    (c : ScreenScraperClient) (w : World) :
  fs w file_path = Regular content ->
  calculate_file_hashes file_path c w
  = (Ok (str_upper (hexlify (md5 content)),
         str_upper (hexlify (sha1 content)),
         format_08X (crc32 content 0)),
     c,
     emits [EvExists file_path; EvStat file_path; EvOpen file_path] w).
Proof.
  intros Hfile. rewrite (calculate_file_hashes_regular _ _ _ _ Hfile).
  rewrite fingerprint_whole. unfold after_hashing, emits, emit.
  cbn [clock net fs clock_reads net_calls trace].
  rewrite <- !app_assoc. reflexivity.
Qed.

Lemma kwarg_lookup (self : ScreenScraperClient) (kwargs : params_t)
    (k v : string) :
  dict_lookup k (rev kwargs) = Some v ->
  dict_lookup k (_build_params self kwargs) = Some v.
Proof.
  intros Hk. unfold _build_params. rewrite dict_lookup_update, Hk. reflexivity.
Qed.

(** X9. With a known platform and a readable file, [search_by_file] is one
    request to [jeuInfos.php] followed by the mapper. The request carries
    the fingerprint of the whole content, the length of the content as
    [romtaille], the platform's number, [romtype=rom], and as [romnom] the
    given name, or the last component of the path when no name or an empty
    one is given. *)
Theorem file_search_sends_fingerprint
    (file_path platform : string) (rom_name : option string) (systemeid : Z)
    (content : list byte) (c : ScreenScraperClient) (w : World) :
  dict_lookup platform PLATFORMS = Some systemeid ->
  fs w file_path = Regular content ->
  exists params,
    search_by_file file_path platform rom_name c w
    = game_or_none
        (_make_request "jeuInfos.php" params c
           (emits [EvExists file_path; EvStat file_path; EvOpen file_path;
                   EvStat file_path] w)) /\
    dict_lookup "md5" params = Some (str_upper (hexlify (md5 content))) /\
    dict_lookup "sha1" params = Some (str_upper (hexlify (sha1 content))) /\
    dict_lookup "crc" params = Some (format_08X (crc32 content 0)) /\
    dict_lookup "romtaille" params
    = Some (str_of_Z (Z.of_nat (List.length content))) /\
    dict_lookup "systemeid" params = Some (str_of_Z systemeid) /\
    dict_lookup "romtype" params = Some "rom" /\
    dict_lookup "romnom" params
    = Some (match rom_name with
            | Some n => if String.eqb n "" then path_name file_path else n
            | None => path_name file_path
            end).
Proof.
  intros Hplatform Hfile.
  exists (file_query c file_path rom_name systemeid content).
  split.
  { rewrite (search_by_file_run _ _ _ _ _ _ _ Hplatform Hfile).
    unfold after_sizing, after_hashing, emits, emit.
    cbn [clock net fs clock_reads net_calls trace].
    rewrite <- !app_assoc. reflexivity. }
  unfold file_query. rewrite fingerprint_whole.
  repeat split; try (apply kwarg_lookup; reflexivity).
  apply kwarg_lookup. cbn [rev app dict_lookup]. eval_eqb.
  unfold opt_truthy. destruct rom_name as [n|]; [|reflexivity].
  destruct (String.eqb n ""); reflexivity.
Qed.

(** X10. With a known platform, [search_by_name] is one request to
    [jeuInfos.php] followed by the mapper; it carries the name as
    [recherche] and the platform's number as [systemeid]. [search_by_id]
    carries the identifier as [gameid], and no platform. *)
Theorem name_search_sends_name_and_platform
    (game_name platform game_id : string) (systemeid : Z)
    (c : ScreenScraperClient) (w : World) :
  dict_lookup platform PLATFORMS = Some systemeid ->
  (exists params,
      search_by_name game_name platform c w
      = game_or_none (_make_request "jeuInfos.php" params c w) /\
      dict_lookup "recherche" params = Some game_name /\
      dict_lookup "systemeid" params = Some (str_of_Z systemeid)) /\
  (exists params,
      search_by_id game_id c w
      = game_or_none (_make_request "jeuInfos.php" params c w) /\
      dict_lookup "gameid" params = Some game_id /\
      dict_lookup "systemeid" params = None).
Proof.
  intros Hplatform. split.
  - exists (name_query c game_name systemeid).
    split; [exact (search_by_name_run _ _ _ _ _ Hplatform)|].
    split; apply kwarg_lookup; reflexivity.
  - exists (id_query c game_id).
    split; [exact (search_by_id_run _ _ _)|].
    split; [apply kwarg_lookup; reflexivity|].
    unfold id_query, _build_params. rewrite dict_lookup_update.
    cbn [rev app dict_lookup]. eval_eqb.
    destruct (user_id c) as [uid|], (user_password c) as [pw|];
      try reflexivity.
    destruct (opt_truthy (Some uid) && opt_truthy (Some pw)); [|reflexivity].
    rewrite dict_lookup_update. reflexivity.
Qed.
End Queries.

Lemma file_hashes_are_of_whole_content_witness :
  let c := new_client "dev" "secret" in
  let w := simple_world [("roms/abc.nes", Regular (list_byte_of_string "abc"))]
             (ok_response "{}") in
  fs w "roms/abc.nes" = Regular (list_byte_of_string "abc") /\
  exists w',
    calculate_file_hashes "roms/abc.nes" c w
    = (Ok ("900150983CD24FB0D6963F7D28E17F72",
           "A9993E364706816ABA3E25717850C26C9CD0D89D",
           "352441C2"), c, w').
Proof.
  intros c w. split; [reflexivity|]. eexists.
  rewrite (file_hashes_are_of_whole_content "roms/abc.nes"
             (list_byte_of_string "abc") c w eq_refl).
  vm_compute. reflexivity.
Defined.

Lemma file_search_sends_fingerprint_witness :
  let rt := table_runtime [("{}", PDict [])] in
  let c := new_client "dev" "secret" in
  let w := simple_world [("roms/abc.nes", Regular (list_byte_of_string "abc"))]
             (ok_response "{}") in
  dict_lookup "nes" PLATFORMS = Some 3 /\
  fs w "roms/abc.nes" = Regular (list_byte_of_string "abc") /\
  exists params,
    dict_lookup "md5" params = Some "900150983CD24FB0D6963F7D28E17F72" /\
    dict_lookup "romtaille" params = Some "3" /\
    dict_lookup "romnom" params = Some "abc.nes".
Proof.
  intros rt c w. split; [reflexivity|]. split; [reflexivity|].
  destruct (@file_search_sends_fingerprint rt "roms/abc.nes" "nes" (Some "") 3
              (list_byte_of_string "abc") c w eq_refl eq_refl)
    as (params & _ & Hmd5 & _ & _ & Hsize & _ & _ & Hname).
  exists params. split; [rewrite Hmd5; vm_compute; reflexivity|].
  split; [rewrite Hsize; reflexivity | rewrite Hname; reflexivity].
Defined.

Lemma name_search_sends_name_and_platform_witness :
  let rt := table_runtime [("{}", PDict [])] in
  let c := new_client "dev" "secret" in
  let w := simple_world [] (ok_response "{}") in
  dict_lookup "snes" PLATFORMS = Some 4 /\
  exists params,
    search_by_name "Zelda" "snes" c w
    = game_or_none (_make_request "jeuInfos.php" params c w) /\
    dict_lookup "recherche" params = Some "Zelda" /\
    dict_lookup "systemeid" params = Some "4".
Proof.
  intros rt c w. split; [reflexivity|].
  exact (proj1 (@name_search_sends_name_and_platform rt "Zelda" "snes" "" 4 c w eq_refl)).
Defined.

(** *** More of the mapper *)

Section MapperFields.
Context `{Runtime}.

(** X11. The release date of a parsed record is the text of the first date
    entry whose region is wor or us, whichever comes first in the list,
    else the text of the first entry, else the empty string. Players,
    rating and system are the [text] of the objects [joueurs], [note] and
    [systeme], the empty string when the object has none. The identifier is
    [str()] of the node's [id]. *)
Theorem release_date_and_plain_fields_selected
    (self : ScreenScraperClient) (data : pyval) (g : GameInfo) :
  _parse_game_data self data = Ok g ->
  (forall entries,
      py_get (raw_data g) "dates" (PList []) = Ok (PList (map PDict entries)) ->
      release_date g = select_release entries) /\
  (forall e, py_get (raw_data g) "joueurs" (PDict []) = Ok (PDict e) ->
             players g = entry_text e) /\
  (forall e, py_get (raw_data g) "note" (PDict []) = Ok (PDict e) ->
             rating g = entry_text e) /\
  (forall e, py_get (raw_data g) "systeme" (PDict []) = Ok (PDict e) ->
             system g = entry_text e) /\
  (forall v, py_get (raw_data g) "id" (PStr "") = Ok v -> id g = py_str v).
Proof.
  intros Hrun. apply parse_ok_inv in Hrun.
  destruct (p_release_date _ _ _ Hrun) as (v1 & Hget1 & Hsel1).
  destruct (p_players _ _ _ Hrun) as (v2 & Hget2 & Hsel2).
  destruct (p_rating _ _ _ Hrun) as (v3 & Hget3 & Hsel3).
  destruct (p_system _ _ _ Hrun) as (v4 & Hget4 & Hsel4).
  destruct (p_id _ _ _ Hrun) as (v5 & Hget5 & Hsel5).
  repeat split.
  - intros entries Hentries. rewrite Hget1 in Hentries. injection Hentries as ->.
    rewrite get_release_date_spec in Hsel1. now injection Hsel1.
  - intros e He. rewrite Hget2 in He. injection He as ->.
    cbn [py_get] in Hsel2. unfold entry_text. now injection Hsel2.
  - intros e He. rewrite Hget3 in He. injection He as ->.
    cbn [py_get] in Hsel3. unfold entry_text. now injection Hsel3.
  - intros e He. rewrite Hget4 in He. injection He as ->.
    cbn [py_get] in Hsel4. unfold entry_text. now injection Hsel4.
  - intros v Hv. rewrite Hget5 in Hv. injection Hv as ->. exact Hsel5.
Qed.

(** X12. Of the client, the mapper reads the language and nothing else: two
    clients with the same language map a response tree to the same record
    or the same exception. *)
Theorem mapper_reads_only_language
    (c1 c2 : ScreenScraperClient) (data : pyval) :
  language c1 = language c2 ->
  _parse_game_data c1 data = _parse_game_data c2 data.
Proof.
  intros Hlanguage.
  unfold _parse_game_data, _get_localized_text, _get_text_from_list,
    _get_release_date.
  rewrite Hlanguage. reflexivity.
Qed.

Lemma localized_text_of_object (self : ScreenScraperClient)
    (obj : list (string * pyval)) :
  obj <> [] ->
  _get_localized_text self (PDict obj)
  = raise_ AttributeError "'str' object has no attribute 'get'".
Proof.
  destruct obj as [|[k v] rest]; [congruence|]. intros _. reflexivity.
Qed.

Lemma text_from_list_of_object (self : ScreenScraperClient)
    (obj : list (string * pyval)) :
  obj <> [] ->
  _get_text_from_list self (PDict obj) = raise_ KeyError "0".
Proof.
  destruct obj as [|[k v] rest]; [congruence|]. intros _. reflexivity.
Qed.

Lemma release_date_of_object (self : ScreenScraperClient)
    (obj : list (string * pyval)) :
  obj <> [] ->
  _get_release_date self (PDict obj)
  = raise_ AttributeError "'str' object has no attribute 'get'".
Proof.
  destruct obj as [|[k v] rest]; [congruence|]. intros _. reflexivity.
Qed.

Lemma parse_with_game_node (self : ScreenScraperClient) (data jeu : pyval) (e : exn) :
  game_node data = Some jeu ->
  _parse_game_data self data = Raise e ->
  typing_error e.
Proof.
  intros Hnode Hrun.
  destruct (parse_other_failures self data e Hrun) as [Hclass | Htyping];
    [| exact Htyping].
  exfalso.
  rewrite (parse_at_game_node self data jeu Hnode) in Hrun.
  assert (Hex : exists e, _parse_game_data self
                            (PDict [("response", PDict [("jeu", jeu)])]) = Raise e /\
                          exn_class e = GameNotFoundError)
    by (exists e; split; assumption).
  apply parse_not_found_iff in Hex.
  destruct Hex as [Hlacks | (response & _ & Hresponse & Hjeu)].
  - discriminate Hlacks.
  - cbn in Hresponse. injection Hresponse as <-. discriminate Hjeu.
Qed.

(** X13. A text field of the game node that is a non-empty object where the
    mapper takes a list makes it fail: [_get_text_from_list] asks the
    object for key 0 and raises [KeyError]; [_get_localized_text] and
    [_get_release_date] loop over its keys, strings without [get], and
    raise [AttributeError]. The mapper then raises a typing error and
    returns no record, whatever the other fields hold. *)
Theorem object_valued_text_field_is_rejected
    (self : ScreenScraperClient) (data : pyval) (kvs obj : list (string * pyval))
    (k : string) :
  game_node data = Some (PDict kvs) ->
  In k ["noms"; "synopsis"; "editeur"; "developpeur"; "dates"; "genres"] ->
  dict_lookup k kvs = Some (PDict obj) ->
  obj <> [] ->
  (exists e, _parse_game_data self data = Raise e /\ typing_error e) /\
  _get_text_from_list self (PDict obj) = raise_ KeyError "0" /\
  _get_localized_text self (PDict obj)
  = raise_ AttributeError "'str' object has no attribute 'get'" /\
  _get_release_date self (PDict obj)
  = raise_ AttributeError "'str' object has no attribute 'get'".
Proof.
  intros Hnode Hk Hfield Hobj.
  split; [| split; [now apply text_from_list_of_object |
                    split; [now apply localized_text_of_object
                           | now apply release_date_of_object]]].
  destruct (_parse_game_data self data) as [g|e] eqn:Hrun.
  - exfalso.
    assert (Hraw : raw_data g = PDict kvs).
    { rewrite (parse_at_game_node self data _ Hnode) in Hrun.
      exact (parse_wrapped_inv _ _ _ Hrun). }
    apply parse_ok_inv in Hrun.
    destruct (p_name _ _ _ Hrun) as (v1 & Hget1 & Hsel1).
    destruct (p_description _ _ _ Hrun) as (v2 & Hget2 & Hsel2).
    destruct (p_publisher _ _ _ Hrun) as (v3 & Hget3 & Hsel3).
    destruct (p_developer _ _ _ Hrun) as (v4 & Hget4 & Hsel4).
    destruct (p_release_date _ _ _ Hrun) as (v5 & Hget5 & Hsel5).
    destruct (p_genre _ _ _ Hrun) as (v6 & Hget6 & Hsel6).
    rewrite Hraw in Hget1, Hget2, Hget3, Hget4, Hget5, Hget6.
    cbn [py_get] in Hget1, Hget2, Hget3, Hget4, Hget5, Hget6.
    cbn [In] in Hk.
    destruct Hk as [<- | [<- | [<- | [<- | [<- | [<- | []]]]]]];
      rewrite Hfield in *.
    + injection Hget1 as <-.
      rewrite (localized_text_of_object _ _ Hobj) in Hsel1. discriminate Hsel1.
    + injection Hget2 as <-.
      rewrite (localized_text_of_object _ _ Hobj) in Hsel2. discriminate Hsel2.
    + injection Hget3 as <-.
      rewrite (text_from_list_of_object _ _ Hobj) in Hsel3. discriminate Hsel3.
    + injection Hget4 as <-.
      rewrite (text_from_list_of_object _ _ Hobj) in Hsel4. discriminate Hsel4.
    + injection Hget5 as <-.
      rewrite (release_date_of_object _ _ Hobj) in Hsel5. discriminate Hsel5.
    + injection Hget6 as <-.
      rewrite (text_from_list_of_object _ _ Hobj) in Hsel6. discriminate Hsel6.
  - exists e. split; [reflexivity|].
    exact (parse_with_game_node self data _ e Hnode Hrun).
Qed.
End MapperFields.

Lemma release_date_and_plain_fields_selected_witness :
  let rt := table_runtime [] in
  let self := new_client "dev" "secret" in
  let jeu := PDict [ ("id", PInt 1234);
                     ("dates", PList [ PDict [("region", PStr "jp"); ("text", PStr "1985-09-13")];
                                       PDict [("region", PStr "us"); ("text", PStr "1985-10-18")];
                                       PDict [("region", PStr "wor"); ("text", PStr "1987")] ]);
                     ("joueurs", PDict [("text", PStr "1-2")]) ] in
  exists g,
    _parse_game_data self (response_with jeu) = Ok g /\
    release_date g = PStr "1985-10-18" /\
    players g = PStr "1-2" /\
    id g = "1234".
Proof.
  intros rt self jeu. eexists. split; [reflexivity|].
  pose proof (@release_date_and_plain_fields_selected rt self (response_with jeu) _ eq_refl)
    as (Hdate & Hplayers & _ & _ & Hid).
  split; [| split].
  - exact (Hdate [ [("region", PStr "jp"); ("text", PStr "1985-09-13")];
                   [("region", PStr "us"); ("text", PStr "1985-10-18")];
                   [("region", PStr "wor"); ("text", PStr "1987")] ] eq_refl).
  - exact (Hplayers [("text", PStr "1-2")] eq_refl).
  - exact (Hid (PInt 1234) eq_refl).
Defined.

Lemma mapper_reads_only_language_witness :
  let rt := table_runtime [] in
  let c1 := new_client "dev" "secret" in
  let c2 := __init__ "other" "key" "tool" (Some "alice") (Some "pw") "en" 5 2%float in
  language c1 = language c2 /\
  _parse_game_data c1 (response_with mario_jeu)
  = _parse_game_data c2 (response_with mario_jeu).
Proof.
  intros rt c1 c2. split; [reflexivity|].
  exact (@mapper_reads_only_language rt c1 c2 (response_with mario_jeu) eq_refl).
Defined.

Lemma object_valued_text_field_is_rejected_witness :
  let rt := table_runtime [] in
  let self := new_client "dev" "secret" in
  let kvs := [ ("id", PStr "1");
               ("noms", PList [text_entry "en" "Mario"]);
               ("editeur", PDict [("id", PStr "3"); ("text", PStr "Nintendo")]) ] in
  game_node (response_with (PDict kvs)) = Some (PDict kvs) /\
  exists e,
    _parse_game_data self (response_with (PDict kvs)) = Raise e /\
    e = mk_exn KeyError "0" /\
    typing_error e.
Proof.
  intros rt self kvs. split; [reflexivity|].
  destruct (@object_valued_text_field_is_rejected rt self (response_with (PDict kvs))
              kvs [("id", PStr "3"); ("text", PStr "Nintendo")] "editeur"
              eq_refl (or_intror (or_intror (or_introl eq_refl))) eq_refl
              ltac:(discriminate))
    as ((e & Hrun & Htyping) & _).
  exists e. split; [exact Hrun|]. split; [| exact Htyping].
  vm_compute in Hrun. now injection Hrun as <-.
Defined.

(** *** Best media, whatever the regions hold *)

Section BestMediaOutcomes.
Context `{Runtime}.

Lemma first_in_region_outcomes (region : string) (candidates : list GameMedia) :
  match first_in_region region candidates with
  | Ok (Some m) => In m candidates
  | Ok None => True
  | Raise e =>
      exn_class e = AttributeError /\
      exists m, In m candidates /\ forall r, Model.region m <> PStr r
  end.
Proof.
  induction candidates as [|media rest IH]; [exact I|].
  cbn [first_in_region].
  destruct (Model.region media) as [| b | n | f | r | xs | kvs] eqn:Hregion;
    cbn [py_lower bind];
    try (split; [reflexivity|]; exists media; split; [now left|];
         intros r Hr; rewrite Hregion in Hr; discriminate Hr).
  destruct (String.eqb (str_lower r) (str_lower region)); [now left|].
  destruct (first_in_region region rest) as [[m|]|e].
  - now right.
  - exact I.
  - destruct IH as (Hclass & m & Hin & Hm). split; [exact Hclass|].
    exists m. split; [now right | exact Hm].
Qed.

Lemma scan_regions_outcomes (prefs : list string) (candidates : list GameMedia) :
  match scan_regions prefs candidates with
  | Ok (Some m) => In m candidates
  | Ok None => True
  | Raise e =>
      exn_class e = AttributeError /\ prefs <> [] /\
      exists m, In m candidates /\ forall r, Model.region m <> PStr r
  end.
Proof.
  induction prefs as [|p prefs IH]; [exact I|].
  cbn [scan_regions].
  pose proof (first_in_region_outcomes p candidates) as Hfirst.
  destruct (first_in_region p candidates) as [[m|]|e]; cbn [bind].
  - exact Hfirst.
  - destruct (scan_regions prefs candidates) as [[m|]|e].
    + exact IH.
    + exact I.
    + destruct IH as (Hclass & _ & Hm). split; [exact Hclass|].
      split; [discriminate | exact Hm].
  - destruct Hfirst as (Hclass & Hm). split; [exact Hclass|].
    split; [discriminate | exact Hm].
Qed.

(** X14. Whatever the record holds, [get_best_media] has three outcomes. A
    media it returns is one of the record's, of the type asked for. It
    returns None exactly when the record has no media of that type. It
    raises only [AttributeError], and only when preferences are left to
    compare and a media of that type has a region that is not a string.
    With an empty list of preferences it returns the first media of the
    type and looks at no region. *)
Theorem best_media_outcomes
    (self : GameInfo) (media_type : string)
    (preferred_regions : option (list string)) :
  match get_best_media self media_type preferred_regions with
  | Ok (Some m) =>
      In m (media self) /\ eq_str (Model.media_type m) media_type = true
  | Ok None =>
      forall m, In m (media self) ->
                eq_str (Model.media_type m) media_type = false
  | Raise e =>
      exn_class e = AttributeError /\
      preferred_regions <> Some [] /\
      exists m, In m (get_media_by_type self media_type) /\
                forall r, Model.region m <> PStr r
  end /\
  get_best_media self media_type (Some [])
  = Ok (hd_error (get_media_by_type self media_type)).
Proof.
  split.
  - unfold get_best_media.
    destruct (get_media_by_type self media_type) as [|first rest] eqn:Hcands.
    + intros m Hin.
      destruct (eq_str (Model.media_type m) media_type) eqn:Htype; [|reflexivity].
      exfalso.
      assert (Hm : In m (get_media_by_type self media_type)).
      { unfold get_media_by_type. apply filter_In. split; assumption. }
      rewrite Hcands in Hm. exact Hm.
    + assert (Hsub : forall m, In m (first :: rest) ->
                               In m (media self) /\
                               eq_str (Model.media_type m) media_type = true).
      { intros m Hm. rewrite <- Hcands in Hm. unfold get_media_by_type in Hm.
        apply filter_In in Hm. exact Hm. }
      set (prefs := match preferred_regions with
                    | Some l => l
                    | None => default_regions
                    end).
      pose proof (scan_regions_outcomes prefs (first :: rest)) as Hscan.
      destruct (scan_regions prefs (first :: rest)) as [[m|]|e]; cbn [bind].
      * apply Hsub. exact Hscan.
      * apply Hsub. now left.
      * destruct Hscan as (Hclass & Hprefs & Hm). split; [exact Hclass|].
        split; [| exact Hm].
        intros ->. apply Hprefs. reflexivity.
  - unfold get_best_media.
    destruct (get_media_by_type self media_type); reflexivity.
Qed.
End BestMediaOutcomes.

Example null_region_breaks_best_media :
  let rt := table_runtime [] in
  let g := mk_GameInfo "1" (PStr "Mario") (PStr "") (PStr "") (PStr "") (PStr "")
             (PStr "") (PStr "") (PStr "") (PStr "")
             [mk_GameMedia (PStr "box-2D") (PStr "http://media/a.png") (PStr "png")
                PNone (PStr "")]
             (PDict []) in
  get_best_media g "box-2D" None
  = raise_ AttributeError "'NoneType' object has no attribute 'lower'" /\
  exists m, get_best_media g "box-2D" (Some []) = Ok (Some m).
Proof. split; [reflexivity | eexists; reflexivity]. Qed.

(** *** The record and the tree it came from *)

Section RawData.
Context `{Runtime}.

Lemma value_size_lookup (k : string) (kvs : list (string * pyval)) (v : pyval) :
  dict_lookup k kvs = Some v -> (value_size v < value_size (PDict kvs))%nat.
Proof.
  cbn [value_size]. induction kvs as [|[k0 v0] rest IH]; [discriminate|].
  cbn [dict_lookup map]. change (list_sum (?x :: ?l)) with (x + list_sum l)%nat.
  destruct (String.eqb k k0).
  - intros Hv. injection Hv as ->. lia.
  - intros Hv. specialize (IH Hv). lia.
Qed.

Lemma game_node_smaller (data jeu : pyval) :
  game_node data = Some jeu -> (value_size jeu < value_size data)%nat.
Proof.
  destruct data as [| | | | | |top]; try discriminate. cbn [game_node].
  destruct (dict_lookup "response" top) as [[| | | | | |response]|] eqn:Htop;
    try discriminate.
  intros Hjeu.
  pose proof (value_size_lookup _ _ _ Htop).
  pose proof (value_size_lookup _ _ _ Hjeu). lia.
Qed.


(** X15. The [raw_data] of a parsed record is the game node [jeu] of the
    response, a proper part of the response tree and never the tree
    itself: the header and the wrapper are not kept. The record is a
    function of that node and the language: parsing the node again,
    wrapped as a response, gives the same record. *)
Theorem raw_data_is_the_game_node
    (self : ScreenScraperClient) (data : pyval) (g : GameInfo) :
  _parse_game_data self data = Ok g ->
  game_node data = Some (raw_data g) /\
  (value_size (raw_data g) < value_size data)%nat /\
  raw_data g <> data /\
  _parse_game_data self (PDict [("response", PDict [("jeu", raw_data g)])]) = Ok g.
Proof.
  intros Hrun. pose proof (parsed_game_node self data g Hrun) as Hnode.
  pose proof (game_node_smaller _ _ Hnode) as Hsize.
  split; [exact Hnode|]. split; [exact Hsize|]. split.
  - intros Heq. rewrite Heq in Hsize. lia.
  - rewrite <- (parse_at_game_node self data _ Hnode). exact Hrun.
Qed.

End RawData.

Lemma raw_data_is_the_game_node_witness :
  let rt := table_runtime [] in
  let self := new_client "dev" "secret" in
  exists g,
    _parse_game_data self (response_with mario_jeu) = Ok g /\
    raw_data g = mario_jeu /\
    raw_data g <> response_with mario_jeu /\
    _parse_game_data self (PDict [("response", PDict [("jeu", mario_jeu)])]) = Ok g.
Proof.
  intros rt self.
  destruct (_parse_game_data self (response_with mario_jeu)) as [g|e] eqn:Hrun;
    [| vm_compute in Hrun; discriminate Hrun].
  destruct (@raw_data_is_the_game_node rt self _ g Hrun)
    as (Hnode & _ & Hdiff & Hagain).
  assert (Hraw : raw_data g = mario_jeu).
  { cbn in Hnode. now injection Hnode. }
  exists g. split; [reflexivity|]. split; [exact Hraw|].
  split; [exact Hdiff|]. rewrite <- Hraw. exact Hagain.
Defined.


(** *** The repair of the body *)

Section Repair.
Context `{Runtime}.

Lemma str_replace_absent (old new s : string) :
  str_contains old s = false -> str_replace old new s = s.
Proof.
  unfold str_replace. induction s as [|c rest IH]; [reflexivity|].
  cbn [str_contains]. intros Habsent.
  apply orb_false_iff in Habsent. destruct Habsent as [Hprefix Hrest].
  cbn [str_replace_from]. rewrite Hprefix. f_equal. exact (IH Hrest).
Qed.

(** No occurrence of the broken closing sequence starts in a text that
    does not hold one and runs over into an occurrence that follows it. *)
Lemma broken_close_no_overlap (a b : string) (c : ascii) :
  str_contains broken_close (String c a) = false ->
  str_prefix broken_close (String c a ++ broken_close ++ b) = false.
Proof.
  unfold broken_close, LF, TAB.
  destruct a as [|c1 [|c2 [|c3 [|c4 [|c5 a6]]]]];
    cbn [str_contains str_prefix String.append ascii_of_nat ascii_of_pos
         ascii_of_N andb orb];
    intros Habsent; revert Habsent;
    repeat match goal with
           | |- context [Ascii.eqb ?x ?y] =>
               is_var y; destruct (Ascii.eqb x y); cbn [andb orb]
           end;
    try reflexivity; discriminate.
Qed.

Lemma repaired_app (a b : string) :
  str_contains broken_close a = false ->
  repaired (a ++ broken_close ++ b) = a ++ fixed_close ++ repaired b.
Proof.
  unfold repaired, str_replace.
  induction a as [|c a IH]; intros Habsent.
  - reflexivity.
  - change (String c a ++ broken_close ++ b)
      with (String c (a ++ broken_close ++ b)).
    cbn [str_replace_from].
    change (String c (a ++ broken_close ++ b))
      with (String c a ++ broken_close ++ b).
    rewrite (broken_close_no_overlap a b c Habsent).
    cbn [String.append]. f_equal. apply IH.
    cbn [str_contains] in Habsent. apply orb_false_iff in Habsent.
    exact (proj2 Habsent).
Qed.

(** X17. The repair takes the comma out of each closing sequence
    [],\n\t\t}] and changes nothing else: around the first occurrence the
    text before it stays, the sequence loses its comma, and the rest is
    repaired in the same way. A body without the sequence is left as it
    is, so the second attempt of [json.loads] reads the same text and a
    body that is not JSON for another reason fails with the message for
    that text, after one request that is not counted. *)
Theorem repair_drops_only_the_comma
    (before rest : string) (endpoint : string) (params : params_t)
    (c : ScreenScraperClient) (w : World) (r : response) :
  str_contains broken_close before = false ->
  repaired (before ++ broken_close ++ rest)
  = before ++ fixed_close ++ repaired rest /\
  repaired before = before /\
  (net w (net_calls w) (BASE_URL ++ "/" ++ endpoint) params = Response r ->
   status_refused r = false ->
   text r = before ->
   json_loads before = None ->
   exists c' w',
     _make_request endpoint params c w
     = (Raise (mk_exn JSONDecodeError (json_error before)), c', w') /\
     request_count c' = request_count c).
Proof.
  intros Habsent.
  split; [exact (repaired_app before rest Habsent)|].
  assert (Hsame : repaired before = before)
    by exact (str_replace_absent _ _ _ Habsent).
  split; [exact Hsame|].
  intros Hanswer Hstatus Htext Hfirst.
  pose proof (make_request_run endpoint params c w) as Hrun. cbv zeta in Hrun.
  rewrite Hanswer, Hstatus, Htext, Hsame, Hfirst in Hrun.
  do 2 eexists. split; [exact Hrun | reflexivity].
Qed.
End Repair.

Example repair_of_a_media_list :
  repaired ("{" ++ String LF (String TAB (String TAB ("[1, 2],"
            ++ String LF (String TAB (String TAB "}}"))))))
  = "{" ++ String LF (String TAB (String TAB ("[1, 2]"
            ++ String LF (String TAB (String TAB "}}"))))).
Proof. reflexivity. Qed.

Lemma repair_drops_only_the_comma_witness :
  let rt := table_runtime [] in
  let c := new_client "dev" "secret" in
  let w := simple_world [] (ok_response "<html>") in
  str_contains broken_close "<html>" = false /\
  repaired ("<html>" ++ broken_close ++ "") = "<html>" ++ fixed_close /\
  exists c' w',
    _make_request "jeuInfos.php" [] c w
    = (Raise (mk_exn JSONDecodeError "Expecting value: line 1 column 1 (char 0)"),
       c', w') /\
    request_count c' = 0.
Proof.
  intros rt c w. split; [reflexivity|].
  destruct (@repair_drops_only_the_comma rt "<html>" "" "jeuInfos.php" [] c w
              (mk_response 200 "OK" "https://www.screenscraper.fr/api2/jeuInfos.php"
                 "<html>") eq_refl)
    as (Hrepair & _ & Hrun).
  split; [exact Hrepair|].
  exact (Hrun eq_refl eq_refl eq_refl eq_refl).
Defined.

(** *** The stamp of the rate limiter *)

Section Stamp.
Context `{Runtime}.

(** X18. A request measures the time since the last stamp with its first
    reading of the clock, sleeps for the rest of the delay when less than
    the delay has passed, and stamps its second reading, before the GET is
    sent and whatever the outcome. The next request through the client so
    measures from that reading, with the clock's answers that follow. *)
Theorem request_waits_for_remainder
    (endpoint : string) (params : params_t) (c : ScreenScraperClient) (w : World)
    (res : result pyval) (c' : ScreenScraperClient) (w' : World) :
  _make_request endpoint params c w = (res, c', w') ->
  let elapsed := PrimFloat.sub (clock w (clock_reads w)) (last_request_time c) in
  let sleeps := if PrimFloat.ltb elapsed (request_delay c)
                then [EvSleep (PrimFloat.sub (request_delay c) elapsed)]
                else [] in
  last_request_time c' = clock w (S (clock_reads w)) /\
  request_delay c' = request_delay c /\
  clock w' = clock w /\
  clock_reads w' = S (S (clock_reads w)) /\
  (exists later,
      trace w' = (trace w ++ sleeps
                  ++ EvGet (BASE_URL ++ "/" ++ endpoint) params 30 :: later)%list) /\
  (forall endpoint2 params2 res2 c2 w2,
      _make_request endpoint2 params2 c' w' = (res2, c2, w2) ->
      let elapsed2 := PrimFloat.sub (clock w (S (S (clock_reads w))))
                        (clock w (S (clock_reads w))) in
      exists later2,
        trace w2 = (trace w'
                    ++ (if PrimFloat.ltb elapsed2 (request_delay c)
                        then [EvSleep (PrimFloat.sub (request_delay c) elapsed2)]
                        else [])
                    ++ EvGet (BASE_URL ++ "/" ++ endpoint2) params2 30 :: later2)%list).
Proof.
  assert (Hone : forall endpoint params c w res c' w',
             _make_request endpoint params c w = (res, c', w') ->
             last_request_time c' = clock w (S (clock_reads w)) /\
             request_delay c' = request_delay c /\
             clock w' = clock w /\
             clock_reads w' = S (S (clock_reads w)) /\
             exists later,
               trace w' =
               (trace w
                ++ (if PrimFloat.ltb
                         (PrimFloat.sub (clock w (clock_reads w)) (last_request_time c))
                         (request_delay c)
                    then [EvSleep (PrimFloat.sub (request_delay c)
                                     (PrimFloat.sub (clock w (clock_reads w))
                                        (last_request_time c)))]
                    else [])
                ++ EvGet (BASE_URL ++ "/" ++ endpoint) params 30 :: later)%list).
  { clear. intros endpoint params c w res c' w' Hrun.
    pose proof (make_request_run endpoint params c w) as Hcases.
    cbv zeta in Hcases.
    destruct (net w (net_calls w) (BASE_URL ++ "/" ++ endpoint) params) as [msg | r];
      [| destruct (status_refused r);
         [| destruct (json_loads (text r));
            [| destruct (json_loads (repaired (text r)))]]];
      rewrite Hcases in Hrun; injection Hrun as _ <- <-;
      (repeat split; try reflexivity);
      eexists; unfold emits, requested, rate_limited;
      cbn [snd trace clock net fs clock_reads net_calls];
      rewrite <- ?app_assoc; cbn [app]; reflexivity. }
  intros Hrun elapsed sleeps.
  destruct (Hone _ _ _ _ _ _ _ Hrun) as (Hstamp & Hdelay & Hclock & Hreads & Htrace).
  repeat (split; [assumption|]).
  intros endpoint2 params2 res2 c2 w2 Hrun2 elapsed2.
  destruct (Hone _ _ _ _ _ _ _ Hrun2) as (_ & _ & _ & _ & later2 & Htrace2).
  exists later2. rewrite Htrace2. subst elapsed2.
  rewrite Hstamp, Hdelay, Hclock, Hreads. reflexivity.
Qed.
End Stamp.

Lemma request_waits_for_remainder_witness :
  let rt := table_runtime [("{}", PDict [])] in
  let c := new_client "dev" "secret" in
  let w := mk_World (fun n => match n with
                              | 0%nat => 0.25%float
                              | _ => 2%float
                              end)
             (fun _ _ _ => ok_response "{}") (fun _ => Absent) 0 0 [] in
  exists res c' w' later,
    _make_request "jeuInfos.php" [] c w = (res, c', w') /\
    last_request_time c' = 2%float /\
    trace w' = (EvSleep 0.75%float
                :: EvGet (BASE_URL ++ "/" ++ "jeuInfos.php") [] 30 :: later)%list.
Proof.
  intros rt c w.
  destruct (_make_request "jeuInfos.php" [] c w) as [[res c'] w'] eqn:Hrun.
  destruct (@request_waits_for_remainder rt "jeuInfos.php" [] c w res c' w' Hrun)
    as (Hstamp & _ & _ & _ & (later & Htrace) & _).
  exists res, c', w', later. split; [reflexivity|].
  split; [exact Hstamp | exact Htrace].
Defined.

(* ===================================================================== *)
(** ** Downloads                                                          *)
(* ===================================================================== *)

Import Download Shelf.

(** *** One download *)

Section OneDownload.
Context `{Runtime} `{Host}.
Local Open Scope io_scope.

Lemma moment_emit (e : io_event) (d : Disk) : moment (io_emit e d) = S (moment d).
Proof. unfold moment, io_emit. cbn [io_trace]. rewrite length_app. cbn. lia. Qed.

Lemma same_oracles_refl (d : Disk) : same_oracles d d.
Proof. repeat split. Qed.

Lemma same_oracles_trans (d1 d2 d3 : Disk) :
  same_oracles d1 d2 -> same_oracles d2 d3 -> same_oracles d1 d3.
Proof.
  intros (A1 & A2 & A3 & A4) (B1 & B2 & B3 & B4).
  repeat split; congruence.
Qed.

Lemma stores_same (d d' : Disk) (path : string) (content : list byte) :
  files d' = files d ->
  dict_lookup path (files d) = Some content -> stores d d' path content.
Proof.
  intros Hfiles Hpath p. rewrite Hfiles.
  destruct (String.eqb p path) eqn:Hp; [|reflexivity].
  apply String.eqb_eq in Hp. now subst p.
Qed.

(** The loop over the chunks: it takes the chunks [write] accepts, and
    stops at the first write that raises, or at the end of the stream. *)
Lemma write_chunks_run (path : string) (broken : option exn)
    (chunks : list (list byte)) :
  forall (d : Disk) (content : list byte),
    dict_lookup path (files d) = Some content ->
    let k := writes_done (fun t => write_error d t path) (moment d) chunks in
    exists res d',
      write_chunks path chunks broken d = (res, d') /\
      same_oracles d d' /\
      stores d d' path (content ++ List.concat (firstn k chunks)) /\
      io_trace d'
      = (io_trace d ++ map (IoWrite path)
                         (firstn (if (k <? List.length chunks)%nat then S k else k)
                                 chunks))%list /\
      res = (if (k <? List.length chunks)%nat
             then match write_error d (moment d + k) path with
                  | Some e => Raise e
                  | None => Ok tt
                  end
             else match broken with
                  | Some e => Raise e
                  | None => Ok tt
                  end) /\
      ((k <? List.length chunks)%nat = true ->
       exists e, write_error d (moment d + k) path = Some e).
Proof.
  induction chunks as [|chunk rest IH]; intros d content Hpath k.
  - subst k. cbn [writes_done write_chunks firstn List.concat List.length map].
    exists (match broken with Some e => Raise e | None => Ok tt end), d.
    split; [destruct broken; reflexivity|].
    split; [apply same_oracles_refl|].
    split; [rewrite app_nil_r; now apply stores_same|].
    split; [now rewrite app_nil_r|]. split; [reflexivity | discriminate].
  - subst k. cbn [writes_done write_chunks]. unfold dbind at 1. unfold write at 1.
    destruct (write_error d (moment d) path) as [e|] eqn:Herr.
    + exists (Raise e), (io_emit (IoWrite path chunk) d).
      split; [reflexivity|]. split; [repeat split|].
      cbn [firstn List.concat]. rewrite app_nil_r.
      split; [now apply stores_same|].
      split; [reflexivity|].
      rewrite Nat.add_0_r, Herr. split; [reflexivity|].
      intros _. now exists e.
    + set (d1 := set_files
                   (dict_set path (content ++ chunk)%list
                      (files (io_emit (IoWrite path chunk) d)))
                   (io_emit (IoWrite path chunk) d)).
      assert (Hlook : dict_lookup path (files (io_emit (IoWrite path chunk) d))
                      = Some content) by exact Hpath.
      rewrite Hlook. fold d1.
      assert (Hpath1 : dict_lookup path (files d1) = Some (content ++ chunk)%list).
      { unfold d1. cbn [files set_files]. rewrite dict_lookup_set.
        now rewrite String.eqb_refl. }
      assert (Hmoment : moment d1 = S (moment d)) by apply moment_emit.
      destruct (IH d1 _ Hpath1) as (res & d' & Hrun & Horacles & Hstores & Htrace
                                    & Hres & Hfail).
      change (write_error d1) with (write_error d) in *.
      rewrite Hmoment in *.
      set (k := writes_done (fun t => write_error d t path) (S (moment d)) rest) in *.
      exists res, d'. split; [exact Hrun|].
      split; [exact Horacles|].
      split.
      { intros p. rewrite (Hstores p). cbn [firstn List.concat].
        rewrite <- !app_assoc.
        destruct (String.eqb p path) eqn:Hp; [reflexivity|].
        unfold d1. cbn [files set_files io_emit]. rewrite dict_lookup_set, Hp.
        reflexivity. }
      change (S k <? List.length (chunk :: rest))%nat with (k <? List.length rest)%nat.
      replace (moment d + S k)%nat with (S (moment d) + k)%nat by lia.
      split.
      { rewrite Htrace. unfold d1. cbn [io_trace set_files io_emit].
        rewrite <- app_assoc.
        destruct (k <? List.length rest)%nat; reflexivity. }
      split; [exact Hres | exact Hfail].
Qed.

Lemma every_class_is_an_exception (e : exn) :
  issubclass (exn_class e) Exception = true.
Proof. destruct e as [cls msg]. destruct cls; reflexivity. Qed.

Lemma writes_done_bound (errs : nat -> option exn) (chunks : list (list byte)) :
  forall t, (writes_done errs t chunks <= List.length chunks)%nat.
Proof.
  induction chunks as [|chunk rest IH]; intros t; cbn [writes_done List.length];
    [lia|].
  destruct (errs t); [lia|]. specialize (IH (S t)). lia.
Qed.

(** Every run of [download]: either it stops before the file is opened
    and leaves the files as they were, or it opens the file and leaves in
    it the chunks written. *)
Lemma download_cases (self : GameMedia) (save_path : string) (d : Disk) :
  match reaches_file d (url self) save_path (path_parent save_path) with
  | None =>
      exists d' later,
        download self save_path d = (Ok false, d') /\
        same_oracles d d' /\
        files d' = files d /\
        io_trace d' = (io_trace d ++ IoGet (url self) :: later)%list /\
        Forall (for_file save_path (path_parent save_path)) later
  | Some (chunks, broken) =>
      let k := writes_done (fun t => write_error d t save_path)
                 (S (S (S (moment d)))) chunks in
      exists d' message,
        download self save_path d
        = (Ok ((k =? List.length chunks)%nat && no_stream_error broken), d') /\
        same_oracles d d' /\
        stores d d' save_path (List.concat (firstn k chunks)) /\
        io_trace d'
        = (io_trace d
           ++ [IoGet (url self); IoMkdir (path_parent save_path); IoOpen save_path]
           ++ map (IoWrite save_path)
                  (firstn (if (k <? List.length chunks)%nat then S k else k) chunks)
           ++ [message])%list /\
        message
        = (if (k =? List.length chunks)%nat && no_stream_error broken
           then IoLogInfo ("Downloaded " ++ py_str (media_type self) ++ " to "
                           ++ save_path)
           else IoLogError
                  ("Failed to download " ++ py_str (media_type self) ++ ": "
                   ++ match (if (k <? List.length chunks)%nat
                             then write_error d (S (S (S (moment d))) + k) save_path
                             else broken) with
                      | Some e => exn_msg e
                      | None => ""
                      end))
  end.
Proof.
  assert (Hbody : forall (k : response * list (list byte) * option exn -> D bool)
                         (handler : exn -> D bool),
             dtry (got <- requests_get (url self) ;; k got) Exception handler d
             = match web d (moment d) (url self) with
               | GetRaises e => handler e (io_emit (IoGet (url self)) d)
               | Streams r chunks broken =>
                   match k (r, chunks, broken) (io_emit (IoGet (url self)) d) with
                   | (Raise e, d') => handler e d'
                   | done => done
                   end
               end).
  { intros k handler. unfold dtry, dbind, requests_get.
    destruct (web d (moment d) (url self)) as [e | r chunks broken].
    - now rewrite every_class_is_an_exception.
    - destruct (k (r, chunks, broken) (io_emit (IoGet (url self)) d)) as [[ok|e] d'];
        [reflexivity|].
      now rewrite every_class_is_an_exception. }
  unfold reaches_file.
  remember (download self save_path d) as run eqn:Hrun.
  unfold download in Hrun. rewrite Hbody in Hrun. clear Hbody.
  destruct (web d (moment d) (url self)) as [e | r chunks broken].
  { subst run. do 2 eexists. split; [reflexivity|]. split; [repeat split|].
    split; [reflexivity|]. cbn [io_trace io_emit dbind dlog dret].
    rewrite <- !app_assoc. cbn [app].
    split; [reflexivity|]. repeat constructor. }
  set (d1 := io_emit (IoGet (url self)) d) in *.
  assert (Hm1 : moment d1 = S (moment d)) by apply moment_emit.
  cbv beta iota in Hrun. unfold dbind at 1 in Hrun. unfold dlift at 1 in Hrun.
  destruct (check_status r) as [[]|e].
  2:{ subst run. do 2 eexists. split; [reflexivity|]. split; [repeat split|].
      split; [reflexivity|]. unfold d1. cbn [io_trace io_emit dbind dlog dret].
      rewrite <- !app_assoc. cbn [app].
      split; [reflexivity|]. repeat constructor. }
  unfold dbind at 1 in Hrun. unfold mkdir_parents at 1 in Hrun.
  change (mkdir_error d1) with (mkdir_error d) in Hrun. rewrite Hm1 in Hrun.
  destruct (mkdir_error d (S (moment d)) (path_parent save_path)) as [e|].
  { subst run. do 2 eexists. split; [reflexivity|]. split; [repeat split|].
    split; [reflexivity|]. unfold d1. cbn [io_trace io_emit dbind dlog dret].
    rewrite <- !app_assoc. cbn [app].
    split; [reflexivity|]. repeat constructor. }
  set (d2 := io_emit (IoMkdir (path_parent save_path)) d1) in *.
  assert (Hm2 : moment d2 = S (S (moment d))).
  { unfold d2. now rewrite moment_emit, Hm1. }
  cbv beta iota zeta in Hrun.
  unfold dbind at 1 in Hrun. unfold open_wb at 1 in Hrun.
  change (open_error d2) with (open_error d) in Hrun. rewrite Hm2 in Hrun.
  destruct (open_error d (S (S (moment d))) save_path) as [e|].
  { subst run. do 2 eexists. split; [reflexivity|]. split; [repeat split|].
    split; [reflexivity|]. unfold d2, d1. cbn [io_trace io_emit dbind dlog dret].
    rewrite <- !app_assoc. cbn [app].
    split; [reflexivity|]. repeat constructor. }
  cbv beta iota zeta in Hrun.
  set (d3 := set_files (dict_set save_path [] (files (io_emit (IoOpen save_path) d2)))
               (io_emit (IoOpen save_path) d2)) in *.
  assert (Hm3 : moment d3 = S (S (S (moment d)))).
  { unfold d3. change (moment (set_files ?f ?x)) with (moment x).
    now rewrite moment_emit, Hm2. }
  assert (Hpath3 : dict_lookup save_path (files d3) = Some []).
  { unfold d3. cbn [files set_files]. rewrite dict_lookup_set.
    now rewrite String.eqb_refl. }
  set (k := writes_done (fun t => write_error d t save_path)
              (S (S (S (moment d)))) chunks).
  destruct (write_chunks_run save_path broken chunks d3 [] Hpath3)
    as (res & d4 & Hwrite & Horacles & Hstores & Htrace & Hres & Hfail).
  change (write_error d3) with (write_error d) in *. rewrite Hm3 in *.
  fold k in Hstores, Htrace, Hres, Hfail. cbn [app] in Hstores.
  unfold dbind at 1 in Hrun. rewrite Hwrite in Hrun.
  assert (Hstored : stores d d4 save_path (List.concat (firstn k chunks))).
  { intros p. rewrite (Hstores p).
    destruct (String.eqb p save_path) eqn:Hp; [reflexivity|].
    unfold d3. cbn [files set_files io_emit]. rewrite dict_lookup_set, Hp.
    reflexivity. }
  assert (Hbound : (k <= List.length chunks)%nat) by apply writes_done_bound.
  assert (Htrace3 : io_trace d3
                    = (io_trace d ++ [IoGet (url self);
                                      IoMkdir (path_parent save_path);
                                      IoOpen save_path])%list).
  { unfold d3, d2, d1. cbn [io_trace set_files io_emit].
    rewrite <- !app_assoc. reflexivity. }
  assert (Hor3 : same_oracles d d4).
  { apply (same_oracles_trans d d3 d4); [repeat split | exact Horacles]. }
  destruct (k <? List.length chunks)%nat eqn:Hlt.
  - destruct (Hfail eq_refl) as (e & He). rewrite He in Hres. subst res.
    apply Nat.ltb_lt in Hlt.
    assert (Hneq : (k =? List.length chunks)%nat = false)
      by (apply Nat.eqb_neq; lia).
    rewrite Hneq. cbn [andb]. subst run.
    do 2 eexists. split; [reflexivity|].
    split; [exact Hor3|]. split; [exact Hstored|].
    cbn [dbind dlog dret io_trace io_emit]. rewrite Htrace, Htrace3, He.
    rewrite <- !app_assoc. split; reflexivity.
  - apply Nat.ltb_ge in Hlt.
    assert (Heq : (k =? List.length chunks)%nat = true)
      by (apply Nat.eqb_eq; lia).
    rewrite Heq. cbn [andb]. subst res run.
    destruct broken as [e|]; cbn [no_stream_error].
    + do 2 eexists. split; [reflexivity|].
      split; [exact Hor3|]. split; [exact Hstored|].
      cbn [dbind dlog dret io_trace io_emit]. rewrite Htrace, Htrace3.
      rewrite <- !app_assoc. split; reflexivity.
    + do 2 eexists. split; [reflexivity|].
      split; [exact Hor3|]. split; [exact Hstored|].
      cbn [dbind dlog dret io_trace io_emit]. rewrite Htrace, Htrace3.
      rewrite <- !app_assoc. split; reflexivity.
Qed.
End OneDownload.

Section DownloadOutcomes.
Context `{Runtime} `{Host}.

Lemma reaches_file_inv (d : Disk) (url : pyval) (save_path parent : string)
    (chunks : list (list byte)) (broken : option exn) :
  reaches_file d url save_path parent = Some (chunks, broken) ->
  exists r,
    web d (moment d) url = Streams r chunks broken /\
    check_status r = Ok tt /\
    mkdir_error d (S (moment d)) parent = None /\
    open_error d (S (S (moment d))) save_path = None.
Proof.
  unfold reaches_file.
  destruct (web d (moment d) url) as [e | r chunks' broken']; [discriminate|].
  destruct (check_status r) as [[]|e] eqn:Hstatus; [|discriminate].
  destruct (mkdir_error d (S (moment d)) parent); [discriminate|].
  destruct (open_error d (S (S (moment d))) save_path); [discriminate|].
  intros Heq. injection Heq as -> ->. exists r.
  split; [reflexivity|]. split; [exact Hstatus|]. split; reflexivity.
Qed.

Lemma for_file_writes (path parent : string) (chunks : list (list byte)) :
  Forall (for_file path parent) (map (IoWrite path) chunks).
Proof.
  induction chunks as [|chunk rest IH]; [constructor|].
  constructor; [reflexivity | exact IH].
Qed.

Lemma for_file_no_get (path parent : string) (events : list io_event) :
  Forall (for_file path parent) events ->
  forallb (fun e => negb (is_io_get e)) events = true.
Proof.
  induction 1 as [|e rest He Hrest IH]; [reflexivity|].
  cbn [forallb]. rewrite IH. destruct e; try reflexivity. destruct He.
Qed.

(** What the loop of [download_media] needs of one download. *)
Lemma download_ends (self : GameMedia) (save_path : string) (d : Disk) :
  exists ok d' later,
    download self save_path d = (Ok ok, d') /\
    same_oracles d d' /\
    io_trace d' = (io_trace d ++ IoGet (url self) :: later)%list /\
    Forall (for_file save_path (path_parent save_path)) later /\
    (forall p, p <> save_path ->
               dict_lookup p (files d') = dict_lookup p (files d)).
Proof.
  pose proof (download_cases self save_path d) as Hcases.
  destruct (reaches_file d (url self) save_path (path_parent save_path))
    as [[chunks broken]|].
  - cbv zeta in Hcases.
    destruct Hcases as (d' & message & Hrun & Horacles & Hstores & Htrace & Hmessage).
    do 3 eexists. split; [exact Hrun|]. split; [exact Horacles|].
    split; [rewrite Htrace; cbn [app]; reflexivity|].
    split.
    + constructor; [reflexivity|]. constructor; [reflexivity|].
      apply Forall_app. split; [apply for_file_writes|].
      constructor; [| constructor]. rewrite Hmessage.
      destruct (_ && _); exact I.
    + intros p Hp. rewrite (Hstores p).
      apply String.eqb_neq in Hp. now rewrite Hp.
  - destruct Hcases as (d' & later & Hrun & Horacles & Hfiles & Htrace & Hlater).
    exists false, d', later. split; [exact Hrun|]. split; [exact Horacles|].
    split; [exact Htrace|]. split; [exact Hlater|].
    intros p _. now rewrite Hfiles.
Qed.

(** X19. [download] never raises: whatever the web and the disk do, it returns
    True or False. It sends one GET, for the media's URL and before
    anything else, logs one line at the end, an error exactly when it
    returns False, and touches no file but the one at [save_path]. *)
Theorem download_never_raises
    (self : GameMedia) (save_path : string) (d : Disk) :
  exists ok d' later,
    download self save_path d = (Ok ok, d') /\
    same_oracles d d' /\
    io_trace d' = (io_trace d ++ IoGet (url self) :: later)%list /\
    forallb (fun e => negb (is_io_get e)) later = true /\
    (exists text,
        last later (IoGet (url self))
        = if ok then IoLogInfo text else IoLogError text) /\
    (forall p, p <> save_path ->
               dict_lookup p (files d') = dict_lookup p (files d)).
Proof.
  pose proof (download_cases self save_path d) as Hcases.
  destruct (reaches_file d (url self) save_path (path_parent save_path))
    as [[chunks broken]|] eqn:Hreach.
  - cbv zeta in Hcases.
    destruct Hcases as (d' & message & Hrun & Horacles & Hstores & Htrace & Hmessage).
    do 3 eexists. split; [exact Hrun|]. split; [exact Horacles|].
    split; [rewrite Htrace; cbn [app]; reflexivity|].
    split; [| split].
    + apply (for_file_no_get save_path (path_parent save_path)).
      constructor; [reflexivity|]. constructor; [reflexivity|].
      apply Forall_app. split; [apply for_file_writes|].
      constructor; [| constructor]. rewrite Hmessage.
      destruct (_ && _); exact I.
    + change (IoMkdir (path_parent save_path)
              :: IoOpen save_path
              :: (map (IoWrite save_path) _ ++ [message])%list)
        with (([IoMkdir (path_parent save_path); IoOpen save_path]
               ++ map (IoWrite save_path)
                    (firstn (if (writes_done (fun t => write_error d t save_path)
                                   (S (S (S (moment d)))) chunks
                                 <? List.length chunks)%nat
                             then S (writes_done (fun t => write_error d t save_path)
                                       (S (S (S (moment d)))) chunks)
                             else writes_done (fun t => write_error d t save_path)
                                    (S (S (S (moment d)))) chunks) chunks))
              ++ [message])%list.
      rewrite last_last, Hmessage.
      destruct (_ && _); eexists; reflexivity.
    + intros p Hp. rewrite (Hstores p).
      apply String.eqb_neq in Hp. now rewrite Hp.
  - assert (Hlog : exists d' text,
               download self save_path d = (Ok false, d') /\
               exists before, io_trace d' = (io_trace d ++ IoGet (url self)
                                             :: before ++ [IoLogError text])%list).
    { clear Hcases. unfold reaches_file in Hreach. unfold download.
      unfold dtry, dbind at 1. unfold requests_get.
      destruct (web d (moment d) (url self)) as [e | r chunks broken].
      { rewrite every_class_is_an_exception. do 2 eexists.
        split; [reflexivity|]. exists [].
        cbn [dbind dlog dret io_trace io_emit app].
        rewrite <- app_assoc. reflexivity. }
      cbv beta iota. unfold dbind at 1. unfold dlift at 1.
      destruct (check_status r) as [[]|e].
      2:{ rewrite every_class_is_an_exception. do 2 eexists.
          split; [reflexivity|]. exists [].
          cbn [dbind dlog dret io_trace io_emit app].
          rewrite <- app_assoc. reflexivity. }
      unfold dbind at 1. unfold mkdir_parents at 1.
      rewrite moment_emit. cbn [mkdir_error io_emit].
      destruct (mkdir_error d (S (moment d)) (path_parent save_path)) as [e|].
      { rewrite every_class_is_an_exception. do 2 eexists.
        split; [reflexivity|]. exists [IoMkdir (path_parent save_path)].
        cbn [dbind dlog dret io_trace io_emit app].
        rewrite <- !app_assoc. reflexivity. }
      unfold dbind at 1. unfold open_wb at 1.
      rewrite !moment_emit. cbn [open_error io_emit].
      destruct (open_error d (S (S (moment d))) save_path) as [e|];
        [| discriminate Hreach].
      rewrite every_class_is_an_exception. do 2 eexists.
      split; [reflexivity|].
      exists [IoMkdir (path_parent save_path); IoOpen save_path].
      cbn [dbind dlog dret io_trace io_emit app].
      rewrite <- !app_assoc. reflexivity. }
    destruct Hcases as (d' & later & Hrun & Horacles & Hfiles & Htrace & Hshape).
    pose proof (for_file_no_get _ _ _ Hshape) as Hgets.
    destruct Hlog as (d2 & text & Hrun2 & before & Htrace2).
    rewrite Hrun in Hrun2. injection Hrun2 as <-.
    rewrite Htrace in Htrace2. apply app_inv_head in Htrace2.
    injection Htrace2 as Hlater.
    exists false, d', later. split; [exact Hrun|]. split; [exact Horacles|].
    split; [exact Htrace|]. split; [exact Hgets|].
    split; [exists text; rewrite Hlater; apply last_last|].
    intros p _. now rewrite Hfiles.
Qed.

(** X20. When [download] returns True the web answered the one GET with a
    status that is not refused and a stream that did not break, and the
    file at [save_path] holds the chunks of the stream, in order and
    nothing else, whatever it held before; the other files are as they
    were. The directory was asked for before the file was opened. *)
Theorem download_true_means_stored
    (self : GameMedia) (save_path : string) (d d' : Disk) :
  download self save_path d = (Ok true, d') ->
  exists r chunks,
    web d (moment d) (url self) = Streams r chunks None /\
    check_status r = Ok tt /\
    stores d d' save_path (List.concat chunks) /\
    io_trace d'
    = (io_trace d
       ++ [IoGet (url self); IoMkdir (path_parent save_path); IoOpen save_path]
       ++ map (IoWrite save_path) chunks
       ++ [IoLogInfo ("Downloaded " ++ py_str (media_type self) ++ " to "
                      ++ save_path)])%list.
Proof.
  intros Hrun.
  pose proof (download_cases self save_path d) as Hcases.
  destruct (reaches_file d (url self) save_path (path_parent save_path))
    as [[chunks broken]|] eqn:Hreach.
  - cbv zeta in Hcases.
    destruct Hcases as (d2 & message & Hrun2 & _ & Hstores & Htrace & Hmessage).
    rewrite Hrun in Hrun2. injection Hrun2 as Hok <-.
    symmetry in Hok. apply andb_true_iff in Hok. destruct Hok as [Hk Hbroken].
    apply Nat.eqb_eq in Hk.
    destruct broken as [e|]; [discriminate Hbroken|].
    destruct (reaches_file_inv _ _ _ _ _ _ Hreach) as (r & Hweb & Hstatus & _).
    exists r, chunks. split; [exact Hweb|]. split; [exact Hstatus|].
    rewrite Hk in *. rewrite Nat.ltb_irrefl, Nat.eqb_refl in *.
    rewrite firstn_all in *. cbn [andb no_stream_error] in Hmessage.
    split; [exact Hstores|]. rewrite Htrace, Hmessage. reflexivity.
  - destruct Hcases as (d2 & later & Hrun2 & _).
    rewrite Hrun in Hrun2. discriminate Hrun2.
Qed.

(** X21. A download that returns False either stopped before the file was
    opened, and then the files are as they were, or it had opened the
    file: then the file holds the chunks written before the failure, a
    write that raised or a stream that broke, and no longer what it held
    before. *)
Theorem failed_download_is_not_atomic
    (self : GameMedia) (save_path : string) (d d' : Disk) :
  download self save_path d = (Ok false, d') ->
  (reaches_file d (url self) save_path (path_parent save_path) = None /\
   files d' = files d) \/
  (exists chunks broken k,
      reaches_file d (url self) save_path (path_parent save_path)
      = Some (chunks, broken) /\
      k = writes_done (fun t => write_error d t save_path)
            (S (S (S (moment d)))) chunks /\
      ((k < List.length chunks)%nat \/
       (k = List.length chunks /\ broken <> None)) /\
      stores d d' save_path (List.concat (firstn k chunks))).
Proof.
  intros Hrun.
  pose proof (download_cases self save_path d) as Hcases.
  destruct (reaches_file d (url self) save_path (path_parent save_path))
    as [[chunks broken]|] eqn:Hreach.
  - right. cbv zeta in Hcases.
    destruct Hcases as (d2 & message & Hrun2 & _ & Hstores & _).
    rewrite Hrun in Hrun2. injection Hrun2 as Hok <-.
    exists chunks, broken. eexists. split; [reflexivity|]. split; [reflexivity|].
    split; [| exact Hstores].
    symmetry in Hok. apply andb_false_iff in Hok.
    pose proof (writes_done_bound (fun t => write_error d t save_path) chunks
                  (S (S (S (moment d))))) as Hbound.
    destruct Hok as [Hk | Hbroken].
    + apply Nat.eqb_neq in Hk. left. lia.
    + destruct (Nat.eq_dec
                  (writes_done (fun t => write_error d t save_path)
                     (S (S (S (moment d)))) chunks)
                  (List.length chunks)) as [Heq | Hneq].
      * right. split; [exact Heq|]. destruct broken; [discriminate | discriminate Hbroken].
      * left. lia.
  - left. destruct Hcases as (d2 & later & Hrun2 & _ & Hfiles & _).
    rewrite Hrun in Hrun2. injection Hrun2 as <-.
    split; [reflexivity | exact Hfiles].
Qed.
End DownloadOutcomes.

(** *** The name of the file *)

Section SafeName.
Context `{Runtime} `{Host}.

Lemma append_nil_r (s : string) : s ++ "" = s.
Proof. induction s as [|c s IH]; [reflexivity|]. cbn. now rewrite IH. Qed.

Lemma append_assoc (a b c : string) : (a ++ b) ++ c = a ++ b ++ c.
Proof. induction a as [|x a IH]; [reflexivity|]. cbn. now rewrite IH. Qed.

Lemma concat_cons (c : string) (l : list string) :
  String.concat "" (c :: l) = c ++ String.concat "" l.
Proof.
  destruct l as [|c' l]; cbn [String.concat].
  - now rewrite append_nil_r.
  - reflexivity.
Qed.

Lemma join_kept_chars (l : list string) :
  join_kept (map PStr l) = Ok (String.concat "" (filter keeps_char l)).
Proof.
  induction l as [|c l IH]; [reflexivity|].
  cbn [map join_kept kept bind filter]. rewrite IH. cbn [bind].
  change (str_isalnum c || String.eqb c " " || String.eqb c "-" || String.eqb c "_")
    with (keeps_char c).
  destruct (keeps_char c); [|reflexivity].
  now rewrite concat_cons.
Qed.

Lemma chars_after_continuation (t : string) :
  forall cur rest,
    all_continuation t = true ->
    chars_after cur (t ++ rest) = chars_after (cur ++ t) rest.
Proof.
  induction t as [|b t IH]; intros cur rest Ht.
  - cbn. now rewrite append_nil_r.
  - cbn [all_continuation] in Ht. apply andb_true_iff in Ht.
    destruct Ht as [Hb Ht]. cbn [String.append chars_after]. rewrite Hb.
    rewrite (IH _ _ Ht). rewrite append_assoc. reflexivity.
Qed.

(** Cutting the joined pieces gives the pieces back. *)
Lemma chars_concat (l : list string) :
  Forall (fun c => one_char c = true) l ->
  Forall (fun c => starts_char c = true) (tl l) ->
  chars (String.concat "" l) = l.
Proof.
  induction l as [|c l IH]; intros Hone Hstart; [reflexivity|].
  inversion Hone as [|c0 l0 Hc Hl]; subst.
  rewrite concat_cons.
  destruct c as [|b t]; [discriminate Hc|]. cbn [one_char] in Hc.
  cbn [String.append chars]. rewrite (chars_after_continuation t _ _ Hc).
  cbn [String.append tl] in *.
  destruct l as [|c' l'].
  - reflexivity.
  - inversion Hstart as [|c1 l1 Hc' Hl']; subst.
    assert (IH' : chars (String.concat "" (c' :: l')) = c' :: l').
    { apply IH; [exact Hl|]. cbn [tl].
      clear - Hl'. exact Hl'. }
    rewrite concat_cons in *.
    destruct c' as [|b' t']; [discriminate Hc'|].
    cbn [starts_char] in Hc'. apply negb_true_iff in Hc'.
    cbn [String.append chars chars_after] in *. rewrite Hc'.
    f_equal. exact IH'.
Qed.

Lemma chars_after_shape (s : string) :
  forall cur,
    one_char cur = true ->
    Forall (fun c => one_char c = true) (chars_after cur s) /\
    Forall (fun c => starts_char c = true) (tl (chars_after cur s)).
Proof.
  induction s as [|b s IH]; intros cur Hcur.
  - cbn. split; [constructor; [exact Hcur | constructor] | constructor].
  - cbn [chars_after]. destruct (is_continuation b) eqn:Hb.
    + apply IH. destruct cur as [|x t]; [discriminate Hcur|].
      cbn [one_char String.append] in *.
      clear - Hcur Hb. induction t as [|y t IHt]; cbn in *.
      * now rewrite Hb.
      * apply andb_true_iff in Hcur. destruct Hcur as [Hy Ht].
        rewrite Hy. cbn. now apply IHt.
    + destruct (IH (String b "")) as [Hone Hstart]; [reflexivity|].
      split.
      * constructor; assumption.
      * cbn [tl].
        destruct (chars_after (String b "") s) as [|c l] eqn:Hnext.
        -- constructor.
        -- constructor; [| exact Hstart].
           assert (Hfirst : forall s' cur', exists t l',
                      chars_after cur' s' = (cur' ++ t) :: l').
           { clear. induction s' as [|x s' IHs]; intros cur'.
             - exists "", []. cbn. now rewrite append_nil_r.
             - cbn [chars_after]. destruct (is_continuation x).
               + destruct (IHs (cur' ++ String x "")) as (t & l' & Heq).
                 exists (String x t), l'. rewrite Heq, append_assoc. reflexivity.
               + exists "", (chars_after (String x "") s').
                 now rewrite append_nil_r. }
           destruct (Hfirst s (String b "")) as (t & l' & Heq).
           rewrite Heq in Hnext. injection Hnext as <- _.
           cbn. now rewrite Hb.
Qed.

Lemma chars_shape (s : string) :
  Forall (fun c => one_char c = true) (chars s) /\
  Forall (fun c => starts_char c = true) (tl (chars s)).
Proof.
  destruct s as [|b s]; [split; constructor|].
  apply chars_after_shape. reflexivity.
Qed.

Lemma tl_filter_shape (p : string -> bool) (l : list string) :
  Forall (fun c => starts_char c = true) (tl l) ->
  Forall (fun c => starts_char c = true) (tl (filter p l)).
Proof.
  destruct l as [|c l]; [constructor|]. cbn [tl filter]. intros Hl.
  assert (Hsub : Forall (fun c => starts_char c = true) (filter p l)).
  { apply Forall_forall. intros x Hx. apply filter_In in Hx.
    rewrite Forall_forall in Hl. apply Hl. exact (proj1 Hx). }
  destruct (p c); cbn [tl]; [exact Hsub|].
  destruct (filter p l); [constructor|]. cbn [tl].
  now inversion Hsub.
Qed.

Lemma strip_right_split (l : list string) :
  exists spaces,
    l = (strip_right l ++ spaces)%list /\
    Forall (fun c => isspace c = true) spaces /\
    forall front c, strip_right l = (front ++ [c])%list -> isspace c = false.
Proof.
  induction l as [|c l (spaces & Hsplit & Hspaces & Hlast)].
  - exists []. split; [reflexivity|]. split; [constructor|].
    intros front c Heq. destruct front; discriminate Heq.
  - cbn [strip_right]. destruct (strip_right l) as [|s rest] eqn:Hstrip.
    + destruct (isspace c) eqn:Hc.
      * exists (c :: spaces). cbn [app] in *. subst l.
        split; [reflexivity|]. split; [now constructor|].
        intros front c0 Heq. destruct front; discriminate Heq.
      * exists spaces. cbn [app] in *. subst l.
        split; [reflexivity|]. split; [exact Hspaces|].
        intros front c0 Heq.
        destruct front as [|x [|y front]]; try discriminate Heq.
        now injection Heq as <-.
    + exists spaces. split; [cbn [app] in *; congruence|].
      split; [exact Hspaces|].
      intros front c0 Heq.
      destruct front as [|x front]; [discriminate Heq|].
      injection Heq as _ Heq. exact (Hlast front c0 Heq).
Qed.

Lemma safe_name_text (name : string) :
  safe_name (PStr name)
  = Ok (rstrip (String.concat "" (filter keeps_char (chars name)))).
Proof.
  unfold safe_name, name_items. cbn [bind]. rewrite join_kept_chars. reflexivity.
Qed.

Lemma join_kept_raises (items : list pyval) (e : exn) :
  join_kept items = Raise e -> exn_class e = AttributeError.
Proof.
  revert e. induction items as [|c items IH]; intros e Hrun; [discriminate Hrun|].
  cbn [join_kept] in Hrun.
  destruct (kept c) as [keep|e1] eqn:Hc; cbn [bind] in Hrun.
  - destruct (join_kept items) as [tail|e2]; cbn [bind] in Hrun;
      [discriminate Hrun|].
    injection Hrun as <-. now apply IH.
  - injection Hrun as <-.
    destruct c; cbn in Hc; try discriminate Hc; now injection Hc as <-.
Qed.

Lemma safe_name_raises (name : pyval) (e : exn) :
  safe_name name = Raise e ->
  (exn_class e = TypeError \/ exn_class e = AttributeError) /\
  forall s, name <> PStr s.
Proof.
  intros Hrun. split.
  - revert Hrun. unfold safe_name, name_items.
    destruct name as [| b | n | f | s | xs | kvs]; cbn [py_iter bind];
      try (intros Hrun; injection Hrun as <-; left; reflexivity);
      intros Hrun;
      match type of Hrun with
      | bind (bind ?r _) _ = _ => destruct r as [joined|e1] eqn:Hj
      | bind ?r _ = _ => destruct r as [joined|e1] eqn:Hj
      end; cbn [bind] in Hrun; try discriminate Hrun;
      injection Hrun as <-; right; exact (join_kept_raises _ _ Hj).
  - intros s ->. rewrite safe_name_text in Hrun. discriminate Hrun.
Qed.

Lemma join_kept_stops (front : list string) (x : pyval) (back : list pyval) :
  (forall s, x <> PStr s) ->
  join_kept (map PStr front ++ x :: back)
  = Raise (mk_exn AttributeError
             ("'" ++ type_name x ++ "' object has no attribute 'isalnum'")).
Proof.
  intros Hx. induction front as [|c front IH].
  - cbn [map app join_kept].
    destruct x; try reflexivity. exfalso. exact (Hx _ eq_refl).
  - cbn [map app join_kept kept bind]. rewrite IH. reflexivity.
Qed.

(** X22. For a name that is a str, [safe_name] keeps the characters that are
    alphanumeric or one of space, hyphen and underscore, in order, and
    then drops the whitespace at the end: the result is made of kept
    characters only, what was dropped at the end is whitespace, and the
    result does not end with whitespace. A name of another type does not
    always raise. None, a bool, an int and a float raise [TypeError], as
    they cannot be looped over. A list is joined from its items and a dict
    from its keys, the test applied to each whole item: a list of strs and
    a dict give the kept items joined and stripped, the empty list and the
    empty dict the empty name, and a list raises [AttributeError] at its
    first item that is not a str. No other exception leaves the
    expression. *)
Theorem safe_name_keeps_listed_characters (name : string) :
  let kept_chars := filter keeps_char (chars name) in
  safe_name (PStr name) = Ok (String.concat "" (strip_right kept_chars)) /\
  Forall (fun c => keeps_char c = true) (strip_right kept_chars) /\
  (exists spaces,
      kept_chars = (strip_right kept_chars ++ spaces)%list /\
      Forall (fun c => isspace c = true) spaces) /\
  (forall front c,
      strip_right kept_chars = (front ++ [c])%list -> isspace c = false) /\
  (forall other e,
      safe_name other = Raise e ->
      exn_class e = TypeError \/ exn_class e = AttributeError) /\
  (forall other,
      match other with
      | PStr _ => True
      | PList xs =>
          (forall items,
              xs = map PStr items ->
              safe_name other
              = Ok (rstrip (String.concat "" (filter keeps_char items)))) /\
          (forall front x back,
              xs = (map PStr front ++ x :: back)%list ->
              (forall s, x <> PStr s) ->
              safe_name other
              = Raise (mk_exn AttributeError
                         ("'" ++ type_name x
                          ++ "' object has no attribute 'isalnum'")))
      | PDict kvs =>
          safe_name other
          = Ok (rstrip (String.concat "" (filter keeps_char (dict_keys kvs))))
      | PNone | PBool _ | PInt _ | PFloat _ =>
          safe_name other
          = Raise (mk_exn TypeError
                     ("'" ++ type_name other ++ "' object is not iterable"))
      end) /\
  safe_name (PList []) = Ok "" /\
  safe_name (PDict []) = Ok "".
Proof.
  intros kept_chars.
  destruct (strip_right_split kept_chars) as (spaces & Hsplit & Hspaces & Hlast).
  assert (Hkept : Forall (fun c => keeps_char c = true) kept_chars).
  { apply Forall_forall. intros c Hc. apply filter_In in Hc. exact (proj2 Hc). }
  split; [| split; [| split; [| split; [| split; [| split; [| split]]]]]].
  - rewrite safe_name_text. unfold rstrip.
    fold kept_chars. rewrite chars_concat; [reflexivity | |].
    + apply Forall_forall. intros c Hc. apply filter_In in Hc.
      destruct (chars_shape name) as [Hone _].
      rewrite Forall_forall in Hone. apply Hone. exact (proj1 Hc).
    + apply tl_filter_shape. exact (proj2 (chars_shape name)).
  - rewrite Hsplit in Hkept. apply Forall_app in Hkept. exact (proj1 Hkept).
  - exists spaces. split; assumption.
  - exact Hlast.
  - intros other e Hrun. exact (proj1 (safe_name_raises other e Hrun)).
  - intros other. destruct other as [| b | n | f | s | xs | kvs];
      try reflexivity; try exact I.
    + split.
      * intros items ->. unfold safe_name, name_items. cbn [py_iter bind].
        rewrite join_kept_chars. reflexivity.
      * intros front x back -> Hx. unfold safe_name, name_items.
        cbn [py_iter bind]. rewrite (join_kept_stops _ _ _ Hx). reflexivity.
    + unfold safe_name, name_items. cbn [py_iter bind].
      rewrite join_kept_chars. reflexivity.
  - reflexivity.
  - reflexivity.
Qed.
End SafeName.

Example safe_name_of_a_title :
  @safe_name plain_host (PStr "Super Mario Bros. 3: The Lost/Levels! ")
  = Ok "Super Mario Bros 3 The LostLevels".
Proof. reflexivity. Qed.

Example safe_name_of_other_values :
  @safe_name plain_host (PList [PStr "ab"; PStr "-"; PStr "?"]) = Ok "ab-" /\
  @safe_name plain_host (PDict [("Mario", PInt 1); ("!", PInt 2); ("a b", PNone)])
  = Ok "Mario" /\
  @safe_name plain_host (PList [PStr "a"; PInt 1; PNone])
  = Raise (mk_exn AttributeError "'int' object has no attribute 'isalnum'") /\
  @safe_name plain_host (PInt 7)
  = Raise (mk_exn TypeError "'int' object is not iterable").
Proof. repeat (split; [reflexivity|]). reflexivity. Qed.

(** *** A batch of downloads *)

Section MediaBatch.
Context `{Runtime} `{Host}.
Local Open Scope io_scope.

Lemma best_media_none (game_info : GameInfo) (media_type : string)
    (preferred_regions : option (list string)) :
  get_best_media game_info media_type preferred_regions = Ok None <->
  get_media_by_type game_info media_type = [].
Proof.
  unfold get_best_media.
  destruct (get_media_by_type game_info media_type) as [|first rest].
  - split; reflexivity.
  - split; [| discriminate].
    destruct (scan_regions _ _) as [[m|]|e]; discriminate.
Qed.

Lemma best_media_ok (game_info : GameInfo) (media_type : string)
    (preferred_regions : option (list string)) :
  Forall has_str_region (media game_info) ->
  exists choice,
    get_best_media game_info media_type preferred_regions = Ok choice.
Proof.
  intros Hstr. unfold get_best_media.
  destruct (get_media_by_type game_info media_type) as [|first rest] eqn:Hcands.
  - now exists None.
  - assert (Hcstr : Forall has_str_region (first :: rest)).
    { rewrite <- Hcands. unfold get_media_by_type.
      apply Forall_forall. intros m Hm. apply filter_In in Hm.
      rewrite Forall_forall in Hstr. apply Hstr. exact (proj1 Hm). }
    destruct (scan_regions_spec
                (match preferred_regions with
                 | Some l => l
                 | None => default_regions
                 end) (first :: rest) Hcstr)
      as [[Hscan _] | (earlier & p & later & before & m & after & _ & _ & _ & _ & _ & Hscan)];
      rewrite Hscan; cbn [bind]; eexists; reflexivity.
Qed.

Lemma best_media_raise (game_info : GameInfo) (media_type : string)
    (preferred_regions : option (list string)) (e : exn) :
  get_best_media game_info media_type preferred_regions = Raise e ->
  exn_class e = AttributeError /\
  exists m, In m (media game_info) /\ forall r, region m <> PStr r.
Proof.
  unfold get_best_media.
  destruct (get_media_by_type game_info media_type) as [|first rest] eqn:Hcands;
    [discriminate|].
  pose proof (scan_regions_outcomes
                (match preferred_regions with
                 | Some l => l
                 | None => default_regions
                 end) (first :: rest)) as Hscan.
  destruct (scan_regions _ _) as [[m|]|e0]; cbn [bind]; try discriminate.
  intros Hrun. injection Hrun as <-.
  destruct Hscan as (Hclass & _ & m & Hin & Hregion).
  split; [exact Hclass|]. exists m. split; [| exact Hregion].
  rewrite <- Hcands in Hin. unfold get_media_by_type in Hin.
  apply filter_In in Hin. exact (proj1 Hin).
Qed.

Lemma from_request_more (game_info : GameInfo) (name output_dir : string)
    (preferred_regions : option (list string)) (media_type : string)
    (media_types : list string) (e : io_event) :
  from_request game_info name output_dir preferred_regions media_types e ->
  from_request game_info name output_dir preferred_regions
    (media_type :: media_types) e.
Proof.
  unfold from_request.
  destruct e; try exact (fun x => x);
    intros (t & m & Hin & Hrest); exists t, m; (split; [now right | exact Hrest]).
Qed.

Lemma from_request_of_file (game_info : GameInfo) (name output_dir : string)
    (preferred_regions : option (list string)) (media_type : string)
    (media_types : list string) (m : GameMedia) (e : io_event) :
  get_best_media game_info media_type preferred_regions = Ok (Some m) ->
  for_file (path_join output_dir (file_name name media_type m))
           (path_parent (path_join output_dir (file_name name media_type m))) e ->
  from_request game_info name output_dir preferred_regions
    (media_type :: media_types) e.
Proof.
  intros Hbest He. unfold from_request.
  destruct e; cbn [for_file] in He; try exact I; try contradiction;
    exists media_type, m; (split; [now left|]); (split; [exact Hbest|]); exact He.
Qed.

Lemma no_get_in_file_events (path parent : string) (events : list io_event) :
  Forall (for_file path parent) events -> filter is_io_get events = [].
Proof.
  induction 1 as [|e rest He Hrest IH]; [reflexivity|].
  cbn [filter]. destruct e; cbn [is_io_get]; try exact IH. destruct He.
Qed.

(** The loop of [download_media] when nothing of the record is mistyped:
    it ends, and has an entry for each requested type. *)
Lemma download_each_ok (game_info : GameInfo) (name output_dir : string)
    (preferred_regions : option (list string)) :
  Model.name game_info = PStr name ->
  forall media_types,
    (forall t, In t media_types ->
               exists choice,
                 get_best_media game_info t preferred_regions = Ok choice) ->
    forall results d,
    exists results' d' events,
      download_each game_info output_dir preferred_regions media_types results d
      = (Ok results', d') /\
      same_oracles d d' /\
      io_trace d' = (io_trace d ++ events)%list /\
      Forall (from_request game_info name output_dir preferred_regions media_types)
             events /\
      List.length (filter is_io_get events)
      = List.length (with_media game_info media_types) /\
      (forall t, ~ In t media_types ->
                 dict_lookup t results' = dict_lookup t results) /\
      (forall t, In t media_types ->
                 exists ok, dict_lookup t results' = Some ok /\
                            (get_media_by_type game_info t = [] -> ok = false)).
Proof.
  intros Hname. induction media_types as [|t0 rest IH]; intros Hselect results d.
  - exists results, d, []. split; [reflexivity|]. split; [apply same_oracles_refl|].
    split; [now rewrite app_nil_r|]. split; [constructor|].
    split; [reflexivity|]. split; [reflexivity|]. intros t [].
  - assert (Hrest : forall t, In t rest ->
                              exists choice,
                                get_best_media game_info t preferred_regions
                                = Ok choice).
    { intros t Ht. apply Hselect. now right. }
    destruct (Hselect t0 (or_introl eq_refl)) as (choice & Hbest).
    cbn [download_each]. unfold dbind at 1. unfold dlift at 1. rewrite Hbest.
    destruct choice as [m|].
    + assert (Hcands : get_media_by_type game_info t0 <> []).
      { intros Hnil. apply best_media_none with (preferred_regions := preferred_regions)
          in Hnil. rewrite Hnil in Hbest. discriminate Hbest. }
      unfold dbind at 1. unfold dlift at 1. rewrite Hname, safe_name_text.
      fold (file_name name t0 m).
      set (save_path := path_join output_dir (file_name name t0 m)).
      destruct (download_ends m save_path d)
        as (ok & d1 & later & Hrun & Hor1 & Htrace1 & Hlater & _).
      unfold dbind at 1. rewrite Hrun.
      destruct (IH Hrest (dict_set t0 ok results) d1)
        as (results' & d' & events & Heach & Hor2 & Htrace2 & Hevents & Hcount
            & Hother & Hasked).
      exists results', d', (IoGet (url m) :: later ++ events)%list.
      split; [exact Heach|].
      split; [exact (same_oracles_trans _ _ _ Hor1 Hor2)|].
      split; [rewrite Htrace2, Htrace1, <- app_assoc; reflexivity|].
      split.
      { constructor.
        - exists t0, m. split; [now left|]. split; [exact Hbest | reflexivity].
        - apply Forall_app. split.
          + apply Forall_forall. intros e He. rewrite Forall_forall in Hlater.
            exact (from_request_of_file _ _ _ _ _ _ _ _ Hbest (Hlater e He)).
          + apply Forall_forall. intros e He. rewrite Forall_forall in Hevents.
            apply from_request_more. exact (Hevents e He). }
      split.
      { cbn [filter is_io_get List.length]. rewrite filter_app, length_app.
        rewrite (no_get_in_file_events _ _ _ Hlater). cbn [List.length].
        unfold with_media. cbn [filter].
        destruct (get_media_by_type game_info t0) as [|x xs]; [congruence|].
        cbn [List.length]. f_equal. exact Hcount. }
      split.
      { intros t Ht. rewrite Hother by (intros Hin; apply Ht; now right).
        rewrite dict_lookup_set.
        destruct (String.eqb t t0) eqn:Heq; [|reflexivity].
        apply String.eqb_eq in Heq. exfalso. apply Ht. now left. }
      intros t Ht. destruct (in_dec string_dec t rest) as [Hin | Hout].
      * exact (Hasked t Hin).
      * destruct Ht as [<- | Ht]; [| contradiction].
        exists ok. rewrite (Hother t0 Hout), dict_lookup_set, String.eqb_refl.
        split; [reflexivity | intros Hnil; contradiction].
    + assert (Hcands : get_media_by_type game_info t0 = []).
      { now apply best_media_none in Hbest. }
      unfold dbind at 1. unfold dlog at 1.
      set (d1 := io_emit (IoLogWarning ("No " ++ t0 ++ " media found for "
                                        ++ py_str (Model.name game_info))) d).
      destruct (IH Hrest (dict_set t0 false results) d1)
        as (results' & d' & events & Heach & Hor2 & Htrace2 & Hevents & Hcount
            & Hother & Hasked).
      exists results', d',
        (IoLogWarning ("No " ++ t0 ++ " media found for "
                       ++ py_str (Model.name game_info)) :: events)%list.
      split; [exact Heach|].
      split; [exact (same_oracles_trans d d1 d' (same_oracles_refl d) Hor2)|].
      split; [rewrite Htrace2; unfold d1; cbn [io_trace io_emit];
              rewrite <- app_assoc; reflexivity|].
      split.
      { constructor; [exact I|].
        apply Forall_forall. intros e He. rewrite Forall_forall in Hevents.
        apply from_request_more. exact (Hevents e He). }
      split.
      { cbn [filter is_io_get]. unfold with_media. cbn [filter].
        rewrite Hcands. exact Hcount. }
      split.
      { intros t Ht. rewrite Hother by (intros Hin; apply Ht; now right).
        rewrite dict_lookup_set.
        destruct (String.eqb t t0) eqn:Heq; [|reflexivity].
        apply String.eqb_eq in Heq. exfalso. apply Ht. now left. }
      intros t Ht. destruct (in_dec string_dec t rest) as [Hin | Hout].
      * exact (Hasked t Hin).
      * destruct Ht as [<- | Ht]; [| contradiction].
        exists false. rewrite (Hother t0 Hout), dict_lookup_set, String.eqb_refl.
        split; reflexivity.
Qed.

(** An exception that leaves the loop comes from the record: a region or
    the name is not a str. *)
Lemma download_each_raises (game_info : GameInfo) (output_dir : string)
    (preferred_regions : option (list string)) (e : exn) :
  forall media_types results d d',
    download_each game_info output_dir preferred_regions media_types results d
    = (Raise e, d') ->
    (exn_class e = AttributeError \/ exn_class e = TypeError) /\
    ((exists m, In m (media game_info) /\ forall r, region m <> PStr r) \/
     (forall s, Model.name game_info <> PStr s)).
Proof.
  induction media_types as [|t0 rest IH]; intros results d d' Hrun;
    [discriminate Hrun|].
  cbn [download_each] in Hrun. unfold dbind at 1 in Hrun. unfold dlift at 1 in Hrun.
  destruct (get_best_media game_info t0 preferred_regions) as [[m|]|e0] eqn:Hbest.
  - unfold dbind at 1 in Hrun. unfold dlift at 1 in Hrun.
    destruct (safe_name (Model.name game_info)) as [sn|e1] eqn:Hsafe.
    + destruct (download_ends m
                  (path_join output_dir
                     (sn ++ "_" ++ t0 ++ "." ++ py_str (format m))) d)
        as (ok & d1 & later & Hdown & _).
      unfold dbind at 1 in Hrun. rewrite Hdown in Hrun.
      exact (IH _ _ _ Hrun).
    + injection Hrun as <- _.
      destruct (safe_name_raises _ _ Hsafe) as [Hclass Hname].
      split; [tauto | right; exact Hname].
  - unfold dbind at 1 in Hrun. unfold dlog at 1 in Hrun.
    exact (IH _ _ _ Hrun).
  - injection Hrun as <- _.
    destruct (best_media_raise _ _ _ _ Hbest) as [Hclass Hm].
    split; [left; exact Hclass | left; exact Hm].
Qed.

Lemma dict_lookup_app {V : Type} (k : string) (l1 l2 : list (string * V)) :
  dict_lookup k (l1 ++ l2)
  = match dict_lookup k l1 with
    | Some v => Some v
    | None => dict_lookup k l2
    end.
Proof.
  induction l1 as [|[k1 v1] l1 IH]; [reflexivity|].
  cbn [app dict_lookup]. destruct (String.eqb k k1); [reflexivity | exact IH].
Qed.

(** The loop goes through the types as [batch] says, and the dict it
    returns holds the last outcome of each. *)
Lemma download_each_batch (game_info : GameInfo) (name : string)
    (output_dir : string) (preferred_regions : option (list string)) :
  Model.name game_info = PStr name ->
  forall media_types,
    (forall t, In t media_types ->
               exists choice,
                 get_best_media game_info t preferred_regions = Ok choice) ->
    forall results d,
    exists results' d' outcomes,
      download_each game_info output_dir preferred_regions media_types results d
      = (Ok results', d') /\
      batch game_info name output_dir preferred_regions media_types d outcomes d' /\
      map fst outcomes = media_types /\
      (forall t, dict_lookup t results'
                 = match last_outcome t outcomes with
                   | Some ok => Some ok
                   | None => dict_lookup t results
                   end).
Proof.
  intros Hname. induction media_types as [|t0 rest IH]; intros Hselect results d.
  - exists results, d, []. split; [reflexivity|]. split; [constructor|].
    split; reflexivity.
  - assert (Hrest : forall t, In t rest ->
                              exists choice,
                                get_best_media game_info t preferred_regions
                                = Ok choice).
    { intros t Ht. apply Hselect. now right. }
    destruct (Hselect t0 (or_introl eq_refl)) as (choice & Hbest).
    cbn [download_each]. unfold dbind at 1. unfold dlift at 1. rewrite Hbest.
    destruct choice as [m|].
    + unfold dbind at 1. unfold dlift at 1. rewrite Hname, safe_name_text.
      fold (file_name name t0 m).
      set (save_path := path_join output_dir (file_name name t0 m)).
      destruct (download_ends m save_path d) as (ok & d1 & later & Hrun & _).
      unfold dbind at 1. rewrite Hrun.
      destruct (IH Hrest (dict_set t0 ok results) d1)
        as (results' & d' & outcomes & Heach & Hbatch & Htypes & Hlook).
      exists results', d', ((t0, ok) :: outcomes).
      split; [exact Heach|].
      split; [exact (batch_download _ _ _ _ _ _ _ ok _ _ _ _ Hbest Hrun Hbatch)|].
      split; [cbn [map fst]; now rewrite Htypes|].
      intros t. rewrite Hlook. unfold last_outcome. cbn [rev].
      rewrite dict_lookup_app.
      destruct (dict_lookup t (rev outcomes)); [reflexivity|].
      rewrite dict_lookup_set. cbn [dict_lookup].
      destruct (String.eqb t t0); reflexivity.
    + unfold dbind at 1. unfold dlog at 1.
      assert (Hstr : py_str (Model.name game_info) = name)
        by (rewrite Hname; reflexivity).
      rewrite Hstr.
      destruct (IH Hrest (dict_set t0 false results)
                  (io_emit (IoLogWarning ("No " ++ t0 ++ " media found for "
                                          ++ name)) d))
        as (results' & d' & outcomes & Heach & Hbatch & Htypes & Hlook).
      exists results', d', ((t0, false) :: outcomes).
      split; [exact Heach|].
      split; [exact (batch_no_media _ _ _ _ _ _ _ _ _ Hbest Hbatch)|].
      split; [cbn [map fst]; now rewrite Htypes|].
      intros t. rewrite Hlook. unfold last_outcome. cbn [rev].
      rewrite dict_lookup_app.
      destruct (dict_lookup t (rev outcomes)); [reflexivity|].
      rewrite dict_lookup_set. cbn [dict_lookup].
      destruct (String.eqb t t0); reflexivity.
Qed.

(** X23. For a record whose name and regions are strs, and an output
    directory that can be made, [download_media] returns a dict with an
    entry for each requested type and for no other key, whatever the web
    and the disk do during the downloads: a download that fails gives
    False and the loop goes on. The entry of a type is what its download
    returned: the loop takes the types in order, a type with a media
    comes to the value [download] returns for the best media and the file
    under the output directory named by the safe name, the type and the
    media's format, on the disk the types before it left; a type without
    media in the record comes to False; and the dict holds for each type
    its last outcome. One GET is sent for each requested type that has a
    media, and every request, directory and file is that of the best media
    of a requested type. *)
Theorem download_media_answers_every_type
    (self : ScreenScraperClient) (game_info : GameInfo) (name : string)
    (media_types : list string) (output_dir : string)
    (preferred_regions : option (list string)) (d : Disk) :
  Model.name game_info = PStr name ->
  Forall has_str_region (media game_info) ->
  mkdir_error d (moment d) output_dir = None ->
  exists results d' events outcomes,
    download_media self game_info media_types output_dir preferred_regions d
    = (Ok results, d') /\
    io_trace d' = (io_trace d ++ IoMkdir output_dir :: events)%list /\
    (forall t, dict_has t results = true <-> In t media_types) /\
    (forall t, In t media_types -> get_media_by_type game_info t = [] ->
               dict_lookup t results = Some false) /\
    List.length (filter is_io_get events)
    = List.length (with_media game_info media_types) /\
    Forall (from_request game_info name output_dir preferred_regions media_types)
           events /\
    batch game_info name output_dir preferred_regions media_types
          (io_emit (IoMkdir output_dir) d) outcomes d' /\
    map fst outcomes = media_types /\
    (forall t, dict_lookup t results = last_outcome t outcomes).
Proof.
  intros Hname Hstr Hmkdir.
  unfold download_media, dbind, mkdir_parents. rewrite Hmkdir.
  destruct (download_each_ok game_info name output_dir preferred_regions Hname
              media_types
              (fun t _ => best_media_ok game_info t preferred_regions Hstr)
              [] (io_emit (IoMkdir output_dir) d))
    as (results & d' & events & Hrun & _ & Htrace & Hevents & Hcount & Hother & Hasked).
  destruct (download_each_batch game_info name output_dir preferred_regions Hname
              media_types
              (fun t _ => best_media_ok game_info t preferred_regions Hstr)
              [] (io_emit (IoMkdir output_dir) d))
    as (results2 & d2 & outcomes & Hrun2 & Hbatch & Htypes & Hlook).
  rewrite Hrun in Hrun2. injection Hrun2 as <- <-.
  exists results, d', events, outcomes. split; [exact Hrun|].
  split; [rewrite Htrace; cbn [io_trace io_emit]; now rewrite <- app_assoc|].
  split.
  { intros t. unfold dict_has. split.
    - intros Hhas. destruct (in_dec string_dec t media_types) as [Hin | Hout];
        [exact Hin|].
      rewrite (Hother t Hout) in Hhas. discriminate Hhas.
    - intros Hin. destruct (Hasked t Hin) as (ok & -> & _). reflexivity. }
  split.
  { intros t Hin Hnil. destruct (Hasked t Hin) as (ok & Hlook' & Hfalse).
    rewrite Hlook', (Hfalse Hnil). reflexivity. }
  split; [exact Hcount|]. split; [exact Hevents|].
  split; [exact Hbatch|]. split; [exact Htypes|].
  intros t. rewrite Hlook. cbn [dict_lookup].
  destruct (last_outcome t outcomes); reflexivity.
Qed.

(** X24. [download_media] raises in two cases only. The output directory
    cannot be made: the exception of [mkdir] goes to the caller before
    anything is requested. Or the record is mistyped, a region or the name
    is not a str: [AttributeError] or [TypeError] goes to the caller from
    the middle of the loop, and the results so far are lost. No failure of
    a download makes it raise. *)
Theorem download_media_raises_for_two_reasons
    (self : ScreenScraperClient) (game_info : GameInfo)
    (media_types : list string) (output_dir : string)
    (preferred_regions : option (list string)) (d d' : Disk) (e : exn) :
  download_media self game_info media_types output_dir preferred_regions d
  = (Raise e, d') ->
  (mkdir_error d (moment d) output_dir = Some e /\
   d' = io_emit (IoMkdir output_dir) d) \/
  (mkdir_error d (moment d) output_dir = None /\
   (exn_class e = AttributeError \/ exn_class e = TypeError) /\
   ((exists m, In m (media game_info) /\ forall r, region m <> PStr r) \/
    (forall s, Model.name game_info <> PStr s))).
Proof.
  unfold download_media, dbind, mkdir_parents.
  destruct (mkdir_error d (moment d) output_dir) as [e0|].
  - intros Hrun. injection Hrun as <- <-. left. split; reflexivity.
  - intros Hrun. right. split; [reflexivity|].
    exact (download_each_raises _ _ _ _ _ _ _ _ Hrun).
Qed.
End MediaBatch.

Example two_kinds_one_file :
  let rt := table_runtime [] in
  let d := quiet_disk (ok_stream [[x01; x02]; [x03]]) in
  exists d',
    @download_media rt plain_host (new_client "dev" "secret") game_jp_eu
      ["box-2D"; "video"] "art" None d
    = (Ok [("box-2D", true); ("video", false)], d') /\
    files d' = [("art/Game_box-2D.png", [x01; x02; x03])] /\
    filter is_io_get (io_trace d') = [IoGet (PStr "http://media/eu.png")].
Proof. eexists. split; [vm_compute; reflexivity|]. split; reflexivity. Qed.

Lemma download_true_means_stored_witness :
  let rt := table_runtime [] in
  let d := quiet_disk (ok_stream [[x01; x02]; [x03]]) in
  exists d',
    @download rt plain_host (box "eu" "http://media/eu.png") "art/box.png" d
    = (Ok true, d') /\
    dict_lookup "art/box.png" (files d') = Some [x01; x02; x03].
Proof.
  intros rt d.
  destruct (@download rt plain_host (box "eu" "http://media/eu.png") "art/box.png" d)
    as [ok d'] eqn:Hrun.
  assert (Hok : ok = Ok true) by (vm_compute in Hrun; now injection Hrun as <- _).
  subst ok. exists d'. split; [reflexivity|].
  destruct (@download_true_means_stored rt plain_host _ _ _ _ Hrun)
    as (r & chunks & Hweb & _ & Hstores & _).
  injection Hweb as _ <-.
  rewrite (Hstores "art/box.png"). reflexivity.
Defined.

Lemma failed_download_is_not_atomic_witness :
  let rt := table_runtime [] in
  let d := mk_Disk (fun _ _ => ok_stream [[x01; x02]; [x03]])
             (fun _ _ => None) (fun _ _ => None)
             (fun t _ => match t with
                         | 4%nat => Some (mk_exn OSError "[Errno 28] No space left on device")
                         | _ => None
                         end)
             [("art/box.png", [x0a; x0b; x0c; x0d])] [] in
  exists d',
    @download rt plain_host (box "eu" "http://media/eu.png") "art/box.png" d
    = (Ok false, d') /\
    dict_lookup "art/box.png" (files d) = Some [x0a; x0b; x0c; x0d] /\
    dict_lookup "art/box.png" (files d') = Some [x01; x02].
Proof.
  intros rt d.
  destruct (@download rt plain_host (box "eu" "http://media/eu.png") "art/box.png" d)
    as [ok d'] eqn:Hrun.
  assert (Hok : ok = Ok false) by (vm_compute in Hrun; now injection Hrun as <- _).
  subst ok. exists d'. split; [reflexivity|]. split; [reflexivity|].
  destruct (@failed_download_is_not_atomic rt plain_host _ _ _ _ Hrun)
    as [[Hnone _] | (chunks & broken & k & Hreach & Hk & _ & Hstores)].
  - discriminate Hnone.
  - injection Hreach as <- _. rewrite (Hstores "art/box.png"). subst k. reflexivity.
Defined.

Lemma download_media_answers_every_type_witness :
  let rt := table_runtime [] in
  let d := one_file_disk "http://media/eu.png" [[x01; x02]; [x03]] in
  Model.name game_with_video = PStr "Game" /\
  Forall has_str_region (media game_with_video) /\
  mkdir_error d (moment d) "art" = None /\
  exists results d' events outcomes,
    @download_media rt plain_host (new_client "dev" "secret") game_with_video
      ["box-2D"; "video"; "manual"] "art" None d = (Ok results, d') /\
    @batch rt plain_host game_with_video "Game" "art" None
      ["box-2D"; "video"; "manual"] (io_emit (IoMkdir "art") d) outcomes d' /\
    outcomes = [("box-2D", true); ("video", false); ("manual", false)] /\
    dict_lookup "box-2D" results = Some true /\
    dict_lookup "video" results = Some false /\
    dict_lookup "manual" results = Some false /\
    List.length (filter is_io_get events) = 2%nat /\
    files d' = [("art/Game_box-2D.png", [x01; x02; x03])].
Proof.
  intros rt d.
  assert (Hstr : Forall has_str_region (media game_with_video)).
  { repeat (constructor; [eexists; reflexivity|]). constructor. }
  split; [reflexivity|]. split; [exact Hstr|]. split; [reflexivity|].
  destruct (@download_media_answers_every_type rt plain_host
              (new_client "dev" "secret") game_with_video "Game"
              ["box-2D"; "video"; "manual"] "art" None d eq_refl Hstr eq_refl)
    as (results & d' & events & outcomes & Hrun & _ & _ & _ & Hcount & _
        & Hbatch & _ & Hlook).
  exists results, d', events, outcomes. split; [exact Hrun|].
  split; [exact Hbatch|].
  assert (Houtcomes : outcomes = [("box-2D", true); ("video", false); ("manual", false)]).
  { clear Hrun Hlook Hcount.
    repeat match goal with
           | Hb : batch _ _ _ _ _ _ _ _ |- _ =>
               inversion Hb; clear Hb; subst
           | Hbest : get_best_media _ _ _ = _ |- _ =>
               vm_compute in Hbest;
               first [discriminate Hbest | injection Hbest as <- | clear Hbest]
           | Hdown : download _ _ _ = _ |- _ =>
               vm_compute in Hdown; injection Hdown as <- <-
           end.
    reflexivity. }
  split; [exact Houtcomes|].
  rewrite !Hlook, Houtcomes.
  split; [reflexivity|]. split; [reflexivity|]. split; [reflexivity|].
  split; [exact Hcount|].
  vm_compute in Hrun. now injection Hrun as _ <-.
Defined.

Lemma download_media_raises_for_two_reasons_witness :
  let rt := table_runtime [] in
  let d := quiet_disk (ok_stream []) in
  let g := mk_GameInfo "1" PNone (PStr "") (PStr "") (PStr "") (PStr "")
             (PStr "") (PStr "") (PStr "") (PStr "")
             [box "eu" "http://media/eu.png"] (PDict []) in
  exists e d',
    @download_media rt plain_host (new_client "dev" "secret") g
      ["video"; "box-2D"; "screenshot"] "art" None d = (Raise e, d') /\
    exn_class e = TypeError /\
    forall s, Model.name g <> PStr s.
Proof.
  intros rt d g.
  destruct (@download_media rt plain_host (new_client "dev" "secret") g
              ["video"; "box-2D"; "screenshot"] "art" None d)
    as [[results|e] d'] eqn:Hrun; [vm_compute in Hrun; discriminate Hrun|].
  exists e, d'. split; [reflexivity|].
  split; [vm_compute in Hrun; now injection Hrun as <- _|].
  destruct (@download_media_raises_for_two_reasons rt plain_host _ _ _ _ _ _ _ _ Hrun)
    as [[Hmkdir _] | (_ & _ & [(m & Hin & Hregion) | Hname])].
  - discriminate Hmkdir.
  - exfalso. destruct Hin as [<- | []]. exact (Hregion "eu" eq_refl).
  - exact Hname.
Defined.

(** *** Box art for a file *)

Section BoxArt.
Context `{Runtime} `{Host}.

Lemma download_media_made (self : ScreenScraperClient) (game_info : GameInfo)
    (media_types : list string) (output_dir : string)
    (preferred_regions : option (list string)) (d : Disk) :
  mkdir_error d (moment d) output_dir = None ->
  download_media self game_info media_types output_dir preferred_regions d
  = download_each game_info output_dir preferred_regions media_types []
      (io_emit (IoMkdir output_dir) d).
Proof.
  intros Hmkdir. unfold download_media, dbind, mkdir_parents.
  rewrite Hmkdir. reflexivity.
Qed.

(** X25. [quick_search] is [search_by_file] on a client of its own, made with
    the defaults and dropped. [download_box_art] follows it: an exception
    of the search goes to the caller and no result gives False, in both
    cases with the disk untouched, not even the output directory made.
    For a record found whose name is a str, it makes the output directory
    and returns what the one download returns: the value [download] gives
    for the best box-2D under the default regions and the file named by
    the safe name, [box-2D] and the media's format, with the disk that
    download left; without a box-2D it returns False with a line in the
    log and no request. An output directory that cannot be made raises. *)
Theorem box_art_follows_the_search
    (dev_id dev_password rom_path platform output_dir : string)
    (user_id user_password : option string) (w : World) (d : Disk)
    (found : result (option GameInfo)) (c' : ScreenScraperClient) (w' : World) :
  search_by_file rom_path platform None
    (__init__ dev_id dev_password "ScreenScraperPython" user_id user_password
       "en" 10000 1%float) w = (found, c', w') ->
  quick_search dev_id dev_password rom_path platform user_id user_password w
  = (found, w') /\
  match found with
  | Raise e =>
      download_box_art dev_id dev_password rom_path platform output_dir
        user_id user_password w d = (Raise e, w', d)
  | Ok None =>
      download_box_art dev_id dev_password rom_path platform output_dir
        user_id user_password w d = (Ok false, w', d)
  | Ok (Some game_info) =>
      let made := io_emit (IoMkdir output_dir) d in
      (forall e,
          mkdir_error d (moment d) output_dir = Some e ->
          download_box_art dev_id dev_password rom_path platform output_dir
            user_id user_password w d = (Raise e, w', made)) /\
      (forall name,
          Model.name game_info = PStr name ->
          mkdir_error d (moment d) output_dir = None ->
          (forall media ok d',
              get_best_media game_info "box-2D" None = Ok (Some media) ->
              download media
                (path_join output_dir (file_name name "box-2D" media)) made
              = (Ok ok, d') ->
              download_box_art dev_id dev_password rom_path platform output_dir
                user_id user_password w d = (Ok ok, w', d')) /\
          (get_best_media game_info "box-2D" None = Ok None ->
           download_box_art dev_id dev_password rom_path platform output_dir
             user_id user_password w d
           = (Ok false, w',
              io_emit (IoLogWarning ("No box-2D media found for " ++ name)) made)) /\
          (Forall has_str_region (media game_info) ->
           exists ok d' events,
             download_box_art dev_id dev_password rom_path platform output_dir
               user_id user_password w d = (Ok ok, w', d') /\
             io_trace d' = (io_trace d ++ IoMkdir output_dir :: events)%list /\
             List.length (filter is_io_get events)
             = List.length (with_media game_info ["box-2D"]) /\
             (get_media_by_type game_info "box-2D" = [] -> ok = false) /\
             Forall (from_request game_info name output_dir None ["box-2D"])
                    events))
  end.
Proof.
  intros Hsearch.
  assert (Hquick : quick_search dev_id dev_password rom_path platform
                     user_id user_password w = (found, w')).
  { unfold quick_search. cbv zeta. now rewrite Hsearch. }
  split; [exact Hquick|].
  unfold download_box_art. rewrite Hquick.
  destruct found as [[game_info|]|e]; try reflexivity.
  set (made := io_emit (IoMkdir output_dir) d). split.
  { intros e Hmkdir. unfold download_media, dbind, mkdir_parents.
    rewrite Hmkdir. reflexivity. }
  intros name Hname Hmkdir.
  rewrite (download_media_made _ _ _ _ _ _ Hmkdir). fold made.
  split; [| split].
  - intros media ok d' Hbest Hdown.
    cbn [download_each]. unfold dbind at 1. unfold dlift at 1. rewrite Hbest.
    unfold dbind at 1. unfold dlift at 1. rewrite Hname, safe_name_text.
    fold (file_name name "box-2D" media).
    unfold dbind at 1. rewrite Hdown. cbn [download_each dret dict_set dict_lookup].
    reflexivity.
  - intros Hbest.
    cbn [download_each]. unfold dbind at 1. unfold dlift at 1. rewrite Hbest.
    unfold dbind at 1. unfold dlog at 1. rewrite Hname.
    cbn [download_each dret dict_set dict_lookup py_str].
    reflexivity.
  - intros Hstr.
    destruct (download_each_ok game_info name output_dir None Hname ["box-2D"]
                (fun t _ => best_media_ok game_info t None Hstr) [] made)
      as (results & d' & events & Hrun & _ & Htrace & Hevents & Hcount & _ & Hasked).
    rewrite Hrun.
    destruct (Hasked "box-2D" (or_introl eq_refl)) as (ok & Hlook & Hfalse).
    rewrite Hlook.
    exists ok, d', events. split; [reflexivity|].
    split; [rewrite Htrace; unfold made; cbn [io_trace io_emit];
            now rewrite <- app_assoc|].
    split; [exact Hcount|]. split; [exact Hfalse | exact Hevents].
Qed.
End BoxArt.

Lemma box_art_follows_the_search_witness :
  let rt := table_runtime [("{}", response_with mario_jeu)] in
  let w := simple_world [("roms/abc.nes", Regular (list_byte_of_string "abc"))]
             (ok_response "{}") in
  let d := quiet_disk (ok_stream [[x01]]) in
  let down := quiet_disk (GetRaises (mk_exn RequestException "timed out")) in
  let eu := mk_GameMedia (PStr "box-2D") (PStr "http://media/eu.png") (PStr "")
              (PStr "eu") (PStr "") in
  exists game_info w' d' down',
    @quick_search rt "dev" "secret" "roms/abc.nes" "nes" None None w
    = (Ok (Some game_info), w') /\
    Model.name game_info = PStr "Hello" /\
    get_best_media game_info "box-2D" None = Ok (Some eu) /\
    @download rt plain_host eu "art/Hello_box-2D." (io_emit (IoMkdir "art") d)
    = (Ok true, d') /\
    @download_box_art rt plain_host "dev" "secret" "roms/abc.nes" "nes" "art"
      None None w d = (Ok true, w', d') /\
    files d' = [("art/Hello_box-2D.", [x01])] /\
    @download rt plain_host eu "art/Hello_box-2D." (io_emit (IoMkdir "art") down)
    = (Ok false, down') /\
    @download_box_art rt plain_host "dev" "secret" "roms/abc.nes" "nes" "art"
      None None w down = (Ok false, w', down') /\
    files down' = [].
Proof.
  intros rt w d down eu.
  destruct (@search_by_file rt "roms/abc.nes" "nes" None
              (__init__ "dev" "secret" "ScreenScraperPython" None None "en"
                 10000 1%float) w) as [[found c'] w'] eqn:Hsearch.
  destruct found as [[game_info|]|e];
    [| vm_compute in Hsearch; discriminate Hsearch
     | vm_compute in Hsearch; discriminate Hsearch].
  assert (Hrecord : Model.name game_info = PStr "Hello" /\
                    get_best_media game_info "box-2D" None = Ok (Some eu)).
  { vm_compute in Hsearch. injection Hsearch as <- _ _. split; reflexivity. }
  destruct Hrecord as [Hname Hbest].
  destruct (@download rt plain_host eu "art/Hello_box-2D."
              (io_emit (IoMkdir "art") d)) as [ok d'] eqn:Hdown.
  assert (Hok : ok = Ok true /\ files d' = [("art/Hello_box-2D.", [x01])])
    by (vm_compute in Hdown; injection Hdown as <- <-; split; reflexivity).
  destruct Hok as [-> Hfiles].
  destruct (@download rt plain_host eu "art/Hello_box-2D."
              (io_emit (IoMkdir "art") down)) as [ok2 down'] eqn:Hdown2.
  assert (Hok2 : ok2 = Ok false /\ files down' = [])
    by (vm_compute in Hdown2; injection Hdown2 as <- <-; split; reflexivity).
  destruct Hok2 as [-> Hfiles2].
  exists game_info, w', d', down'.
  destruct (@box_art_follows_the_search rt plain_host "dev" "secret"
              "roms/abc.nes" "nes" "art" None None w d _ c' w' Hsearch)
    as (Hquick & _ & Hfound).
  destruct (Hfound "Hello" Hname eq_refl) as (Hvalue & _).
  destruct (@box_art_follows_the_search rt plain_host "dev" "secret"
              "roms/abc.nes" "nes" "art" None None w down _ c' w' Hsearch)
    as (_ & _ & Hfound2).
  destruct (Hfound2 "Hello" Hname eq_refl) as (Hvalue2 & _).
  split; [exact Hquick|]. split; [exact Hname|]. split; [exact Hbest|].
  split; [reflexivity|].
  split; [exact (Hvalue eu true d' Hbest Hdown)|]. split; [exact Hfiles|].
  split; [reflexivity|].
  split; [exact (Hvalue2 eu false down' Hbest Hdown2) | exact Hfiles2].
Defined.

(** *** The delay between requests *)

Section Pacing.
Context `{Runtime}.



End Pacing.


